(** * Daily sales regularisation, anomaly join and insight cards

    A shallow embedding of [anomaly_detection.py] (the batch script) and
    [app.py] (the dashboard) together with the properties their
    specification states about them.

    Modelling conventions.
    - A pandas [Timestamp] is the integer number of nanoseconds since the
      epoch ([datetime64[ns]]); a calendar day is the integer number of days
      since the epoch.  Timestamps are taken inside the representable range,
      so no [OutOfBoundsDatetime] is modelled.
    - Numeric cells are exact rationals: the rounding of IEEE doubles is not
      part of the model.  A missing number is [NaN].
    - The columns of the raw input hold no missing values.
    - A Python exception is a value [Raise e] of the type [result]. *)

From Stdlib Require Import ZArith QArith List String Ascii Bool Lia.
From Stdlib Require Import Sorting.Sorted Sorting.Permutation.
From stdpp Require Import gmap strings pretty.
Import ListNotations.

Set Default Proof Using "Type".

(** ** Exceptions *)

Inductive exn : Type :=
| ValueError (msg : string)
| KeyError (msg : string)
| TypeError (msg : string)
| MergeError (msg : string)
| OSError (errno : Z) (msg : string).

Inductive result (A : Type) : Type :=
| Ok (a : A)
| Raise (e : exn).

Arguments Ok {A} a.
Arguments Raise {A} e.

#[global] Instance result_ret : MRet result := fun A a => Ok a.

#[global] Instance result_bind : MBind result := fun A B k m =>
  match m with
  | Ok a => k a
  | Raise e => Raise e
  end.

(** ** The pandas operations the two programs use *)

Module pd.

(** [Timestamp]: nanoseconds since the epoch. *)
Definition Timestamp : Type := Z.

Bind Scope Z_scope with Timestamp.

Definition ns_per_day : Z := 86400000000000.

(** [pd.Timedelta(days=n)] *)
Definition Timedelta (days : Z) : Z := (days * ns_per_day)%Z.

(** [Series.dt.date] on one timestamp: the calendar day, time of day
    discarded. *)
Definition dt_date (t : Timestamp) : Z := (t / ns_per_day)%Z.

(** [pd.to_datetime] on a [datetime.date]: midnight of that day. *)
Definition to_datetime (d : Z) : Timestamp := (d * ns_per_day)%Z.

(** [pd.date_range(start, end, freq='D')]: [start], [start + 1 day], ...
    while not after [end].  The time of day of [start] is kept. *)
Definition date_range (start stop : Timestamp) : list Timestamp :=
  map (fun i => (start + Z.of_nat i * ns_per_day)%Z)
      (seq 0 (Z.to_nat ((stop - start) / ns_per_day + 1))).

(** [Series.max()] and [Series.min()] on timestamps; [None] is [NaT], the
    answer for an empty column. *)
Definition series_max (l : list Timestamp) : option Timestamp :=
  match l with
  | [] => None
  | t :: l' => Some (fold_left Z.max l' t)
  end.

Definition series_min (l : list Timestamp) : option Timestamp :=
  match l with
  | [] => None
  | t :: l' => Some (fold_left Z.min l' t)
  end.

(** [Series.sum()]: left to right from zero. *)
Definition series_sum (l : list Q) : Q := fold_left Qplus l 0%Q.

(** [Series.unique()]: distinct values in order of first appearance. *)
Fixpoint unique (l : list string) : list string :=
  match l with
  | [] => []
  | x :: l' => x :: List.filter (fun z => negb (String.eqb z x)) (unique l')
  end.

(** [pd.concat(dfs)] raises on an empty list of frames. *)
Definition concat {A : Type} (dfs : list (list A)) : result (list A) :=
  match dfs with
  | [] => Raise (ValueError "No objects to concatenate")
  | _ => Ok (List.concat dfs)
  end.

(** Sorted, duplicate-free insertion: how a group-by lays out its keys. *)
Fixpoint insert_uniq {A : Type} (cmp : A -> A -> comparison) (x : A)
    (l : list A) : list A :=
  match l with
  | [] => [x]
  | h :: t =>
      match cmp x h with
      | Lt => x :: l
      | Eq => l
      | Gt => h :: insert_uniq cmp x t
      end
  end.

Definition sort_uniq {A : Type} (cmp : A -> A -> comparison) (l : list A)
    : list A :=
  fold_right (insert_uniq cmp) [] l.

(** Stable insertion sort: [DataFrame.sort_values]. *)
Fixpoint insert_sorted {A : Type} (cmp : A -> A -> comparison) (x : A)
    (l : list A) : list A :=
  match l with
  | [] => [x]
  | h :: t =>
      match cmp x h with
      | Gt => h :: insert_sorted cmp x t
      | _ => x :: l
      end
  end.

Definition sort_by {A : Type} (cmp : A -> A -> comparison) (l : list A)
    : list A :=
  fold_right (insert_sorted cmp) [] l.

End pd.

(** ** The series table: columns [ds], [unique_id], [y] *)

Record Row : Type := mkRow {
  ds : pd.Timestamp;
  unique_id : string;
  y : Q
}.

(** A group-by key: (entity id, calendar day). *)
Definition key : Type := (string * Z)%type.

Definition key_compare (a b : key) : comparison :=
  match String.compare (fst a) (fst b) with
  | Eq => Z.compare (snd a) (snd b)
  | c => c
  end.

Definition key_eqb (a b : key) : bool :=
  String.eqb (fst a) (fst b) && Z.eqb (snd a) (snd b).

Definition row_key (r : Row) : key := (unique_id r, pd.dt_date (ds r)).

(** The order of [sort_values(['unique_id', 'ds'])]. *)
Definition row_compare (r1 r2 : Row) : comparison :=
  match String.compare (unique_id r1) (unique_id r2) with
  | Eq => Z.compare (ds r1) (ds r2)
  | c => c
  end.

Definition sort_values (rows : list Row) : list Row :=
  pd.sort_by row_compare rows.

Definition has_id (uid : string) (r : Row) : bool :=
  String.eqb (unique_id r) uid.

(** [df.groupby(['unique_id', df['ds'].dt.date]).agg({'y': 'sum'})
       .reset_index()], followed by [pd.to_datetime] on the day column:
    one row per distinct (entity, day), keys ascending, the values of the
    group summed in row order, the day turned back into its midnight. *)
Definition group_rows (k : key) (rows : list Row) : list Row :=
  List.filter (fun r => key_eqb (row_key r) k) rows.

Definition daily_aggregate (rows : list Row) : list Row :=
  map (fun k => mkRow (pd.to_datetime (snd k)) (fst k)
                  (pd.series_sum (map y (group_rows k rows))))
      (pd.sort_uniq key_compare (map row_key rows)).

(** [fillna(0)] on one cell of the value column. *)
Definition fillna0 (o : option Q) : Q :=
  match o with
  | Some q => q
  | None => 0%Q
  end.

(** ** Data frames with a schema known only at run time

    The response of the external service, and every frame joined with it, has
    whatever columns the service chose: a list of column labels and rows of
    cells. *)

Inductive Cell : Type :=
| CTime (t : pd.Timestamp)
| CStr (s : string)
| CNum (q : Q)
| CBool (b : bool)
| CNaN.

Record DataFrame : Type := mkFrame {
  columns : list string;
  data : list (list Cell)
}.

(** [pd.DataFrame()] *)
Definition empty_frame : DataFrame := mkFrame [] [].

(** The series table as a frame; its columns come out of both regularisers
    in the order [ds], [unique_id], [y]. *)
Definition series_columns : list string := ["ds"; "unique_id"; "y"]%string.

Definition row_cells (r : Row) : list Cell :=
  [CTime (ds r); CStr (unique_id r); CNum (y r)].

Definition to_frame (rows : list Row) : DataFrame :=
  mkFrame series_columns (map row_cells rows).

Definition mem (c : string) (l : list string) : bool :=
  existsb (String.eqb c) l.

Definition has_column (c : string) (df : DataFrame) : bool :=
  mem c (columns df).

Fixpoint index_of (c : string) (cols : list string) : option nat :=
  match cols with
  | [] => None
  | h :: t => if String.eqb c h then Some 0%nat else option_map S (index_of c t)
  end.

(** [row[c]] for a row of a frame with columns [cols]. *)
Definition row_get (cols : list string) (row : list Cell) (c : string)
    : option Cell :=
  match index_of c cols with
  | Some i => nth_error row i
  | None => None
  end.

(** Equality of join keys; missing keys match each other, as pandas has it. *)
Definition cell_eqb (a b : Cell) : bool :=
  match a, b with
  | CTime s, CTime t => Z.eqb s t
  | CStr s, CStr t => String.eqb s t
  | CNum p, CNum q => Qeq_bool p q
  | CBool p, CBool q => Bool.eqb p q
  | CNaN, CNaN => true
  | _, _ => false
  end.

Definition opt_cell_eqb (a b : option Cell) : bool :=
  match a, b with
  | Some x, Some y => cell_eqb x y
  | _, _ => false
  end.

(** [Index.duplicated()]: true at every occurrence but the first. *)
Fixpoint duplicated_from (seen : list string) (l : list string) : list bool :=
  match l with
  | [] => []
  | x :: t => mem x seen :: duplicated_from (x :: seen) t
  end.

Definition duplicated (l : list string) : list bool := duplicated_from [] l.

Fixpoint zip3 (a : list string) (b c : list bool)
    : list (string * (bool * bool)) :=
  match a, b, c with
  | x :: a', y :: b', z :: c' => (x, (y, z)) :: zip3 a' b' c'
  | _, _, _ => []
  end.

(** Labels that are duplicates after the suffixes were added and were not
    before: [labels[labels.duplicated() & ~before.duplicated()]]. *)
Definition new_duplicates (before labels : list string) : list string :=
  map fst (List.filter (fun p => fst (snd p) && negb (snd (snd p)))
                       (zip3 labels (duplicated labels) (duplicated before))).

Inductive How : Type := how_left | how_inner.

Definition non_key (on : list string) (cols : list string) : list string :=
  List.filter (fun c => negb (mem c on)) cols.

Definition non_key_cells (on cols : list string) (row : list Cell)
    : list Cell :=
  map snd (List.filter (fun p => negb (mem (fst p) on)) (combine cols row)).

Definition add_suffix (overlap : list string) (suffix : string) (c : string)
    : string :=
  if mem c overlap then String.append c suffix else c.

Definition same_keys (on : list string) (lcols : list string)
    (lrow : list Cell) (rcols : list string) (rrow : list Cell) : bool :=
  forallb (fun k => opt_cell_eqb (row_get lcols lrow k) (row_get rcols rrow k))
          on.

(** The dtype of a column.  A frame is a list of rows of cells here, so the
    dtype of a column is the one pandas infers from its cells: timestamps,
    some of them missing, are [datetime64]; numbers and missing values are
    [float64]; booleans are [bool]; anything else, texts and mixtures, is
    [object]. *)
Inductive Dtype : Type := datetime64 | float64 | bool_dtype | object_dtype.

Definition infer_dtype (cells : list Cell) : Dtype :=
  if forallb (fun c => match c with CTime _ | CNaN => true | _ => false end)
             cells
     && existsb (fun c => match c with CTime _ => true | _ => false end) cells
  then datetime64
  else if forallb (fun c => match c with CNum _ | CNaN => true | _ => false end)
                  cells
  then float64
  else if forallb (fun c => match c with CBool _ => true | _ => false end) cells
  then bool_dtype
  else object_dtype.

(** [df[c]] as a list of cells. *)
Definition column_cells (df : DataFrame) (c : string) : list Cell :=
  omap (fun row => row_get (columns df) row c) (data df).

(** The check of the dtypes of a pair of join keys.  It is skipped when
    exactly one side has no rows.  Timestamps join with timestamps only, and
    a column of texts does not join with a column of numbers; an [object]
    column is taken to hold texts, as the entity ids do.  Two columns
    without rows show no dtype here and pass; the series has rows at the
    joins of both programs. *)
Definition merge_keys_compatible (lk rk : list Cell) : bool :=
  match lk, rk with
  | [], _ :: _ | _ :: _, [] => true
  | _, _ =>
      match infer_dtype lk, infer_dtype rk with
      | datetime64, datetime64 => true
      | datetime64, _ | _, datetime64 => false
      | object_dtype, float64 | float64, object_dtype => false
      | _, _ => true
      end
  end.

(** [left.merge(right, on=on, how=how, suffixes=suffixes)].

    - a key absent on either side is a [KeyError];
    - keys whose dtypes do not go together are a [ValueError];
    - a non-key label present on both sides takes the suffix of its side;
      when both suffixes are empty that is a [ValueError], and labels made
      equal by the suffixes are a [MergeError];
    - the columns are those of [left] in order, then the non-key columns of
      [right];
    - rows follow the order of [left]; a left row comes once per matching
      right row, and, for [how_left] only, once with missing values when
      nothing matches. *)
Definition merge (left right : DataFrame) (on : list string) (how : How)
    (suffixes : string * string) : result DataFrame :=
  if negb (forallb (fun k => has_column k left && has_column k right) on)
  then Raise (KeyError "merge key")
  else if negb (forallb (fun k => merge_keys_compatible (column_cells left k)
                                                        (column_cells right k))
                        on)
  then Raise (ValueError "You are trying to merge on columns of different dtypes")
  else
    let lnk := non_key on (columns left) in
    let rnk := non_key on (columns right) in
    let overlap := List.filter (fun c => mem c rnk) lnk in
    let no_suffix :=
      String.eqb (fst suffixes) EmptyString
      && String.eqb (snd suffixes) EmptyString in
    if negb (match overlap with [] => true | _ => false end) && no_suffix
    then Raise (ValueError "columns overlap but no suffix specified")
    else
      let llabels := map (add_suffix overlap (fst suffixes)) lnk in
      let rlabels := map (add_suffix overlap (snd suffixes)) rnk in
      match new_duplicates lnk llabels ++ new_duplicates rnk rlabels with
      | _ :: _ =>
          Raise (MergeError "Passing 'suffixes' which cause duplicate columns")
      | [] =>
          let out_columns :=
            map (fun c => if mem c on then c
                          else add_suffix overlap (fst suffixes) c)
                (columns left) ++ rlabels in
          let join_row lrow :=
            match List.filter (same_keys on (columns left) lrow (columns right))
                              (data right) with
            | [] =>
                match how with
                | how_left => [lrow ++ map (fun _ => CNaN) rnk]
                | how_inner => []
                end
            | ms => map (fun rrow =>
                           lrow ++ non_key_cells on (columns right) rrow) ms
            end in
          Ok (mkFrame out_columns (flat_map join_row (data left)))
      end.

(** [df.rename(columns={old: new})] *)
Definition rename_column (old new : string) (df : DataFrame) : DataFrame :=
  mkFrame (map (fun c => if String.eqb c old then new else c) (columns df))
          (data df).

(** ** Python strings

    A string is a sequence of code points below 256. *)

(** [str.isspace] on one character. *)
Definition isspace (c : ascii) : bool :=
  let n := N_of_ascii c in
  ((9 <=? n) && (n <=? 13) || (28 <=? n) && (n <=? 32)
   || (n =? 133) || (n =? 160))%N.

Fixpoint lstrip (s : string) : string :=
  match s with
  | EmptyString => EmptyString
  | String c s' => if isspace c then lstrip s' else s
  end.

Fixpoint rstrip (s : string) : string :=
  match s with
  | EmptyString => EmptyString
  | String c s' =>
      match rstrip s' with
      | EmptyString => if isspace c then EmptyString else String c EmptyString
      | r => String c r
      end
  end.

(** [s.strip()] *)
Definition strip (s : string) : string := rstrip (lstrip s).

(** [c in s] for a one-character [c]. *)
Fixpoint contains_char (c : ascii) (s : string) : bool :=
  match s with
  | EmptyString => false
  | String a s' => Ascii.eqb a c || contains_char c s'
  end.

(** [sub in s] *)
Fixpoint contains (sub s : string) : bool :=
  String.prefix sub s
  || match s with
     | EmptyString => false
     | String _ s' => contains sub s'
     end.

(** [s.split(sep, 1)] for a one-character [sep]: the parts before and after
    the first [sep], or the whole string alone when there is none. *)
Fixpoint split1 (sep : ascii) (s : string) : string * option string :=
  match s with
  | EmptyString => (EmptyString, None)
  | String a s' =>
      if Ascii.eqb a sep then (EmptyString, Some s')
      else let p := split1 sep s' in (String a (fst p), snd p)
  end.

(** [c.lower()] on one character, then on a string. *)
Definition lower_char (c : ascii) : ascii :=
  let n := N_of_ascii c in
  if ((65 <=? n) && (n <=? 90)
      || (192 <=? n) && (n <=? 222) && negb (n =? 215))%N
  then ascii_of_N (n + 32) else c.

Fixpoint lower (s : string) : string :=
  match s with
  | EmptyString => EmptyString
  | String c s' => String (lower_char c) (lower s')
  end.

(** Iterating over a text file: the lines, each with its newline.  The text
    is the one Python hands to the loop, line ends already turned into
    newlines. *)
Fixpoint readlines (text : string) : list string :=
  match text with
  | EmptyString => []
  | String c s' =>
      if Ascii.eqb c "010"
      then String c EmptyString :: readlines s'
      else match readlines s' with
           | [] => [String c EmptyString]
           | l :: ls => String c l :: ls
           end
  end.

(** ** The process environment

    [os.environ] is a dictionary backed by [putenv]: a name or value with a
    NUL character is refused with a [ValueError], a name holding ['='] with
    a [ValueError], and the empty name by [setenv(3)] with [EINVAL]. *)

Definition environ_setitem (name value : string) (environ : gmap string string)
    : result unit * gmap string string :=
  if contains_char "000" name || contains_char "000" value
  then (Raise (ValueError "embedded null byte"), environ)
  else if contains_char "=" name
  then (Raise (ValueError "illegal environment variable name"), environ)
  else if String.eqb name EmptyString
  then (Raise (OSError 22 "Invalid argument"), environ)
  else (Ok tt, <[name := value]> environ).

(** The body of the loops of [load_env] (the two programs have the same). *)
Definition load_env_line (line : string) (environ : gmap string string)
    : result unit * gmap string string :=
  if contains_char "=" line
  then match split1 "=" (strip line) with
       | (key, Some value) => environ_setitem (strip key) (strip value) environ
       | (_, None) =>
           (Raise (ValueError "not enough values to unpack (expected 2, got 1)"),
            environ)
       end
  else (Ok tt, environ).

(** The [for] loop: it stops at the first exception and keeps what was
    written before it. *)
Fixpoint load_env_lines (lines : list string) (environ : gmap string string)
    : result unit * gmap string string :=
  match lines with
  | [] => (Ok tt, environ)
  | line :: rest =>
      match load_env_line line environ with
      | (Ok _, environ') => load_env_lines rest environ'
      | (Raise e, environ') => (Raise e, environ')
      end
  end.

(** ** [anomaly_detection.py]: the script, with full-span regularisation *)

Module anomaly_detection.

(** [mall_df.set_index('ds').resample('D').asfreq().reset_index()]: one row
    per day from the day of the first index entry to the day of the last;
    a day label carries the row indexed by it, or nothing. *)
Definition resample_D_asfreq (mall_df : list Row)
    : list (pd.Timestamp * option Row) :=
  match pd.series_min (map ds mall_df), pd.series_max (map ds mall_df) with
  | Some lo, Some hi =>
      map (fun t => (t, List.find (fun r => Z.eqb (ds r) t) mall_df))
          (pd.date_range (pd.to_datetime (pd.dt_date lo))
                         (pd.to_datetime (pd.dt_date hi)))
  | _, _ => []
  end.

(** The body of the loop over [all_malls] (lines 40 to 43). *)
Definition regular_mall (daily_sales : list Row) (mall : string) : list Row :=
  let mall_df := List.filter (has_id mall) daily_sales in
  map (fun p => mkRow (fst p) mall (fillna0 (option_map y (snd p))))
      (resample_D_asfreq mall_df).

(** The value of [daily_sales] at line 46 of [main], from the frame read at
    line 29 (columns renamed, dates parsed). *)
Definition main_daily_sales (df : list Row) : result (list Row) :=
  let daily_sales := daily_aggregate df in
  let all_malls := pd.unique (map unique_id daily_sales) in
  let dfs := map (regular_mall daily_sales) all_malls in
  d ← pd.concat dfs; Ok (sort_values d).

(** Lines 65 to 69 of [main]: the join with the service's answer and the
    promotion of the suffixed value column. *)
Definition promote_y (merged_df : DataFrame) : DataFrame :=
  if negb (has_column "y" merged_df) && has_column "y_anomaly" merged_df
  then rename_column "y_anomaly" "y" merged_df
  else merged_df.

Definition main_merged_df (daily_sales : list Row) (anomalies_df : DataFrame)
    : result DataFrame :=
  merged_df ← merge (to_frame daily_sales) anomalies_df
                    ["unique_id"; "ds"]%string how_left
                    (EmptyString, "_anomaly"%string);
  Ok (promote_y merged_df).

(** [load_env]: [dotenv] is the text of [.env], or [None] when the file does
    not exist. *)
Definition load_env (dotenv : option string) (environ : gmap string string)
    : result unit * gmap string string :=
  match dotenv with
  | Some text => load_env_lines (readlines text) environ
  | None => (Ok tt, environ)
  end.

End anomaly_detection.

(** ** [app.py]: the dashboard, with fixed-window regularisation *)

Module app.

(** [master_df.merge(uid_data, on='ds', how='left')]: every master row, once
    per row of [uid_data] with the same timestamp, and once with missing
    values when there is none. *)
Definition merge_left_on_ds (master_dates : list pd.Timestamp)
    (uid_data : list Row) : list (pd.Timestamp * option Row) :=
  flat_map (fun t =>
              match List.filter (fun r => Z.eqb (ds r) t) uid_data with
              | [] => [(t, None)]
              | ms => map (fun r => (t, Some r)) ms
              end)
           master_dates.

(** The body of the loop over [all_ids] (lines 114 to 119). *)
Definition pad_uid (master_dates : list pd.Timestamp) (daily_sales : list Row)
    (uid : string) : list Row :=
  let uid_data := List.filter (has_id uid) daily_sales in
  map (fun p => mkRow (fst p) uid (fillna0 (option_map y (snd p))))
      (merge_left_on_ds master_dates uid_data).

(** [preprocess_data], on the working frame of line 95.  On an empty frame
    [max()] is [NaT], and so is the cutoff; [pd.date_range] refuses that. *)
Definition preprocess_data (working_df : list Row) : result (list Row) :=
  match pd.series_max (map ds working_df) with
  | None => Raise (ValueError "Neither `start` nor `end` can be NaT")
  | Some max_date =>
      let cutoff_date := (max_date - pd.Timedelta 180)%Z in
      let master_dates := pd.date_range cutoff_date max_date in
      let daily_sales := daily_aggregate working_df in
      let all_ids := pd.unique (map unique_id daily_sales) in
      let dfs := map (pad_uid master_dates daily_sales) all_ids in
      d ← pd.concat dfs; Ok (sort_values d)
  end.

Definition load_env (dotenv : option string) (environ : gmap string string)
    : result unit * gmap string string :=
  match dotenv with
  | Some text => load_env_lines (readlines text) environ
  | None => (Ok tt, environ)
  end.

(** *** The client adapters *)

Record NixtlaClient : Type := mkNixtlaClient { api_key : string }.

Inductive Request : Type :=
| detect_anomalies_request (df : list Row) (freq : string) (level : Q)
| forecast_request (df : list Row) (h : Z) (freq : string) (level : list Z).

(** A computation that may call the service: it sees the calls issued so far
    and returns its outcome with the calls issued by its end. *)
Definition Net (A : Type) : Type := list Request -> result A * list Request.

Definition net_ret {A : Type} (a : A) : Net A := fun calls => (Ok a, calls).

Section adapters.

(** What the external service answers to a call. *)
Variable service : NixtlaClient -> Request -> result DataFrame.

Definition net_call (client : NixtlaClient) (req : Request) : Net DataFrame :=
  fun calls => (service client req, calls ++ [req]).

Definition isin (selected_items : list string) (r : Row) : bool :=
  mem (unique_id r) selected_items.

Definition detect_anomalies (df : list Row) (level : Q)
    (selected_items : list string) (key : string) : Net DataFrame :=
  let nixtla_client := mkNixtlaClient key in
  let subset_df := List.filter (isin selected_items) df in
  match subset_df with
  | [] => net_ret empty_frame
  | _ => net_call nixtla_client (detect_anomalies_request subset_df "D" level)
  end.

Definition generate_forecast (df : list Row) (selected_items : list string)
    (key : string) (horizon : Z) : Net DataFrame :=
  let nixtla_client := mkNixtlaClient key in
  let subset_df := List.filter (isin selected_items) df in
  match subset_df with
  | [] => net_ret empty_frame
  | _ => net_call nixtla_client
           (forecast_request subset_df horizon "D" [80; 90]%Z)
  end.

End adapters.

(** Line 243 of [main]: the join of the dashboard. *)
Definition main_merged_df (daily_sales : list Row) (anomalies_df : DataFrame)
    : result DataFrame :=
  merge (to_frame daily_sales) anomalies_df ["unique_id"; "ds"]%string
        how_inner (EmptyString, "_anomaly"%string).

(** *** The insight cards *)

Inductive Direction : Type := Spike | Dip.

(** A float: a rational, or [None] for NaN.  Comparisons with NaN are
    false; arithmetic on NaN is NaN.  Both divisions below sit behind a test
    for a positive divisor. *)
Definition float : Type := option Q.

Definition Qgtb (a b : Q) : bool := negb (Qle_bool a b).

Definition fgt (a b : float) : bool :=
  match a, b with
  | Some p, Some q => Qgtb p q
  | _, _ => false
  end.

Definition fdiv (a b : float) : float :=
  match a, b with
  | Some p, Some q => Some (p / q)%Q
  | _, _ => None
  end.

(** Lines 352 to 365: spike or dip, and by how much. *)
Definition classify (actual upper_bound lower_bound : float)
    : Direction * float :=
  if fgt actual upper_bound
  then (Spike,
        if fgt upper_bound (Some 0%Q) then fdiv actual upper_bound
        else fdiv actual (Some 1%Q))
  else (Dip,
        if fgt actual (Some 0%Q) then fdiv lower_bound actual
        else Some 0%Q).

Record Card : Type := mkCard {
  card_ds : Cell;
  card_unique_id : Cell;
  card_actual : float;
  card_direction : Direction;
  card_magnitude : float
}.

Definition getitem (cols : list string) (row : list Cell) (c : string)
    : result Cell :=
  match row_get cols row c with
  | Some x => Ok x
  | None => Raise (KeyError c)
  end.

(** A cell read as a number.  A text or a timestamp there is a [TypeError]
    as soon as the cell is read, also on the paths where Python would not
    come to use it. *)
Definition as_float (c : Cell) : result float :=
  match c with
  | CNum q => Ok (Some q)
  | CBool b => Ok (Some (if b then 1%Q else 0%Q))
  | CNaN => Ok None
  | CStr _ | CTime _ => Raise (TypeError "not a number")
  end.

Definition as_time (c : Cell) : result pd.Timestamp :=
  match c with
  | CTime t => Ok t
  | _ => Raise (TypeError "not a timestamp")
  end.

(** The body of the loop of lines 337 to 381 for one row; [None] is the
    [continue] taken when no bound column is found. *)
Definition insight_card (cols : list string) (row : list Cell)
    : result (option Card) :=
  let hi_cols := List.filter (fun c => contains "hi" (lower c)) cols in
  let lo_cols := List.filter (fun c => contains "lo" (lower c)) cols in
  match hi_cols, lo_cols with
  | hi :: _, lo :: _ =>
      upper_bound ← getitem cols row hi ≫= as_float;
      lower_bound ← getitem cols row lo ≫= as_float;
      actual ← getitem cols row "y" ≫= as_float;
      uid ← getitem cols row "unique_id";
      day ← getitem cols row "ds";
      let cls := classify actual upper_bound lower_bound in
      Ok (Some (mkCard day uid actual (fst cls) (snd cls)))
  | _, _ => Ok None
  end.

(** [df[c]]: the cells of a column. *)
Definition column (df : DataFrame) (c : string) : result (list Cell) :=
  if has_column c df then mapM (fun row => getitem (columns df) row c) (data df)
  else Raise (KeyError c).

(** [Series.sum()] on cells: missing values are skipped. *)
Definition cells_sum (cells : list Cell) : result Q :=
  fs ← mapM as_float cells;
  Ok (pd.series_sum (map (fun f : float => fillna0 f) fs)).

(** [cell == 1] *)
Definition is_one (c : Cell) : bool :=
  match c with
  | CNum q => Qeq_bool q 1
  | CBool b => b
  | _ => false
  end.

(** [sort_values('ds', ascending=False)] on rows paired with their
    timestamp. *)
Definition ds_descending (a b : pd.Timestamp * list Cell) : comparison :=
  Z.compare (fst b) (fst a).

(** Line 333: the flagged rows, latest first.  Rows with the same timestamp
    stay in the order of the frame; pandas does not fix their order. *)
Definition anomalous_data (merged_df : DataFrame) : result (list (list Cell)) :=
  flags ← column merged_df "anomaly";
  let flagged :=
    map fst (List.filter (fun p => is_one (snd p))
                         (combine (data merged_df) flags)) in
  keyed ← mapM (fun row =>
                  t ← getitem (columns merged_df) row "ds" ≫= as_time;
                  Ok (t, row))
               flagged;
  Ok (map snd (pd.sort_by ds_descending keyed)).

(** The text of the notice of line 384. *)
Definition showing_top_6_of (n : nat) : string :=
  ("Showing top 6 of " +:+ pretty n
   +:+ " total anomalies. Adjust sensitivity to refine results.")%string.

Fixpoint somes {A : Type} (l : list (option A)) : list A :=
  match l with
  | [] => []
  | Some a :: l' => a :: somes l'
  | None :: l' => somes l'
  end.

(** What lines 331 to 386 put on the page. *)
Inductive Panel : Type :=
| no_anomalies
| insights (cards : list Card) (info : option string).

Definition insight_panel (merged_df : DataFrame) : result Panel :=
  total_anomalies ← column merged_df "anomaly" ≫= cells_sum;
  if Qgtb total_anomalies 0
  then
    rows ← anomalous_data merged_df;
    cards ← mapM (insight_card (columns merged_df)) (firstn 6 rows);
    Ok (insights (somes cards)
                 (if (6 <? length rows)%nat
                  then Some (showing_top_6_of (length rows))
                  else None))
  else Ok no_anomalies.

(** *** The business tips *)

(** The eight texts [get_business_tip] can return, named by what they say;
    the text of the generic spike tip prints the magnitude. *)
Inductive Tip : Type :=
| viral_trend
| product_launch
| seasonal_shift
| unusual_growth (magnitude : float)
| stock_out
| supply_chain_delay
| out_of_season
| sales_dropped.

(** The name the loop gives to a direction (lines 353 and 360). *)
Definition direction_name (d : Direction) : string :=
  match d with
  | Spike => "Spike"
  | Dip => "Dip"
  end.

(** [get_business_tip], on a category that is a text. *)
Definition get_business_tip (category : string) (direction : string)
    (magnitude : float) : Tip :=
  let cat := lower category in
  if String.eqb direction "Spike"
  then
    if contains "beauty" cat || contains "cosmetic" cat then viral_trend
    else if contains "electronic" cat || contains "tech" cat
         then product_launch
    else if contains "clothing" cat || contains "fashion" cat
         then seasonal_shift
    else unusual_growth magnitude
  else
    if contains "beauty" cat || contains "cosmetic" cat then stock_out
    else if contains "electronic" cat || contains "tech" cat
         then supply_chain_delay
    else if contains "clothing" cat || contains "fashion" cat
         then out_of_season
    else sales_dropped.

(** *** The sidebar of [main] *)

(** Lines 203 to 205: the column proposed for a role is the first known
    name found among the columns, or the column at a fixed position; [None]
    is the [IndexError] of [cols[position]]. *)
Definition default_column (first second : string) (position : nat)
    (cols : list string) : option string :=
  if mem first cols then Some first
  else if mem second cols then Some second
  else nth_error cols position.

Definition def_ds (cols : list string) : option string :=
  default_column "invoice_date" "Date" 0 cols.

Definition def_y (cols : list string) : option string :=
  default_column "price" "Total Amount" 1 cols.

Definition def_id (cols : list string) : option string :=
  default_column "shopping_mall" "Product Category" 2 cols.

(** [sorted(l)] on texts. *)
Definition sorted (l : list string) : list string :=
  pd.sort_by String.compare l.

(** Lines 222 and 223: the entities offered for selection, and the ones
    selected when the page opens. *)
Definition all_items (daily_sales : list Row) : list string :=
  sorted (pd.unique (map unique_id daily_sales)).

Definition default_items (items : list string) : list string :=
  match items with
  | [] => []
  | _ => firstn 2 items
  end.

(** Line 253: the number shown as "Anomalies Detected". *)
Definition total_anomalies (merged_df : DataFrame) : result Q :=
  column merged_df "anomaly" ≫= cells_sum.

(** [cell in selected_items], as [Series.isin] has it on a column of any
    cells: only a text can be one of the selected items. *)
Definition cell_isin (selected_items : list string) (c : Cell) : bool :=
  match c with
  | CStr s => mem s selected_items
  | _ => false
  end.

(** Line 252: the number shown as "Total Sales Volume". *)
Definition total_sales (merged_df : DataFrame) (selected_items : list string)
    : result Q :=
  ids ← column merged_df "unique_id";
  let selected :=
    map fst (List.filter (fun p => cell_isin selected_items (snd p))
                         (combine (data merged_df) ids)) in
  column (mkFrame (columns merged_df) selected) "y" ≫= cells_sum.

(** *** The analysis of [main] (lines 231 to 249)

    The two gates, the call for the anomalies, the join, and the call for
    the forecast when it is asked for.  [None] is a [return] at a gate; an
    exception is the one the [try] block hands to its handler. *)
Definition main_analysis
    (service : NixtlaClient -> Request -> result DataFrame)
    (daily_sales : list Row) (nixtla_api_key : string)
    (selected_items : list string) (sensitivity : Q) (show_forecast : bool)
    : Net (option (DataFrame * option DataFrame)) :=
  fun calls =>
    if String.eqb nixtla_api_key EmptyString then (Ok None, calls)
    else
      match selected_items with
      | [] => (Ok None, calls)
      | _ =>
          match detect_anomalies service daily_sales sensitivity
                                 selected_items nixtla_api_key calls with
          | (Raise e, calls') => (Raise e, calls')
          | (Ok anomalies_df, calls') =>
              match main_merged_df daily_sales anomalies_df with
              | Raise e => (Raise e, calls')
              | Ok merged_df =>
                  if show_forecast
                  then
                    match generate_forecast service daily_sales selected_items
                                            nixtla_api_key 7 calls' with
                    | (Raise e, calls'') => (Raise e, calls'')
                    | (Ok forecast_df, calls'') =>
                        (Ok (Some (merged_df, Some forecast_df)), calls'')
                    end
                  else (Ok (Some (merged_df, None)), calls')
              end
          end
      end.

End app.

(** ** [anomaly_detection.py]: the summary report (lines 74 to 100) *)

Module report.

(** [df[df[c] == v]] for a text [v]. *)
Definition where_text (df : DataFrame) (c v : string) : result DataFrame :=
  cells ← app.column df c;
  Ok (mkFrame (columns df)
              (map fst (List.filter (fun p => cell_eqb (snd p) (CStr v))
                                    (combine (data df) cells)))).

(** [df[df[c] == 1]] *)
Definition where_one (df : DataFrame) (c : string) : result DataFrame :=
  cells ← app.column df c;
  Ok (mkFrame (columns df)
              (map fst (List.filter (fun p => app.is_one (snd p))
                                    (combine (data df) cells)))).

(** The value of a row, read as a number. *)
Definition y_of (cols : list string) (row : list Cell) : result app.float :=
  app.getitem cols row "y" ≫= app.as_float.

(** The order of [sort_values(by='y', ascending=False)]: larger values
    first, missing values last. *)
Definition y_descending (a b : app.float * list Cell) : comparison :=
  match fst a, fst b with
  | Some p, Some q => Qcompare q p
  | None, Some _ => Gt
  | Some _, None => Lt
  | None, None => Eq
  end.

Definition sort_values_y_descending (df : DataFrame) : result DataFrame :=
  keyed ← mapM (fun row => v ← y_of (columns df) row; Ok (v, row)) (data df);
  Ok (mkFrame (columns df) (map snd (pd.sort_by y_descending keyed))).

(** [df.head(n)] *)
Definition head (n : nat) (df : DataFrame) : DataFrame :=
  mkFrame (columns df) (firstn n (data df)).

(** Lines 74, 80 and 98: the three largest flagged days of the mall. *)
Definition top_anomalies (merged_df : DataFrame) (target_mall : string)
    : result DataFrame :=
  mall_data ← where_text merged_df "unique_id" target_mall;
  anomalies ← where_one mall_data "anomaly";
  ranked ← sort_values_y_descending anomalies;
  Ok (head 3 ranked).

End report.

(** ** Vocabulary of the specification *)

(** The strict and the large order of a three-way comparison. *)
Definition lt_of {A : Type} (cmp : A -> A -> comparison) (a b : A) : Prop :=
  cmp a b = Lt.

Definition le_of {A : Type} (cmp : A -> A -> comparison) (a b : A) : Prop :=
  cmp a b <> Gt.

(** *** Series and windows *)

(** The calendar day of a row. *)
Definition day (r : Row) : Z := pd.dt_date (ds r).

(** The calendar days from [start] to [stop], both included. *)
Definition days_from (start stop : Z) : list Z :=
  map (fun i => (start + Z.of_nat i)%Z) (seq 0 (Z.to_nat (stop - start + 1))).

(** The rows of one entity, and the days on which it was observed. *)
Definition series_of (e : string) (rows : list Row) : list Row :=
  List.filter (has_id e) rows.

Definition entity_days (e : string) (rows : list Row) : list Z :=
  map day (series_of e rows).

(** The sum of all raw values of entity [e] on day [d]. *)
Definition raw_sum (rows : list Row) (e : string) (d : Z) : Q :=
  fold_right Qplus 0%Q
    (map y (List.filter (fun r => has_id e r && Z.eqb (day r) d) rows)).

(** The window of entity [e] in full-span mode: from its first observed day
    to its last. *)
Definition entity_span (rows : list Row) (e : string) : list Z :=
  match pd.series_min (entity_days e rows), pd.series_max (entity_days e rows)
  with
  | Some lo, Some hi => days_from lo hi
  | _, _ => []
  end.

(** The two regularisation modes, and the window of days each computes for
    an entity: the entity's own span from its first to its last observed day,
    or the 181 days that end on the day of the latest timestamp of the whole
    input. *)
Inductive Mode : Type := full_span | fixed_window.

Definition regularize (mode : Mode) (rows : list Row) : result (list Row) :=
  match mode with
  | full_span => anomaly_detection.main_daily_sales rows
  | fixed_window => app.preprocess_data rows
  end.

Definition window (mode : Mode) (rows : list Row) (e : string) : list Z :=
  match mode with
  | full_span => entity_span rows e
  | fixed_window =>
      match pd.series_max (map ds rows) with
      | Some m => days_from (pd.dt_date m - 180) (pd.dt_date m)
      | None => []
      end
  end.

(** *** The shape of a regularised table *)

(** The keys of the groups and the entities, in the order of the
    aggregation; the code's own sum for a group; and the value the
    regularisers attach to entity [e] at timestamp [t]. *)
Definition group_keys (rows : list Row) : list key :=
  pd.sort_uniq key_compare (map row_key rows).

Definition entity_ids (rows : list Row) : list string :=
  pd.unique (map fst (group_keys rows)).

Definition cell (rows : list Row) (k : key) : Q :=
  pd.series_sum (map y (group_rows k rows)).

Definition value_at (rows : list Row) (e : string) (t : pd.Timestamp) : Q :=
  if Z.eqb (t mod pd.ns_per_day) 0 then cell rows (e, pd.dt_date t) else 0%Q.

(** A table made of one block per entity: entity [e] has the timestamps
    [w e], in order, with the value [v e t] at [t]. *)
Definition blocks (v : string -> pd.Timestamp -> Q)
    (w : string -> list pd.Timestamp) (ids : list string) : list Row :=
  flat_map (fun e => map (fun t => mkRow t e (v e t)) (w e)) ids.

(** The timestamps of the two windows: the midnights of the entity's span,
    and the master calendar for a latest timestamp [m]. *)
Definition full_span_calendar (rows : list Row) (e : string)
    : list pd.Timestamp :=
  map pd.to_datetime (entity_span rows e).

Definition master_calendar (m : pd.Timestamp) : list pd.Timestamp :=
  pd.date_range (m - pd.Timedelta 180) m.

(** *** Joined frames *)

(** What it means for a joined frame to keep the value column of the
    series: the frame has a column [y], and every row of it carries, under
    [y], [unique_id] and [ds], the value and the key of a row of the
    series. *)
Definition keeps_series_value (daily_sales : list Row) (merged_df : DataFrame)
    : Prop :=
  has_column "y" merged_df = true
  /\ forall row, In row (data merged_df) ->
       exists r, In r daily_sales
         /\ row_get (columns merged_df) row "y" = Some (CNum (y r))
         /\ row_get (columns merged_df) row "unique_id"
            = Some (CStr (unique_id r))
         /\ row_get (columns merged_df) row "ds" = Some (CTime (ds r)).

(** Every row of the series is still there after the join. *)
Definition keeps_series_rows (daily_sales : list Row) (merged_df : DataFrame)
    : Prop :=
  forall r, In r daily_sales ->
    exists row, In row (data merged_df)
      /\ row_get (columns merged_df) row "y" = Some (CNum (y r))
      /\ row_get (columns merged_df) row "unique_id"
         = Some (CStr (unique_id r))
      /\ row_get (columns merged_df) row "ds" = Some (CTime (ds r)).

(** *** Insights *)

(** A float that is the number [q] (up to equality of rationals). *)
Definition is_number (f : app.float) (q : Q) : Prop :=
  match f with
  | Some x => (x == q)%Q
  | None => False
  end.

(** The direction and the magnitude the classifier gives to three numbers. *)
Definition direction_of (actual upper_bound lower_bound : Q) : app.Direction :=
  fst (app.classify (Some actual) (Some upper_bound) (Some lower_bound)).

Definition magnitude_of (actual upper_bound lower_bound : Q) : app.float :=
  snd (app.classify (Some actual) (Some upper_bound) (Some lower_bound)).

(** The rows of a joined frame that are flagged as anomalies, and the
    timestamp of a row. *)
Definition row_flagged (cols : list string) (row : list Cell) : bool :=
  match row_get cols row "anomaly" with
  | Some c => app.is_one c
  | None => false
  end.

Definition flagged_rows (df : DataFrame) : list (list Cell) :=
  List.filter (row_flagged (columns df)) (data df).

Definition row_time (cols : list string) (row : list Cell)
    : option pd.Timestamp :=
  match row_get cols row "ds" with
  | Some (CTime t) => Some t
  | _ => None
  end.

(** Latest first, on rows paired with their timestamp. *)
Definition not_earlier (a b : pd.Timestamp * list Cell) : Prop :=
  (fst b <= fst a)%Z.

(** A flag is a boolean, or the number 0 or 1; [flag_value] is its number,
    and a frame has a flag column when every row has a flag under
    [anomaly]. *)
Definition is_flag (c : Cell) : Prop :=
  match c with
  | CBool _ => True
  | CNum q => (q == 0)%Q \/ (q == 1)%Q
  | _ => False
  end.

Definition flag_value (c : Cell) : Q :=
  match c with
  | CBool b => if b then 1%Q else 0%Q
  | CNum q => q
  | _ => 0%Q
  end.

Definition flag_column (df : DataFrame) : Prop :=
  Forall (fun row => exists c, row_get (columns df) row "anomaly" = Some c
                               /\ is_flag c)
         (data df).

(** *** The credential file *)

(** What the specification says of one line of the credential file: a line
    without ['='] changes nothing; a line with one is cut at the first ['='],
    both parts are stripped, and the pair is written over whatever the
    environment held. *)
Definition spec_load_line (line : string) (environ : gmap string string)
    : gmap string string :=
  match split1 "=" line with
  | (name, Some value) => <[strip name := strip value]> environ
  | (_, None) => environ
  end.

(** The lines the environment accepts: the stripped name is not empty and
    neither part holds a NUL character. *)
Definition loadable (line : string) : Prop :=
  match split1 "=" line with
  | (name, Some value) =>
      strip name <> EmptyString
      /\ contains_char "000" (strip name) = false
      /\ contains_char "000" (strip value) = false
  | (_, None) => True
  end.

(** *** Further vocabulary *)

(** An input whose latest timestamp falls at midnight (as when the date
    column holds dates without a time of day). *)
Definition latest_at_midnight (rows : list Row) : Prop :=
  forall m, pd.series_max (map ds rows) = Some m ->
            (m mod pd.ns_per_day = 0)%Z.

(** The timestamps a mode lays an entity on. *)
Definition calendar (mode : Mode) (rows : list Row) (e : string)
    : list pd.Timestamp :=
  match mode with
  | full_span => full_span_calendar rows e
  | fixed_window =>
      match pd.series_max (map ds rows) with
      | Some m => master_calendar m
      | None => []
      end
  end.

(** The total of a series, as [Series.sum()] gives it. *)
Definition total (rows : list Row) : Q := pd.series_sum (map y rows).

(** The rows of the answer that carry the key of a series row. *)
Definition answers (anomalies_df : DataFrame) (r : Row) : list (list Cell) :=
  List.filter (same_keys ["unique_id"; "ds"]%string series_columns
                         (row_cells r) (columns anomalies_df))
              (data anomalies_df).

(** How many times a series row comes out of a join. *)
Definition copies (how : How) (anomalies_df : DataFrame) (r : Row) : nat :=
  match how with
  | how_left => Nat.max 1 (length (answers anomalies_df r))
  | how_inner => length (answers anomalies_df r)
  end.

(** A frame whose rows all have one cell per column. *)
Definition rectangular (df : DataFrame) : Prop :=
  Forall (fun row => length row = length (columns df)) (data df).

(** The label a column of the answer has in a join with the series: [y]
    takes the suffix, every other label stays. *)
Definition joined_label (c : string) : string :=
  if String.eqb c "y" then "y_anomaly"%string else c.

(** An answer whose keys have the types of the keys of the series: every
    row has a text under [unique_id] and a timestamp under [ds]. *)
Definition keys_typed (df : DataFrame) : Prop :=
  Forall (fun row =>
            (exists s, row_get (columns df) row "unique_id" = Some (CStr s))
            /\ (exists t, row_get (columns df) row "ds" = Some (CTime t)))
         (data df).

(** What it means for a joined frame to keep the value column of the answer
    beside that of the series: every joined row carries the value of its
    series row under [y] and, under [y_anomaly], the value an answer row
    with the same key has under [y], or a missing value when the join keeps
    a series row that no answer row matches; and every answer row that
    matches a series row is found so in the joined frame. *)
Definition keeps_answer_value (how : How) (daily_sales : list Row)
    (anomalies_df merged_df : DataFrame) : Prop :=
  (forall row, In row (data merged_df) ->
     exists r, In r daily_sales
       /\ row_get (columns merged_df) row "y" = Some (CNum (y r))
       /\ ((exists a c, In a (answers anomalies_df r)
              /\ row_get (columns anomalies_df) a "y" = Some c
              /\ row_get (columns merged_df) row "y_anomaly" = Some c)
           \/ (how = how_left /\ answers anomalies_df r = []
               /\ row_get (columns merged_df) row "y_anomaly" = Some CNaN)))
  /\ (forall r a, In r daily_sales -> In a (answers anomalies_df r) ->
        exists row c, In row (data merged_df)
          /\ row_get (columns merged_df) row "y" = Some (CNum (y r))
          /\ row_get (columns anomalies_df) a "y" = Some c
          /\ row_get (columns merged_df) row "y_anomaly" = Some c).

(** A category mentions a word when the word occurs in it, in upper or
    lower case. *)
Definition mentions (word category : string) : Prop :=
  exists pre w post,
    category = String.append pre (String.append w post) /\ lower w = word.

(** A cell of a flag column that may have gaps: a flag, or nothing. *)
Definition is_flag_or_missing (c : Cell) : Prop :=
  match c with
  | CNaN => True
  | _ => is_flag c
  end.

(** The rows of a joined frame that belong to a mall and are flagged. *)
Definition mall_flagged (cols : list string) (mall : string)
    (row : list Cell) : bool :=
  opt_cell_eqb (row_get cols row "unique_id") (Some (CStr mall))
  && row_flagged cols row.

(** [a] has a value at least that of [b], a missing value counting as the
    smallest. *)
Definition float_ge (a b : app.float) : Prop :=
  match a, b with
  | Some p, Some q => (q <= p)%Q
  | _, None => True
  | None, Some _ => False
  end.

Definition keyed_ge (a b : app.float * list Cell) : Prop :=
  float_ge (fst a) (fst b).

Definition value_ge (cols : list string) (a b : list Cell) : Prop :=
  exists fa fb, report.y_of cols a = Ok fa /\ report.y_of cols b = Ok fb
                /\ float_ge fa fb.

(** The pair a line of the credential file defines, the pairs of a file in
    order, and the value a name ends up with: that of the last line that
    defines it. *)
Definition line_binding (line : string) : option (string * string) :=
  match split1 "=" line with
  | (name, Some value) => Some (strip name, strip value)
  | (_, None) => None
  end.

Definition file_bindings (lines : list string) : list (string * string) :=
  omap line_binding lines.

Fixpoint last_binding (name : string) (bindings : list (string * string))
    : option string :=
  match bindings with
  | [] => None
  | (k, v) :: rest =>
      match last_binding name rest with
      | Some v' => Some v'
      | None => if String.eqb k name then Some v else None
      end
  end.

(** ** Sample inputs *)

(** 1 January 2023 is day 19358. *)
Definition D1 : Z := 19358.
Definition D2 : Z := 19359.
Definition D3 : Z := 19360.

(** Entity "A": 10 and 15 on [D1], 5 on [D3], nothing on [D2]; and its
    regular series over these three days. *)
Definition scenario_A : list Row :=
  [mkRow (pd.to_datetime D1) "A" 10; mkRow (pd.to_datetime D1) "A" 15;
   mkRow (pd.to_datetime D3) "A" 5].

Definition regular_A : list Row :=
  [mkRow (pd.to_datetime D1) "A" 25; mkRow (pd.to_datetime D2) "A" 0;
   mkRow (pd.to_datetime D3) "A" 5].

(** One sale of 10 by "A" on [D1] at 10 o'clock. *)
Definition ten_o_clock : pd.Timestamp :=
  (pd.to_datetime D1 + 10 * 3600 * 1000000000)%Z.

Definition timed_sale : list Row := [mkRow ten_o_clock "A" 10].

(** "A" sold on [D1] and [D3]; "B" sold once, 200 days earlier. *)
Definition two_entities : list Row :=
  scenario_A ++ [mkRow (pd.to_datetime (D1 - 200)) "B" 7].

(** A service answer without a value column: "A" is flagged on [D3]. *)
Definition answer_without_y : DataFrame :=
  mkFrame ["unique_id"; "ds"; "anomaly"; "TimeGPT-lo-99"; "TimeGPT-hi-99"]%string
          [[CStr "A"; CTime (pd.to_datetime D3); CBool true; CNum 8; CNum 30]].

(** Eight days of "A" joined with an answer that flags all but the third. *)
Definition joined_columns : list string :=
  ["ds"; "unique_id"; "y"; "anomaly"; "TimeGPT-lo-99"; "TimeGPT-hi-99"]%string.

Definition joined_row (d : Z) (v : Q) (flag : bool) : list Cell :=
  [CTime (pd.to_datetime d); CStr "A"; CNum v; CBool flag; CNum 8; CNum 30].

Definition seven_flagged : DataFrame :=
  mkFrame joined_columns
          [joined_row 1 40 true; joined_row 2 50 true; joined_row 3 20 false;
           joined_row 4 2 true; joined_row 5 45 true; joined_row 6 60 true;
           joined_row 7 1 true; joined_row 8 33 true].

(** Credential files: a well-formed one, and one whose second line has an
    empty name. *)
Definition nl : string := String "010" EmptyString.

Definition dotenv_ok : string :=
  ("# credentials" +:+ nl +:+ "NIXTLA_API_KEY = abc=def" +:+ nl)%string.

Definition dotenv_empty_name : string :=
  ("KEY=1" +:+ nl +:+ "=secret" +:+ nl +:+ "LATER=2" +:+ nl)%string.

(** Answers with a value column of their own: one that sends back 26 for
    "A" on [D1], one that has a column [y_anomaly] as well, one with texts
    for timestamps, and one with numbers for entity ids. *)
Definition answer_with_y : DataFrame :=
  mkFrame ["unique_id"; "ds"; "y"; "anomaly"]%string
          [[CStr "A"; CTime (pd.to_datetime D1); CNum 26; CBool true]].

Definition answer_two_values : DataFrame :=
  mkFrame ["unique_id"; "ds"; "y"; "y_anomaly"]%string
          [[CStr "A"; CTime (pd.to_datetime D1); CNum 26; CNum 1]].

Definition answer_text_ds : DataFrame :=
  mkFrame ["unique_id"; "ds"; "anomaly"]%string
          [[CStr "A"; CStr "2023-01-01"; CBool true]].

Definition answer_number_id : DataFrame :=
  mkFrame ["unique_id"; "ds"; "anomaly"]%string
          [[CNum 1; CTime (pd.to_datetime D1); CBool true]].

(** A joined frame that lost the value column of the series. *)
Definition frame_without_y : DataFrame :=
  mkFrame ["ds"; "unique_id"; "y_anomaly"]%string
          [[CTime (pd.to_datetime D1); CStr "A"; CNum 26]].

(** A service that answers every call with [answer_with_y]. *)
Definition service_up (client : app.NixtlaClient) (req : app.Request)
    : result DataFrame :=
  Ok answer_with_y.

(** A service that is down. *)
Definition service_down (client : app.NixtlaClient) (req : app.Request)
    : result DataFrame :=
  Raise (OSError 111 "Connection refused").

(** * Properties *)

(** ** Orders on strings and on keys *)

Lemma ascii_compare_refl (a : ascii) : Ascii.compare a a = Eq.
Proof. unfold Ascii.compare. apply N.compare_refl. Qed.

Lemma ascii_compare_trans (a b c : ascii) :
  Ascii.compare a b = Lt -> Ascii.compare b c = Lt -> Ascii.compare a c = Lt.
Proof.
  unfold Ascii.compare. rewrite !N.compare_lt_iff. apply N.lt_trans.
Qed.

Lemma string_compare_refl (s : string) : String.compare s s = Eq.
Proof.
  induction s as [|a s IH]; simpl; [reflexivity|].
  now rewrite ascii_compare_refl.
Qed.

Lemma string_compare_eq (s t : string) : String.compare s t = Eq <-> s = t.
Proof.
  split; [apply String.compare_eq_iff|].
  intros ->. apply string_compare_refl.
Qed.

Lemma string_compare_trans (s t u : string) :
  String.compare s t = Lt -> String.compare t u = Lt -> String.compare s u = Lt.
Proof.
  revert t u. induction s as [|a s IH]; intros [|b t] [|c u]; simpl;
    try discriminate; try reflexivity.
  destruct (Ascii.compare a b) eqn:Hab; try discriminate.
  - apply Ascii.compare_eq_iff in Hab. subst b.
    destruct (Ascii.compare a c) eqn:Hac; try discriminate; try reflexivity.
    apply IH.
  - destruct (Ascii.compare b c) eqn:Hbc; try discriminate.
    + apply Ascii.compare_eq_iff in Hbc. subst c. now rewrite Hab.
    + now rewrite (ascii_compare_trans a b c Hab Hbc).
Qed.

Lemma string_lt_irrefl (s : string) : String.compare s s <> Lt.
Proof. now rewrite string_compare_refl. Qed.

Lemma key_compare_eq (a b : key) : key_compare a b = Eq -> a = b.
Proof.
  destruct a as [s x], b as [t z]. unfold key_compare. simpl.
  destruct (String.compare s t) eqn:H; try discriminate.
  apply String.compare_eq_iff in H. intros Hz%Z.compare_eq. now subst.
Qed.

Lemma key_compare_refl (a : key) : key_compare a a = Eq.
Proof.
  unfold key_compare. rewrite string_compare_refl. apply Z.compare_refl.
Qed.

Lemma key_compare_antisym (a b : key) :
  key_compare a b = CompOpp (key_compare b a).
Proof.
  unfold key_compare. rewrite String.compare_antisym.
  destruct (String.compare (fst b) (fst a)); simpl; try reflexivity.
  apply Z.compare_antisym.
Qed.

Lemma key_compare_trans (a b c : key) :
  key_compare a b = Lt -> key_compare b c = Lt -> key_compare a c = Lt.
Proof.
  destruct a as [s x], b as [t z], c as [u w]. unfold key_compare. simpl.
  destruct (String.compare s t) eqn:Hst; try discriminate;
    destruct (String.compare t u) eqn:Htu; try discriminate; intros H1 H2.
  - apply String.compare_eq_iff in Hst, Htu. subst.
    rewrite string_compare_refl.
    rewrite Z.compare_lt_iff in H1, H2 |- *. lia.
  - apply String.compare_eq_iff in Hst. subst. now rewrite Htu.
  - apply String.compare_eq_iff in Htu. subst. now rewrite Hst.
  - now rewrite (string_compare_trans s t u Hst Htu).
Qed.

(** ** Sorting *)

Section sorting.

Context {A : Type} (cmp : A -> A -> comparison).
Hypothesis cmp_eq : forall a b, cmp a b = Eq -> a = b.
Hypothesis cmp_antisym : forall a b, cmp a b = CompOpp (cmp b a).
Hypothesis cmp_trans : forall a b c, cmp a b = Lt -> cmp b c = Lt -> cmp a c = Lt.

Lemma In_insert_uniq (x z : A) (l : list A) :
  In z (pd.insert_uniq cmp x l) <-> z = x \/ In z l.
Proof using cmp_eq.
  induction l as [|h t IH]; simpl; [intuition|].
  destruct (cmp x h) eqn:H; simpl.
  - apply cmp_eq in H. subst. intuition.
  - intuition.
  - rewrite IH. intuition.
Qed.

Lemma In_sort_uniq (z : A) (l : list A) : In z (pd.sort_uniq cmp l) <-> In z l.
Proof using cmp_eq.
  induction l as [|h t IH]; simpl; [reflexivity|].
  rewrite In_insert_uniq, IH. intuition.
Qed.

Lemma insert_uniq_sorted (x : A) (l : list A) :
  StronglySorted (lt_of cmp) l -> StronglySorted (lt_of cmp) (pd.insert_uniq cmp x l).
Proof using cmp_eq cmp_antisym cmp_trans.
  induction l as [|h t IH]; intros Hs; simpl.
  - repeat constructor.
  - apply StronglySorted_inv in Hs as [Ht Hh].
    destruct (cmp x h) eqn:H.
    + now constructor.
    + constructor; [now constructor|].
      constructor; [exact H|].
      eapply List.Forall_impl; [|exact Hh]. intros a Ha. now apply (cmp_trans x h a).
    + constructor; [now apply IH|].
      apply List.Forall_forall. intros z Hz%In_insert_uniq.
      destruct Hz as [->|Hz].
      * unfold lt_of. rewrite cmp_antisym, H. reflexivity.
      * rewrite List.Forall_forall in Hh. now apply Hh.
Qed.

Lemma sort_uniq_sorted (l : list A) : StronglySorted (lt_of cmp) (pd.sort_uniq cmp l).
Proof using cmp_eq cmp_antisym cmp_trans.
  induction l as [|h t IH]; simpl; [constructor|].
  now apply insert_uniq_sorted.
Qed.

Lemma sort_uniq_id (l : list A) : Sorted (lt_of cmp) l -> pd.sort_uniq cmp l = l.
Proof.
  induction 1 as [|a l Hs IH Hd]; [reflexivity|].
  unfold pd.sort_uniq in *. simpl. rewrite IH.
  destruct Hd as [|b l Hab]; simpl; [reflexivity|].
  unfold lt_of in Hab. now rewrite Hab.
Qed.

Lemma sort_by_id (l : list A) : Sorted (le_of cmp) l -> pd.sort_by cmp l = l.
Proof.
  induction 1 as [|a l Hs IH Hd]; [reflexivity|].
  unfold pd.sort_by in *. simpl. rewrite IH.
  destruct Hd as [|b l Hab]; simpl; [reflexivity|].
  unfold le_of in Hab. now destruct (cmp a b).
Qed.

Lemma lt_of_irrefl (a : A) : ~ lt_of cmp a a.
Proof using cmp_antisym.
  unfold lt_of. intros H. pose proof (cmp_antisym a a) as E.
  rewrite H in E. discriminate.
Qed.

Lemma sorted_NoDup (l : list A) : StronglySorted (lt_of cmp) l -> List.NoDup l.
Proof using cmp_antisym.
  induction 1 as [|a l Hs IH Hd]; constructor; [|exact IH].
  intros Hin. rewrite List.Forall_forall in Hd.
  exact (lt_of_irrefl a (Hd a Hin)).
Qed.

(** Two strictly sorted lists with the same elements are the same list. *)
Lemma sorted_ext (l1 l2 : list A) :
  StronglySorted (lt_of cmp) l1 -> StronglySorted (lt_of cmp) l2 ->
  (forall x, In x l1 <-> In x l2) -> l1 = l2.
Proof using cmp_antisym cmp_trans.
  intros H1. revert l2. induction H1 as [|a l1 Hs1 IH Hd1]; intros l2 H2 Hin.
  - destruct l2 as [|b l2]; [reflexivity|].
    exfalso. apply (Hin b). now left.
  - destruct H2 as [|b l2 Hs2 Hd2].
    + exfalso. apply (Hin a). now left.
    + rewrite List.Forall_forall in Hd1, Hd2.
      assert (a = b) as ->.
      { destruct (proj1 (Hin a) (or_introl eq_refl)) as [E|Ha]; [now symmetry|].
        destruct (proj2 (Hin b) (or_introl eq_refl)) as [E|Hb]; [exact E|].
        exfalso. apply (lt_of_irrefl a).
        apply (cmp_trans a b a); [now apply Hd1 | now apply Hd2]. }
      f_equal. apply IH; [exact Hs2|].
      intros x. split; intros Hx.
      * destruct (proj1 (Hin x) (or_intror Hx)) as [E|Hx']; [|exact Hx'].
        subst. exfalso. exact (lt_of_irrefl x (Hd1 x Hx)).
      * destruct (proj2 (Hin x) (or_intror Hx)) as [E|Hx']; [|exact Hx'].
        subst. exfalso. exact (lt_of_irrefl x (Hd2 x Hx)).
Qed.

End sorting.

(** ** Calendars *)

Lemma ns_per_day_pos : (0 < pd.ns_per_day)%Z.
Proof. reflexivity. Qed.

Lemma dt_date_to_datetime (d : Z) : pd.dt_date (pd.to_datetime d) = d.
Proof.
  unfold pd.dt_date, pd.to_datetime. apply Z.div_mul. discriminate.
Qed.

Lemma to_datetime_inj (d1 d2 : Z) :
  pd.to_datetime d1 = pd.to_datetime d2 -> d1 = d2.
Proof.
  intros H. apply (f_equal pd.dt_date) in H.
  now rewrite !dt_date_to_datetime in H.
Qed.

Lemma to_datetime_midnight (d : Z) : (pd.to_datetime d mod pd.ns_per_day = 0)%Z.
Proof. unfold pd.to_datetime. apply Z.mod_mul. discriminate. Qed.

Lemma midnight_to_datetime (t : pd.Timestamp) :
  (t mod pd.ns_per_day = 0)%Z -> pd.to_datetime (pd.dt_date t) = t.
Proof.
  intros H. unfold pd.to_datetime, pd.dt_date.
  pose proof (Z.div_mod t pd.ns_per_day ltac:(discriminate)) as E. lia.
Qed.

Lemma In_days_from (start stop x : Z) :
  In x (days_from start stop) <-> (start <= x <= stop)%Z.
Proof.
  unfold days_from. rewrite in_map_iff. split.
  - intros (i & <- & Hi%in_seq). lia.
  - intros H. exists (Z.to_nat (x - start)). split; [lia|].
    apply in_seq. lia.
Qed.

Lemma length_days_from (start stop : Z) :
  length (days_from start stop) = Z.to_nat (stop - start + 1).
Proof. unfold days_from. now rewrite length_map, length_seq. Qed.

Lemma map_seq_sorted {A : Type} (R : A -> A -> Prop) (f : nat -> A) :
  (forall i j, (i < j)%nat -> R (f i) (f j)) ->
  forall n a, StronglySorted R (map f (seq a n)).
Proof.
  intros Hf. induction n as [|n IH]; intros a; simpl; constructor.
  - apply IH.
  - apply List.Forall_forall. intros x (j & <- & Hj%in_seq)%in_map_iff.
    apply Hf. lia.
Qed.

Lemma days_from_sorted (start stop : Z) :
  StronglySorted Z.lt (days_from start stop).
Proof. apply map_seq_sorted. intros i j H. lia. Qed.

Lemma date_range_midnight (d1 d2 : Z) :
  pd.date_range (pd.to_datetime d1) (pd.to_datetime d2)
  = map pd.to_datetime (days_from d1 d2).
Proof.
  unfold pd.date_range, days_from, pd.to_datetime. rewrite map_map.
  replace ((d2 * pd.ns_per_day - d1 * pd.ns_per_day) / pd.ns_per_day)%Z
    with (d2 - d1)%Z.
  - apply map_ext. intros i. lia.
  - rewrite <- Z.mul_sub_distr_r, Z.div_mul; [reflexivity | discriminate].
Qed.

Lemma date_range_sorted (start stop : pd.Timestamp) :
  StronglySorted Z.lt (pd.date_range start stop).
Proof.
  apply map_seq_sorted. intros i j H. pose proof ns_per_day_pos. nia.
Qed.

(** The master calendar of the dashboard: 181 consecutive days ending on the
    day of the latest timestamp. *)
Lemma master_dates_days (max_date : pd.Timestamp) :
  map pd.dt_date (pd.date_range (max_date - pd.Timedelta 180) max_date)
  = days_from (pd.dt_date max_date - 180) (pd.dt_date max_date).
Proof.
  unfold pd.date_range, days_from, pd.Timedelta, pd.dt_date.
  rewrite map_map.
  replace ((max_date - (max_date - 180 * pd.ns_per_day)) / pd.ns_per_day + 1)%Z
    with 181%Z.
  - replace (max_date / pd.ns_per_day - (max_date / pd.ns_per_day - 180) + 1)%Z
      with 181%Z by lia.
    apply map_ext. intros i.
    replace (max_date - 180 * pd.ns_per_day + Z.of_nat i * pd.ns_per_day)%Z
      with (max_date + (Z.of_nat i - 180) * pd.ns_per_day)%Z by lia.
    rewrite Z.div_add by discriminate. lia.
  - replace (max_date - (max_date - 180 * pd.ns_per_day))%Z
      with (180 * pd.ns_per_day)%Z by lia.
    rewrite Z.div_mul by discriminate. reflexivity.
Qed.

Lemma master_dates_mod (max_date t : pd.Timestamp) :
  In t (pd.date_range (max_date - pd.Timedelta 180) max_date) ->
  (t mod pd.ns_per_day = max_date mod pd.ns_per_day)%Z.
Proof.
  unfold pd.date_range, pd.Timedelta. intros (i & <- & _)%in_map_iff.
  replace (max_date - 180 * pd.ns_per_day + Z.of_nat i * pd.ns_per_day)%Z
    with (max_date + (Z.of_nat i - 180) * pd.ns_per_day)%Z by lia.
  apply Z.mod_add. discriminate.
Qed.

Lemma master_dates_last (max_date : pd.Timestamp) :
  In max_date (pd.date_range (max_date - pd.Timedelta 180) max_date)
  /\ Forall (fun t => (t <= max_date)%Z)
            (pd.date_range (max_date - pd.Timedelta 180) max_date).
Proof.
  assert (E : ((max_date - (max_date - pd.Timedelta 180)) / pd.ns_per_day + 1
               = 181)%Z).
  { unfold pd.Timedelta.
    replace (max_date - (max_date - 180 * pd.ns_per_day))%Z
      with (180 * pd.ns_per_day)%Z by lia.
    rewrite Z.div_mul by discriminate. reflexivity. }
  unfold pd.date_range. rewrite E. split.
  - apply in_map_iff. exists 180%nat. split.
    + unfold pd.Timedelta. lia.
    + apply in_seq. lia.
  - apply List.Forall_forall. intros t (i & <- & Hi%in_seq)%in_map_iff.
    unfold pd.Timedelta. pose proof ns_per_day_pos. nia.
Qed.

(** ** Minimum and maximum of a column *)

Lemma fold_max_spec (l : list Z) (a : Z) :
  (fold_left Z.max l a = a \/ In (fold_left Z.max l a) l)
  /\ (a <= fold_left Z.max l a)%Z
  /\ Forall (fun x => (x <= fold_left Z.max l a)%Z) l.
Proof.
  revert a. induction l as [|h t IH]; intros a; simpl.
  - repeat split; [now left | lia | constructor].
  - destruct (IH (Z.max a h)) as (H1 & H2 & H3). repeat split.
    + destruct H1 as [H1|H1]; [|now right; right].
      rewrite H1. destruct (Z.max_spec a h) as [[_ E]|[_ E]]; rewrite E; auto.
    + lia.
    + constructor; [lia | exact H3].
Qed.

Lemma fold_min_spec (l : list Z) (a : Z) :
  (fold_left Z.min l a = a \/ In (fold_left Z.min l a) l)
  /\ (fold_left Z.min l a <= a)%Z
  /\ Forall (fun x => (fold_left Z.min l a <= x)%Z) l.
Proof.
  revert a. induction l as [|h t IH]; intros a; simpl.
  - repeat split; [now left | lia | constructor].
  - destruct (IH (Z.min a h)) as (H1 & H2 & H3). repeat split.
    + destruct H1 as [H1|H1]; [|now right; right].
      rewrite H1. destruct (Z.min_spec a h) as [[_ E]|[_ E]]; rewrite E; auto.
    + lia.
    + constructor; [lia | exact H3].
Qed.

Lemma series_max_spec (l : list Z) (m : Z) :
  pd.series_max l = Some m <-> In m l /\ Forall (fun x => (x <= m)%Z) l.
Proof.
  destruct l as [|a t]; simpl.
  - split; [discriminate | now intros [[] _]].
  - destruct (fold_max_spec t a) as (H1 & H2 & H3). split.
    + intros [= <-]. split; [intuition|]. now constructor.
    + intros [Hin Hall]. f_equal.
      assert (fold_left Z.max t a <= m)%Z.
      { rewrite List.Forall_forall in Hall. apply Hall.
        destruct H1 as [->|H1]; [now left | now right]. }
      assert (m <= fold_left Z.max t a)%Z; [|lia].
      destruct Hin as [<-|Hin]; [exact H2|].
      rewrite List.Forall_forall in H3. now apply H3.
Qed.

Lemma series_min_spec (l : list Z) (m : Z) :
  pd.series_min l = Some m <-> In m l /\ Forall (fun x => (m <= x)%Z) l.
Proof.
  destruct l as [|a t]; simpl.
  - split; [discriminate | now intros [[] _]].
  - destruct (fold_min_spec t a) as (H1 & H2 & H3). split.
    + intros [= <-]. split; [intuition|]. now constructor.
    + intros [Hin Hall]. f_equal.
      assert (m <= fold_left Z.min t a)%Z.
      { rewrite List.Forall_forall in Hall. apply Hall.
        destruct H1 as [->|H1]; [now left | now right]. }
      assert (fold_left Z.min t a <= m)%Z; [|lia].
      destruct Hin as [<-|Hin]; [exact H2|].
      rewrite List.Forall_forall in H3. now apply H3.
Qed.

Lemma series_max_is_Some (l : list Z) :
  l <> [] -> exists m, pd.series_max l = Some m.
Proof. destruct l; [congruence | eauto]. Qed.

Lemma series_min_is_Some (l : list Z) :
  l <> [] -> exists m, pd.series_min l = Some m.
Proof. destruct l; [congruence | eauto]. Qed.

(** ** The daily aggregation *)

Lemma key_eqb_eq (a b : key) : key_eqb a b = true <-> a = b.
Proof.
  destruct a as [s x], b as [t z]. unfold key_eqb. simpl.
  rewrite andb_true_iff, String.eqb_eq, Z.eqb_eq.
  split; [intros [-> ->]; reflexivity | intros [= -> ->]; auto].
Qed.

Lemma has_id_true (e : string) (r : Row) : has_id e r = true <-> unique_id r = e.
Proof. unfold has_id. apply String.eqb_eq. Qed.

Lemma group_keys_sorted (rows : list Row) :
  StronglySorted (lt_of key_compare) (group_keys rows).
Proof.
  apply sort_uniq_sorted.
  - apply key_compare_eq.
  - apply key_compare_antisym.
  - apply key_compare_trans.
Qed.

Lemma In_group_keys (k : key) (rows : list Row) :
  In k (group_keys rows) <-> exists r, In r rows /\ row_key r = k.
Proof.
  unfold group_keys. rewrite In_sort_uniq by apply key_compare_eq.
  rewrite in_map_iff. split; intros (r & H1 & H2); exists r; auto.
Qed.

Lemma group_keys_NoDup (rows : list Row) : List.NoDup (group_keys rows).
Proof.
  eapply sorted_NoDup; [apply key_compare_antisym | apply group_keys_sorted].
Qed.

Lemma group_rows_nil (k : key) (rows : list Row) :
  ~ In k (group_keys rows) -> group_rows k rows = [].
Proof.
  intros Hk. unfold group_rows.
  destruct (List.filter _ rows) as [|r l] eqn:E; [reflexivity|].
  exfalso. apply Hk, In_group_keys. exists r.
  assert (Hr : In r (List.filter (fun r => key_eqb (row_key r) k) rows))
    by (rewrite E; now left).
  apply filter_In in Hr as [Hr Hk']. now apply key_eqb_eq in Hk'.
Qed.

Lemma cell_absent (k : key) (rows : list Row) :
  ~ In k (group_keys rows) -> cell rows k = 0%Q.
Proof. intros H. unfold cell. now rewrite group_rows_nil. Qed.

Lemma daily_aggregate_eq (rows : list Row) :
  daily_aggregate rows
  = map (fun k => mkRow (pd.to_datetime (snd k)) (fst k) (cell rows k))
        (group_keys rows).
Proof. reflexivity. Qed.

Lemma In_daily_aggregate (r : Row) (rows : list Row) :
  In r (daily_aggregate rows) <->
  exists d, In (unique_id r, d) (group_keys rows)
            /\ r = mkRow (pd.to_datetime d) (unique_id r)
                         (cell rows (unique_id r, d)).
Proof.
  rewrite daily_aggregate_eq, in_map_iff. split.
  - intros ([e d] & <- & Hk). simpl. eauto.
  - intros (d & Hk & ->). exists (unique_id r, d). simpl. auto.
Qed.

(** The row the aggregation holds for entity [e] at timestamp [t], read the
    way both regularisers read it: by equality of timestamps. *)
Lemma daily_lookup (rows : list Row) (e : string) (t : pd.Timestamp) :
  fillna0 (option_map y
             (List.find (fun r => Z.eqb (ds r) t)
                        (List.filter (has_id e) (daily_aggregate rows))))
  = value_at rows e t.
Proof.
  unfold value_at.
  destruct (List.find _ _) as [r|] eqn:F; simpl.
  - apply find_some in F as [Hr Ht]. apply Z.eqb_eq in Ht.
    apply filter_In in Hr as [Hr He]. apply has_id_true in He.
    apply In_daily_aggregate in Hr as (d & Hk & Er).
    rewrite He in Er, Hk. subst r. simpl in *. subst t.
    rewrite to_datetime_midnight, dt_date_to_datetime. reflexivity.
  - destruct (Z.eqb_spec (t mod pd.ns_per_day) 0) as [Hm|]; [|reflexivity].
    symmetry. apply cell_absent. intros Hk.
    pose (r := mkRow t e (cell rows (e, pd.dt_date t))).
    assert (Hr : In r (List.filter (has_id e) (daily_aggregate rows))).
    { apply filter_In. split; [|now apply has_id_true].
      apply In_daily_aggregate. exists (pd.dt_date t). simpl.
      split; [exact Hk|]. unfold r. now rewrite midnight_to_datetime. }
    pose proof (find_none _ _ F r Hr) as C. simpl in C.
    rewrite Z.eqb_refl in C. discriminate.
Qed.

(** Within one entity the aggregation has one row per timestamp. *)
Lemma daily_entity_NoDup (rows : list Row) (e : string) :
  List.NoDup (map ds (List.filter (has_id e) (daily_aggregate rows))).
Proof.
  rewrite daily_aggregate_eq.
  pose proof (group_keys_NoDup rows) as Hnd.
  induction (group_keys rows) as [|[s d] l IH]; simpl; [constructor|].
  apply NoDup_cons_iff in Hnd as [Hnotin Hnd].
  unfold has_id at 1. simpl.
  destruct (String.eqb_spec s e) as [->|]; [|now apply IH].
  simpl. constructor; [|now apply IH].
  intros (r & Hds & Hr)%in_map_iff.
  apply filter_In in Hr as [Hr He]. apply has_id_true in He.
  apply in_map_iff in Hr as ([s' d'] & <- & Hk). simpl in *. subst s'.
  apply to_datetime_inj in Hds. subst d'. contradiction.
Qed.

Lemma filter_find_unique {A : Type} (f : A -> Z) (t : Z) (l : list A) :
  List.NoDup (map f l) ->
  List.filter (fun r => Z.eqb (f r) t) l
  = match List.find (fun r => Z.eqb (f r) t) l with
    | Some r => [r]
    | None => []
    end.
Proof.
  induction l as [|a l IH]; simpl; [reflexivity|].
  intros [Ha Hnd]%NoDup_cons_iff.
  destruct (Z.eqb_spec (f a) t) as [E|]; [|now apply IH].
  f_equal. destruct (List.filter _ l) as [|b l'] eqn:F; [reflexivity|].
  exfalso. apply Ha.
  assert (Hb : In b (List.filter (fun r => Z.eqb (f r) t) l))
    by (rewrite F; now left).
  apply filter_In in Hb as [Hb Eb]. apply Z.eqb_eq in Eb.
  apply in_map_iff. exists b. split; [congruence | exact Hb].
Qed.

(** ** Entity identifiers *)

Lemma In_unique (x : string) (l : list string) :
  In x (pd.unique l) <-> In x l.
Proof.
  induction l as [|a l IH]; simpl; [reflexivity|].
  rewrite filter_In, IH, negb_true_iff.
  destruct (String.eqb_spec x a) as [->|Hne]; [intuition|].
  intuition congruence.
Qed.

Lemma filter_sorted {A : Type} (R : A -> A -> Prop) (p : A -> bool)
    (l : list A) :
  StronglySorted R l -> StronglySorted R (List.filter p l).
Proof.
  induction 1 as [|a l Hs IH Hd]; simpl; [constructor|].
  destruct (p a); [|exact IH]. constructor; [exact IH|].
  rewrite List.Forall_forall in *. intros x [Hx _]%filter_In. now apply Hd.
Qed.

Lemma unique_sorted (l : list string) :
  StronglySorted (le_of String.compare) l ->
  StronglySorted (lt_of String.compare) (pd.unique l).
Proof.
  induction 1 as [|a l Hs IH Hd]; simpl; [constructor|].
  constructor; [now apply filter_sorted|].
  rewrite List.Forall_forall in *.
  intros x [Hx Hne]%filter_In. apply (proj1 (In_unique _ _)) in Hx.
  apply negb_true_iff in Hne. specialize (Hd x Hx). unfold le_of, lt_of in *.
  destruct (String.compare a x) eqn:C; [|reflexivity|congruence].
  apply String.compare_eq_iff in C. subst.
  now rewrite String.eqb_refl in Hne.
Qed.

Lemma entity_ids_sorted (rows : list Row) :
  StronglySorted (lt_of String.compare) (entity_ids rows).
Proof.
  unfold entity_ids. apply unique_sorted.
  pose proof (group_keys_sorted rows) as Hs.
  induction Hs as [|k l Hs IH Hd]; simpl; constructor; [exact IH|].
  rewrite List.Forall_forall in *. intros s ([s' d] & <- & Hk)%in_map_iff.
  specialize (Hd _ Hk). unfold lt_of, le_of, key_compare in *. simpl in *.
  destruct (String.compare (fst k) s'); congruence.
Qed.

Lemma entity_ids_NoDup (rows : list Row) : List.NoDup (entity_ids rows).
Proof.
  eapply sorted_NoDup; [apply String.compare_antisym | apply entity_ids_sorted].
Qed.

Lemma In_entity_ids (e : string) (rows : list Row) :
  In e (entity_ids rows) <-> In e (map unique_id rows).
Proof.
  unfold entity_ids. rewrite In_unique, !in_map_iff. split.
  - intros ([s d] & <- & (r & Hr & [= <- <-])%In_group_keys). eauto.
  - intros (r & <- & Hr). exists (row_key r). split; [reflexivity|].
    apply In_group_keys. eauto.
Qed.

Lemma daily_ids (rows : list Row) :
  pd.unique (map unique_id (daily_aggregate rows)) = entity_ids rows.
Proof.
  unfold entity_ids. rewrite daily_aggregate_eq, map_map. reflexivity.
Qed.

(** ** Tables made of blocks *)

Lemma StronglySorted_impl {A : Type} (R S : A -> A -> Prop) (l : list A) :
  (forall a b, R a b -> S a b) -> StronglySorted R l -> StronglySorted S l.
Proof.
  intros HRS. induction 1 as [|a l Hs IH Hd]; constructor; [exact IH|].
  eapply List.Forall_impl; [|exact Hd]. intros b. apply HRS.
Qed.

Lemma StronglySorted_app {A : Type} (R : A -> A -> Prop) (l1 l2 : list A) :
  StronglySorted R l1 -> StronglySorted R l2 ->
  (forall a b, In a l1 -> In b l2 -> R a b) ->
  StronglySorted R (l1 ++ l2).
Proof.
  intros H1 H2 H12. induction H1 as [|a l Hs IH Hd]; simpl; [exact H2|].
  constructor.
  - apply IH. intros x b Hx Hb. apply H12; [now right | exact Hb].
  - apply Forall_app. split; [exact Hd|].
    apply List.Forall_forall. intros b Hb. apply H12; [now left | exact Hb].
Qed.

Lemma StronglySorted_map {A B : Type} (R : A -> A -> Prop)
    (S : B -> B -> Prop) (f : A -> B) (l : list A) :
  (forall a b, R a b -> S (f a) (f b)) ->
  StronglySorted R l -> StronglySorted S (map f l).
Proof.
  intros Hf. induction 1 as [|a l Hs IH Hd]; simpl; constructor; [exact IH|].
  rewrite List.Forall_forall in *. intros y (x & <- & Hx)%in_map_iff.
  apply Hf, Hd, Hx.
Qed.

Section blocks.

Variable v : string -> pd.Timestamp -> Q.
Variable w : string -> list pd.Timestamp.

Lemma In_blocks (r : Row) (ids : list string) :
  In r (blocks v w ids) <->
  In (unique_id r) ids /\ In (ds r) (w (unique_id r))
  /\ y r = v (unique_id r) (ds r).
Proof.
  unfold blocks. rewrite in_flat_map. split.
  - intros (e & He & (t & <- & Ht)%in_map_iff). simpl. auto.
  - intros (He & Ht & Hy). exists (unique_id r). split; [exact He|].
    apply in_map_iff. exists (ds r). split; [|exact Ht].
    destruct r; simpl in *. now subst.
Qed.

Lemma series_of_block (e : string) (ids : list string) :
  List.NoDup ids -> In e ids ->
  series_of e (blocks v w ids) = map (fun t => mkRow t e (v e t)) (w e).
Proof.
  unfold series_of, blocks. induction ids as [|a ids IH]; [now intros _ []|].
  intros [Ha Hnd]%NoDup_cons_iff Hin. simpl. rewrite List.filter_app.
  assert (Hself : forall s l,
             List.filter (has_id s) (map (fun t => mkRow t s (v s t)) l)
             = map (fun t => mkRow t s (v s t)) l).
  { intros s l. induction l as [|t l IHl]; simpl; [reflexivity|].
    unfold has_id at 1. simpl. now rewrite String.eqb_refl, IHl. }
  assert (Hother : forall s l, s <> e ->
             List.filter (has_id e) (map (fun t => mkRow t s (v s t)) l) = []).
  { intros s l Hs. induction l as [|t l IHl]; simpl; [reflexivity|].
    unfold has_id at 1. simpl.
    destruct (String.eqb_spec s e); [contradiction | exact IHl]. }
  destruct Hin as [->|Hin].
  - rewrite Hself.
    assert (E : List.filter (has_id e)
                  (flat_map (fun e0 => map (fun t => mkRow t e0 (v e0 t)) (w e0))
                            ids) = []).
    { clear IH Hnd. induction ids as [|b ids IH]; simpl; [reflexivity|].
      rewrite List.filter_app, Hother, IH; [reflexivity | | ].
      - intros Hb. apply Ha. now right.
      - intros ->. apply Ha. now left. }
    rewrite E. apply app_nil_r.
  - rewrite Hother by (intros ->; contradiction).
    simpl. now apply IH.
Qed.

Hypothesis w_sorted : forall e, StronglySorted Z.lt (w e).

Lemma blocks_sorted (ids : list string) :
  StronglySorted (lt_of String.compare) ids ->
  StronglySorted (lt_of row_compare) (blocks v w ids).
Proof using w_sorted.
  unfold blocks. induction 1 as [|a ids Hs IH Hd]; simpl; [constructor|].
  apply StronglySorted_app; [|exact IH|].
  - eapply StronglySorted_map; [|apply w_sorted].
    intros s t Hst. unfold lt_of, row_compare. simpl.
    rewrite string_compare_refl. now apply Z.compare_lt_iff.
  - intros r1 r2 (t1 & <- & _)%in_map_iff
                 (e & He & (t2 & <- & _)%in_map_iff)%in_flat_map.
    rewrite List.Forall_forall in Hd. specialize (Hd e He).
    unfold lt_of, row_compare in *. simpl. now rewrite Hd.
Qed.

Lemma sort_values_blocks (ids : list string) :
  StronglySorted (lt_of String.compare) ids ->
  sort_values (blocks v w ids) = blocks v w ids.
Proof using w_sorted.
  intros Hs. apply sort_by_id, StronglySorted_Sorted.
  eapply StronglySorted_impl; [|now apply blocks_sorted].
  unfold lt_of, le_of. congruence.
Qed.

End blocks.

Lemma concat_blocks (f : string -> list Row) (ids : list string) :
  ids <> [] -> pd.concat (map f ids) = Ok (flat_map f ids).
Proof.
  intros H. destruct ids as [|a ids]; [congruence|].
  unfold pd.concat. simpl. f_equal. f_equal. symmetry.
  rewrite flat_map_concat_map. reflexivity.
Qed.

Lemma entity_ids_nonempty (rows : list Row) :
  rows <> [] -> entity_ids rows <> [].
Proof.
  destruct rows as [|r rows]; [congruence|]. intros _ E.
  assert (H : In (unique_id r) (entity_ids (r :: rows))).
  { apply In_entity_ids. now left. }
  now rewrite E in H.
Qed.

Lemma entity_ids_nil : entity_ids [] = [].
Proof. reflexivity. Qed.

(** ** What the two regularisers compute *)

Lemma merge_left_on_ds_find (master : list pd.Timestamp) (uid_data : list Row) :
  List.NoDup (map ds uid_data) ->
  app.merge_left_on_ds master uid_data
  = map (fun t => (t, List.find (fun r => Z.eqb (ds r) t) uid_data)) master.
Proof.
  intros Hnd. unfold app.merge_left_on_ds.
  induction master as [|t master IH]; [reflexivity|].
  cbn [flat_map]. rewrite IH, (filter_find_unique ds t _ Hnd).
  destruct (List.find _ uid_data) eqn:F; simpl; rewrite F; reflexivity.
Qed.

Lemma pad_uid_eq (rows : list Row) (master : list pd.Timestamp) (e : string) :
  app.pad_uid master (daily_aggregate rows) e
  = map (fun t => mkRow t e (value_at rows e t)) master.
Proof.
  unfold app.pad_uid.
  rewrite merge_left_on_ds_find by apply daily_entity_NoDup.
  rewrite map_map. apply map_ext. intros t. simpl. now rewrite daily_lookup.
Qed.

(** [preprocess_data] on a frame that has rows: one block per entity over
    the master calendar. *)
Lemma preprocess_data_blocks (rows : list Row) (m : pd.Timestamp) :
  pd.series_max (map ds rows) = Some m ->
  app.preprocess_data rows
  = Ok (blocks (value_at rows) (fun _ => master_calendar m) (entity_ids rows)).
Proof.
  intros Hm. unfold app.preprocess_data. rewrite Hm, daily_ids.
  assert (Hne : rows <> []) by (intros ->; discriminate).
  rewrite (map_ext _ _ (pad_uid_eq rows _)).
  rewrite concat_blocks by now apply entity_ids_nonempty.
  simpl. f_equal. apply sort_values_blocks.
  - intros _. apply date_range_sorted.
  - apply entity_ids_sorted.
Qed.

Lemma preprocess_data_empty :
  app.preprocess_data []
  = Raise (ValueError "Neither `start` nor `end` can be NaT").
Proof. reflexivity. Qed.

Lemma daily_entity_timestamps (rows : list Row) (e : string) (t : pd.Timestamp) :
  In t (map ds (List.filter (has_id e) (daily_aggregate rows)))
  <-> exists d, t = pd.to_datetime d /\ In d (entity_days e rows).
Proof.
  unfold entity_days, series_of. rewrite !in_map_iff. split.
  - intros (r & <- & [Hr He]%filter_In). apply has_id_true in He.
    apply In_daily_aggregate in Hr as (d & Hk & ->). simpl in *.
    apply In_group_keys in Hk as (r0 & Hr0 & Hkey). exists d.
    split; [reflexivity|].
    apply in_map_iff. exists r0. injection Hkey as E1 E2. split; [exact E2|].
    apply filter_In. split; [exact Hr0|]. apply has_id_true. congruence.
  - intros (d & -> & (r & <- & [Hr He]%filter_In)%in_map_iff).
    apply has_id_true in He.
    exists (mkRow (pd.to_datetime (day r)) e (cell rows (e, day r))).
    split; [reflexivity|]. apply filter_In. split; [|now apply has_id_true].
    apply In_daily_aggregate. exists (day r). simpl. split; [|reflexivity].
    apply In_group_keys. exists r. split; [exact Hr|].
    unfold row_key, day. now rewrite He.
Qed.

Lemma daily_entity_min (rows : list Row) (e : string) (lo : Z) :
  pd.series_min (entity_days e rows) = Some lo ->
  pd.series_min (map ds (List.filter (has_id e) (daily_aggregate rows)))
  = Some (pd.to_datetime lo).
Proof.
  rewrite !series_min_spec. intros [Hin Hall]. split.
  - apply daily_entity_timestamps. eauto.
  - rewrite List.Forall_forall in *.
    intros t (d & -> & Hd)%daily_entity_timestamps.
    specialize (Hall d Hd). unfold pd.to_datetime.
    pose proof ns_per_day_pos. nia.
Qed.

Lemma daily_entity_max (rows : list Row) (e : string) (hi : Z) :
  pd.series_max (entity_days e rows) = Some hi ->
  pd.series_max (map ds (List.filter (has_id e) (daily_aggregate rows)))
  = Some (pd.to_datetime hi).
Proof.
  rewrite !series_max_spec. intros [Hin Hall]. split.
  - apply daily_entity_timestamps. eauto.
  - rewrite List.Forall_forall in *.
    intros t (d & -> & Hd)%daily_entity_timestamps.
    specialize (Hall d Hd). unfold pd.to_datetime.
    pose proof ns_per_day_pos. nia.
Qed.

Lemma entity_days_nonempty (rows : list Row) (e : string) :
  In e (entity_ids rows) -> entity_days e rows <> [].
Proof.
  intros (r & <- & Hr)%In_entity_ids%in_map_iff E.
  assert (H : In (day r) (entity_days (unique_id r) rows)).
  { apply in_map_iff. exists r. split; [reflexivity|].
    apply filter_In. split; [exact Hr | now apply has_id_true]. }
  now rewrite E in H.
Qed.

Lemma regular_mall_eq (rows : list Row) (e : string) :
  In e (entity_ids rows) ->
  anomaly_detection.regular_mall (daily_aggregate rows) e
  = map (fun t => mkRow t e (value_at rows e t)) (full_span_calendar rows e).
Proof.
  intros He. apply entity_days_nonempty in He.
  destruct (series_min_is_Some _ He) as [lo Hlo].
  destruct (series_max_is_Some _ He) as [hi Hhi].
  unfold anomaly_detection.regular_mall, anomaly_detection.resample_D_asfreq,
    full_span_calendar, entity_span.
  rewrite (daily_entity_min _ _ _ Hlo), (daily_entity_max _ _ _ Hhi), Hlo, Hhi.
  rewrite !dt_date_to_datetime, date_range_midnight, !map_map.
  apply map_ext. intros d. simpl. now rewrite daily_lookup.
Qed.

Lemma full_span_calendar_sorted (rows : list Row) (e : string) :
  StronglySorted Z.lt (full_span_calendar rows e).
Proof.
  unfold full_span_calendar, entity_span.
  destruct (pd.series_min (entity_days e rows)),
    (pd.series_max (entity_days e rows)); simpl; try constructor.
  eapply StronglySorted_map; [|apply days_from_sorted].
  intros a b H. unfold pd.to_datetime. pose proof ns_per_day_pos. nia.
Qed.

(** The script on a frame that has rows: one block per entity over the
    entity's own span. *)
Lemma main_daily_sales_blocks (rows : list Row) :
  rows <> [] ->
  anomaly_detection.main_daily_sales rows
  = Ok (blocks (value_at rows) (full_span_calendar rows) (entity_ids rows)).
Proof.
  intros Hne. unfold anomaly_detection.main_daily_sales. rewrite daily_ids.
  rewrite (map_ext_in _ _ _ (regular_mall_eq rows)).
  rewrite concat_blocks by now apply entity_ids_nonempty.
  simpl. f_equal. apply sort_values_blocks.
  - apply full_span_calendar_sorted.
  - apply entity_ids_sorted.
Qed.

Lemma main_daily_sales_empty :
  anomaly_detection.main_daily_sales []
  = Raise (ValueError "No objects to concatenate").
Proof. reflexivity. Qed.

(** ** Keys and sums of a table made of blocks *)

Lemma Qplus_0_l_eq (q : Q) : (0 + q)%Q = q.
Proof. destruct q as [n d]. unfold Qplus. simpl. now rewrite Z.mul_1_r. Qed.

Lemma series_sum_singleton (q : Q) : pd.series_sum [q] = q.
Proof. unfold pd.series_sum. simpl. apply Qplus_0_l_eq. Qed.

Lemma fold_left_Qplus (l : list Q) (a : Q) :
  (fold_left Qplus l a == a + fold_right Qplus 0 l)%Q.
Proof.
  revert a. induction l as [|q l IH]; intros a; simpl.
  - now rewrite Qplus_0_r.
  - rewrite IH. now rewrite Qplus_assoc.
Qed.

Lemma series_sum_fold_right (l : list Q) :
  (pd.series_sum l == fold_right Qplus 0 l)%Q.
Proof. unfold pd.series_sum. rewrite fold_left_Qplus. apply Qplus_0_l. Qed.

(** The sum the code attaches to a group is the sum of the raw values of
    that entity on that day. *)
Lemma cell_raw_sum (rows : list Row) (e : string) (d : Z) :
  (cell rows (e, d) == raw_sum rows e d)%Q.
Proof. unfold cell, raw_sum. apply series_sum_fold_right. Qed.

Lemma filter_key_singleton (k : key) (l : list Row) (x : Row) :
  List.NoDup (map row_key l) -> In x l -> row_key x = k ->
  group_rows k l = [x].
Proof.
  unfold group_rows. induction l as [|a l IH]; [now intros _ []|].
  simpl. intros [Ha Hnd]%NoDup_cons_iff Hin Hk.
  assert (Hnone : forall z, In z l -> row_key z = k -> ~ In (row_key z) (map row_key l) -> False).
  { intros z Hz _ Hn. apply Hn, in_map, Hz. }
  destruct Hin as [->|Hin].
  - rewrite (proj2 (key_eqb_eq _ _) Hk). f_equal.
    destruct (List.filter _ l) as [|b l'] eqn:F; [reflexivity|].
    exfalso. apply Ha.
    assert (Hb : In b (List.filter (fun r => key_eqb (row_key r) k) l))
      by (rewrite F; now left).
    apply filter_In in Hb as [Hb Eb]. apply key_eqb_eq in Eb.
    apply in_map_iff. exists b. split; [congruence | exact Hb].
  - destruct (key_eqb (row_key a) k) eqn:E; [|now apply IH].
    exfalso. apply key_eqb_eq in E. apply Ha.
    apply in_map_iff. exists x. split; [congruence | exact Hin].
Qed.

Lemma blocks_ext (v v' : string -> pd.Timestamp -> Q)
    (w w' : string -> list pd.Timestamp) (ids : list string) :
  (forall e, In e ids -> w e = w' e) ->
  (forall e t, In e ids -> In t (w e) -> v e t = v' e t) ->
  blocks v w ids = blocks v' w' ids.
Proof.
  intros Hw Hv. unfold blocks. induction ids as [|a ids IH]; [reflexivity|].
  simpl. rewrite IH.
  - f_equal. rewrite <- (Hw a) by now left.
    apply map_ext_in. intros t Ht. f_equal. apply Hv; [now left | exact Ht].
  - intros e He. apply Hw. now right.
  - intros e t He. apply Hv. now right.
Qed.

Section block_keys.

Variable v : string -> pd.Timestamp -> Q.
Variable w : string -> list pd.Timestamp.

Hypothesis w_days : forall e, StronglySorted Z.lt (map pd.dt_date (w e)).

Lemma blocks_keys_sorted (ids : list string) :
  StronglySorted (lt_of String.compare) ids ->
  StronglySorted (lt_of key_compare) (map row_key (blocks v w ids)).
Proof using w_days.
  unfold blocks. induction 1 as [|a l Hs IH Hd]; simpl; [constructor|].
  rewrite map_app. apply StronglySorted_app; [|exact IH|].
  - rewrite map_map. unfold row_key. simpl.
    rewrite <- (map_map pd.dt_date (fun d => (a, d))).
    eapply StronglySorted_map; [|apply w_days].
    intros s t Hst. unfold lt_of, key_compare. simpl.
    rewrite string_compare_refl. now apply Z.compare_lt_iff.
  - intros k1 k2 (r1 & <- & (t1 & <- & _)%in_map_iff)%in_map_iff
                 (r2 & <- & (e & He & (t2 & <- & _)%in_map_iff)%in_flat_map)
                   %in_map_iff.
    rewrite List.Forall_forall in Hd. specialize (Hd e He).
    unfold lt_of, key_compare in *. simpl. now rewrite Hd.
Qed.

Variable ids : list string.
Hypothesis ids_sorted : StronglySorted (lt_of String.compare) ids.
Hypothesis w_nonempty : forall e, In e ids -> w e <> [].

Lemma blocks_keys_NoDup : List.NoDup (map row_key (blocks v w ids)).
Proof using w_days ids_sorted.
  eapply sorted_NoDup; [apply key_compare_antisym|].
  now apply blocks_keys_sorted.
Qed.

Lemma blocks_group_keys :
  group_keys (blocks v w ids) = map row_key (blocks v w ids).
Proof using w_days ids_sorted.
  apply sort_uniq_id, StronglySorted_Sorted. now apply blocks_keys_sorted.
Qed.

Lemma ids_NoDup : List.NoDup ids.
Proof using ids_sorted.
  eapply sorted_NoDup; [apply String.compare_antisym | exact ids_sorted].
Qed.

Lemma blocks_ids (e : string) :
  In e (map unique_id (blocks v w ids)) <-> In e ids.
Proof using w_nonempty.
  rewrite in_map_iff. split.
  - intros (r & <- & Hr%In_blocks). tauto.
  - intros He. destruct (w e) as [|t l] eqn:E; [now apply w_nonempty in He|].
    exists (mkRow t e (v e t)). split; [reflexivity|].
    apply In_blocks. simpl. rewrite E. repeat split; [exact He | now left].
Qed.

Lemma blocks_entity_ids : entity_ids (blocks v w ids) = ids.
Proof using w_nonempty w_days ids_sorted.
  apply (sorted_ext String.compare).
  - apply String.compare_antisym.
  - apply string_compare_trans.
  - apply entity_ids_sorted.
  - exact ids_sorted.
  - intros e. rewrite In_entity_ids. apply blocks_ids.
Qed.

Lemma blocks_cell (e : string) (t : pd.Timestamp) :
  In e ids -> In t (w e) ->
  cell (blocks v w ids) (e, pd.dt_date t) = v e t.
Proof using w_days ids_sorted.
  intros He Ht. unfold cell.
  rewrite (filter_key_singleton _ _ (mkRow t e (v e t))).
  - apply series_sum_singleton.
  - apply blocks_keys_NoDup.
  - apply In_blocks. simpl. auto.
  - reflexivity.
Qed.

Lemma blocks_entity_days (e : string) :
  In e ids -> entity_days e (blocks v w ids) = map pd.dt_date (w e).
Proof using ids_sorted.
  intros He. unfold entity_days.
  rewrite series_of_block by (exact He || apply ids_NoDup).
  rewrite map_map. reflexivity.
Qed.

End block_keys.

(** ** Windows *)

Lemma full_span_days (rows : list Row) (e : string) :
  map pd.dt_date (full_span_calendar rows e) = entity_span rows e.
Proof.
  unfold full_span_calendar. rewrite map_map.
  rewrite (map_ext _ (fun d => d)) by apply dt_date_to_datetime.
  apply map_id.
Qed.

Lemma entity_span_sorted (rows : list Row) (e : string) :
  StronglySorted Z.lt (entity_span rows e).
Proof.
  unfold entity_span.
  destruct (pd.series_min (entity_days e rows)),
    (pd.series_max (entity_days e rows)); try constructor.
  apply days_from_sorted.
Qed.

Lemma entity_span_range (rows : list Row) (e : string) :
  In e (entity_ids rows) ->
  exists lo hi,
    pd.series_min (entity_days e rows) = Some lo
    /\ pd.series_max (entity_days e rows) = Some hi
    /\ entity_span rows e = days_from lo hi /\ (lo <= hi)%Z.
Proof.
  intros He%entity_days_nonempty.
  destruct (series_min_is_Some _ He) as [lo Hlo].
  destruct (series_max_is_Some _ He) as [hi Hhi].
  exists lo, hi. unfold entity_span. rewrite Hlo, Hhi.
  repeat split; try reflexivity.
  apply series_min_spec in Hlo as [Hin _].
  apply series_max_spec in Hhi as [_ Hall].
  rewrite List.Forall_forall in Hall. now apply Hall.
Qed.

Lemma days_from_nonempty (lo hi : Z) : (lo <= hi)%Z -> days_from lo hi <> [].
Proof.
  intros H E. assert (Hin : In lo (days_from lo hi)) by (apply In_days_from; lia).
  now rewrite E in Hin.
Qed.

Lemma full_span_calendar_nonempty (rows : list Row) (e : string) :
  In e (entity_ids rows) -> full_span_calendar rows e <> [].
Proof.
  intros (lo & hi & _ & _ & E & Hle)%entity_span_range.
  unfold full_span_calendar. rewrite E. intros H%map_eq_nil.
  now apply (days_from_nonempty lo hi).
Qed.

Lemma master_calendar_days_sorted (m : pd.Timestamp) :
  StronglySorted Z.lt (map pd.dt_date (master_calendar m)).
Proof.
  unfold master_calendar. rewrite master_dates_days. apply days_from_sorted.
Qed.

Lemma master_calendar_nonempty (m : pd.Timestamp) : master_calendar m <> [].
Proof.
  intros E. destruct (master_dates_last m) as [Hin _].
  unfold master_calendar in E. now rewrite E in Hin.
Qed.

Lemma length_master_calendar (m : pd.Timestamp) :
  length (master_calendar m) = 181%nat.
Proof.
  rewrite <- (length_map pd.dt_date). unfold master_calendar.
  rewrite master_dates_days, length_days_from. f_equal. lia.
Qed.

(** Every run that succeeds returns a table made of blocks, one per entity
    of the input, each over the window of the mode. *)
Lemma regularize_blocks (mode : Mode) (rows out : list Row) :
  regularize mode rows = Ok out ->
  exists w,
    out = blocks (value_at rows) w (entity_ids rows)
    /\ (forall e, StronglySorted Z.lt (w e))
    /\ (forall e, StronglySorted Z.lt (map pd.dt_date (w e)))
    /\ (forall e, In e (entity_ids rows) -> w e <> [])
    /\ (forall e, In e (entity_ids rows) ->
                  map pd.dt_date (w e) = window mode rows e).
Proof.
  destruct mode; simpl.
  - destruct rows as [|r rows']; [discriminate|].
    rewrite main_daily_sales_blocks by discriminate. intros [= <-].
    exists (full_span_calendar (r :: rows')). split; [reflexivity|].
    split; [apply full_span_calendar_sorted|].
    split; [intros e; rewrite full_span_days; apply entity_span_sorted|].
    split; [apply full_span_calendar_nonempty|].
    intros e _. apply full_span_days.
  - destruct (pd.series_max (map ds rows)) as [m|] eqn:Hm.
    + rewrite (preprocess_data_blocks rows m Hm). intros [= <-].
      exists (fun _ => master_calendar m). split; [reflexivity|].
      split; [intros _; apply date_range_sorted|].
      split; [intros _; apply master_calendar_days_sorted|].
      split; [intros e _; apply master_calendar_nonempty|].
      intros e _. apply master_dates_days.
    + unfold app.preprocess_data. rewrite Hm. discriminate.
Qed.

(** C1.  Whatever the raw input and the mode, an entity that appears in the
    output of the regulariser has there exactly one row per calendar day of
    its window (its own span from first to last observed day in full-span
    mode, the shared 181 days in fixed-window mode): its days, in output
    order, are the days of the window from the first to the last, the number
    of its rows is the number of days from the first to the last plus one,
    and no (entity, day) pair occurs twice in the output. *)
Theorem C1_one_row_per_day (mode : Mode) (rows out : list Row) (e : string) :
  regularize mode rows = Ok out ->
  In e (map unique_id out) ->
  map day (series_of e out) = window mode rows e
  /\ (exists start stop,
        window mode rows e = days_from start stop /\ (start <= stop)%Z
        /\ Z.of_nat (length (series_of e out)) = (stop - start + 1)%Z)
  /\ List.NoDup (map row_key out).
Proof.
  intros Hrun Hin.
  destruct (regularize_blocks mode rows out Hrun)
    as (w & -> & Hw & Hd & Hne & Hwin).
  pose proof (entity_ids_sorted rows) as Hids.
  assert (He : In e (entity_ids rows))
    by exact (proj1 (blocks_ids (value_at rows) w _ Hne e) Hin).
  assert (Hdays : map day (series_of e (blocks (value_at rows) w
                                           (entity_ids rows)))
                  = window mode rows e).
  { rewrite <- Hwin by exact He. now apply blocks_entity_days. }
  split; [exact Hdays|]. split; [|now apply blocks_keys_NoDup].
  assert (Hrange : exists start stop,
             window mode rows e = days_from start stop /\ (start <= stop)%Z).
  { destruct mode; simpl.
    - destruct (entity_span_range rows e He) as (lo & hi & _ & _ & E & Hle).
      eauto.
    - simpl in Hrun. destruct (pd.series_max (map ds rows)) as [m|] eqn:Hm.
      + exists (pd.dt_date m - 180)%Z, (pd.dt_date m). split; [reflexivity | lia].
      + unfold app.preprocess_data in Hrun. now rewrite Hm in Hrun. }
  destruct Hrange as (start & stop & E & Hle). exists start, stop.
  split; [exact E|]. split; [exact Hle|].
  rewrite <- (length_map day), Hdays, E, length_days_from. lia.
Qed.

Lemma C1_one_row_per_day_witness :
  exists out,
    regularize fixed_window two_entities = Ok out
    /\ map day (series_of "B" out) = window fixed_window two_entities "B"
    /\ Z.of_nat (length (series_of "B" out)) = 181%Z.
Proof.
  destruct (regularize fixed_window two_entities) as [out|] eqn:E;
    [|vm_compute in E; discriminate].
  exists out. split; [reflexivity|].
  assert (Hin : In "B"%string (map unique_id out)).
  { vm_compute in E. injection E as <-. vm_compute. tauto. }
  destruct (C1_one_row_per_day fixed_window two_entities out "B" E Hin)
    as (Hdays & (start & stop & Hw & Hle & Hlen) & _).
  split; [exact Hdays|]. rewrite Hlen.
  assert (Hl : length (window fixed_window two_entities "B") = 181%nat)
    by (vm_compute; reflexivity).
  rewrite Hw, length_days_from in Hl. lia.
Defined.

(** ** The shared window of the dashboard *)

Lemma global_max_day (rows : list Row) (m : pd.Timestamp) :
  pd.series_max (map ds rows) = Some m ->
  pd.series_max (map day rows) = Some (pd.dt_date m).
Proof.
  rewrite !series_max_spec. intros [Hin Hall]. split.
  - apply in_map_iff in Hin as (r & <- & Hr). apply in_map_iff. eauto.
  - rewrite List.Forall_forall in *. intros d (r & <- & Hr)%in_map_iff.
    unfold day, pd.dt_date. apply Z.div_le_mono; [reflexivity|].
    apply Hall, in_map, Hr.
Qed.

Lemma value_at_unobserved (rows : list Row) (e : string) (t : pd.Timestamp) :
  (forall r, In r (series_of e rows) -> day r <> pd.dt_date t) ->
  value_at rows e t = 0%Q.
Proof.
  intros H. unfold value_at. destruct (_ =? _)%Z; [|reflexivity].
  apply cell_absent. intros (r & Hr & [= He Hd])%In_group_keys.
  apply (H r); [|exact Hd].
  apply filter_In. split; [exact Hr | now apply has_id_true].
Qed.

(** C3.  In fixed-window mode, for every raw input that has rows, the
    regulariser lays every entity on one and the same calendar: the 181
    days from the global latest day minus 180 to the global latest day, the
    latest day being taken over all entities.  The timestamps of the rows are
    the same for every entity, whatever the span of its own data, and an
    entity with no observation inside the window gets the value zero on every
    day of the window. *)
Theorem C3_fixed_window_shared_calendar (rows : list Row) :
  rows <> [] ->
  exists global_max out,
    pd.series_max (map day rows) = Some global_max
    /\ regularize fixed_window rows = Ok out
    /\ forall e, In e (map unique_id rows) ->
         map day (series_of e out) = days_from (global_max - 180) global_max
         /\ (forall e', In e' (map unique_id rows) ->
               map ds (series_of e' out) = map ds (series_of e out))
         /\ ((forall r, In r (series_of e rows) ->
                ~ (global_max - 180 <= day r <= global_max)%Z) ->
             Forall (fun r => y r = 0%Q) (series_of e out)).
Proof.
  intros Hne.
  destruct (series_max_is_Some (map ds rows)) as [m Hm].
  { intros E%map_eq_nil. contradiction. }
  exists (pd.dt_date m),
    (blocks (value_at rows) (fun _ => master_calendar m) (entity_ids rows)).
  split; [now apply global_max_day|].
  split; [simpl; now apply preprocess_data_blocks|].
  pose proof (ids_NoDup _ (entity_ids_sorted rows)) as Hnd.
  intros e He%In_entity_ids.
  rewrite (series_of_block _ _ e _ Hnd He), !map_map. simpl.
  split; [|split].
  - unfold day. simpl. rewrite <- master_dates_days. reflexivity.
  - intros e' He'%In_entity_ids.
    rewrite (series_of_block _ _ e' _ Hnd He'), map_map. reflexivity.
  - intros Hout. apply Forall_map, List.Forall_forall. intros t Ht. simpl.
    apply value_at_unobserved. intros r Hr Hd. apply (Hout r Hr).
    rewrite Hd. apply In_days_from. rewrite <- master_dates_days.
    apply in_map. exact Ht.
Qed.

Lemma C3_fixed_window_shared_calendar_witness :
  exists out,
    regularize fixed_window two_entities = Ok out
    /\ map day (series_of "B" out) = days_from (D3 - 180) D3
    /\ map ds (series_of "A" out) = map ds (series_of "B" out)
    /\ Forall (fun r => y r = 0%Q) (series_of "B" out).
Proof.
  assert (Hne : two_entities <> []) by discriminate.
  destruct (C3_fixed_window_shared_calendar two_entities Hne)
    as (g & out & Hg & Hrun & H).
  assert (g = D3) as -> by (vm_compute in Hg; injection Hg as <-; reflexivity).
  exists out. split; [exact Hrun|].
  assert (HB : In "B"%string (map unique_id two_entities))
    by (vm_compute; tauto).
  assert (HA : In "A"%string (map unique_id two_entities))
    by (vm_compute; tauto).
  destruct (H "B"%string HB) as (Hdays & Hsame & Hzero).
  split; [exact Hdays|]. split; [exact (Hsame "A"%string HA)|].
  apply Hzero. intros r Hr. vm_compute in Hr.
  destruct Hr as [<-|[]]. vm_compute. intros [C _]. apply C. reflexivity.
Defined.

(** C7 (what the code does).  On a raw input with no rows the aggregation
    gives the empty table, and neither regulariser returns: the script stops
    in [pd.concat] and the dashboard in [pd.date_range], each with a
    [ValueError]. *)
Theorem C7_empty_input_raises :
  daily_aggregate [] = []
  /\ regularize full_span [] = Raise (ValueError "No objects to concatenate")
  /\ regularize fixed_window []
     = Raise (ValueError "Neither `start` nor `end` can be NaT").
Proof. repeat split; reflexivity. Qed.

(** ** Running the pipeline on its own output *)

Lemma value_at_blocks (rows : list Row) (w : string -> list pd.Timestamp)
    (ids : list string) (e : string) (t : pd.Timestamp) :
  (forall e, StronglySorted Z.lt (map pd.dt_date (w e))) ->
  StronglySorted (lt_of String.compare) ids ->
  In e ids -> In t (w e) ->
  value_at (blocks (value_at rows) w ids) e t = value_at rows e t.
Proof.
  intros Hd Hids He Ht. unfold value_at at 1.
  destruct (Z.eqb_spec (t mod pd.ns_per_day) 0) as [Hm|Hm].
  - now apply blocks_cell.
  - unfold value_at. now rewrite (proj2 (Z.eqb_neq _ _) Hm).
Qed.

Lemma series_min_days_from (lo hi : Z) :
  (lo <= hi)%Z -> pd.series_min (days_from lo hi) = Some lo.
Proof.
  intros H. apply series_min_spec. split.
  - apply In_days_from. lia.
  - apply List.Forall_forall. intros x Hx%In_days_from. lia.
Qed.

Lemma series_max_days_from (lo hi : Z) :
  (lo <= hi)%Z -> pd.series_max (days_from lo hi) = Some hi.
Proof.
  intros H. apply series_max_spec. split.
  - apply In_days_from. lia.
  - apply List.Forall_forall. intros x Hx%In_days_from. lia.
Qed.

Lemma blocks_nonempty (v : string -> pd.Timestamp -> Q)
    (w : string -> list pd.Timestamp) (ids : list string) :
  ids <> [] -> (forall e, In e ids -> w e <> []) -> blocks v w ids <> [].
Proof.
  destruct ids as [|a ids]; [congruence|]. intros _ Hw.
  unfold blocks. simpl. destruct (w a) eqn:E; [|discriminate].
  exfalso. apply (Hw a); [now left | exact E].
Qed.

Lemma full_span_idempotent (rows out : list Row) :
  regularize full_span rows = Ok out -> regularize full_span out = Ok out.
Proof.
  simpl. destruct rows as [|r0 rows']; [discriminate|].
  set (rows := r0 :: rows').
  rewrite main_daily_sales_blocks by discriminate. intros [= <-].
  set (w := full_span_calendar rows).
  assert (Hd : forall e, StronglySorted Z.lt (map pd.dt_date (w e))).
  { intros e. unfold w. rewrite full_span_days. apply entity_span_sorted. }
  pose proof (entity_ids_sorted rows) as Hids.
  pose proof (full_span_calendar_nonempty rows) as Hne.
  rewrite main_daily_sales_blocks.
  2:{ apply blocks_nonempty; [|exact Hne].
      apply entity_ids_nonempty. discriminate. }
  rewrite (blocks_entity_ids _ w Hd _ Hids Hne). f_equal.
  apply blocks_ext.
  - intros e He. unfold full_span_calendar at 1, entity_span.
    rewrite (blocks_entity_days _ w _ Hids e He).
    unfold w at 1 2. rewrite full_span_days.
    destruct (entity_span_range rows e He) as (lo & hi & _ & _ & E & Hle).
    rewrite E, series_min_days_from, series_max_days_from by exact Hle.
    unfold w, full_span_calendar. now rewrite E.
  - intros e t He Ht. apply value_at_blocks; try assumption.
    revert Ht. unfold full_span_calendar at 1, entity_span.
    rewrite (blocks_entity_days _ w _ Hids e He).
    unfold w at 1 2. rewrite full_span_days.
    destruct (entity_span_range rows e He) as (lo & hi & _ & _ & E & Hle).
    rewrite E, series_min_days_from, series_max_days_from by exact Hle.
    unfold w, full_span_calendar. now rewrite E.
Qed.

Lemma fixed_window_idempotent (rows out : list Row) :
  regularize fixed_window rows = Ok out -> regularize fixed_window out = Ok out.
Proof.
  simpl. destruct (pd.series_max (map ds rows)) as [m|] eqn:Hm.
  2:{ unfold app.preprocess_data. rewrite Hm. discriminate. }
  rewrite (preprocess_data_blocks rows m Hm). intros [= <-].
  set (w := fun _ : string => master_calendar m).
  assert (Hd : forall e, StronglySorted Z.lt (map pd.dt_date (w e)))
    by (intros e; apply master_calendar_days_sorted).
  assert (Hne : forall e, In e (entity_ids rows) -> w e <> [])
    by (intros e _; apply master_calendar_nonempty).
  pose proof (entity_ids_sorted rows) as Hids.
  assert (Hrows : rows <> []) by (intros ->; discriminate).
  assert (Hm' : pd.series_max (map ds (blocks (value_at rows) w (entity_ids rows)))
                = Some m).
  { destruct (master_dates_last m) as [Hlast Hall].
    apply series_max_spec. split.
    - destruct (entity_ids rows) as [|e ids] eqn:E.
      + now apply entity_ids_nonempty in E.
      + apply in_map_iff. exists (mkRow m e (value_at rows e m)).
        split; [reflexivity|]. apply In_blocks. simpl.
        repeat split; [now left | exact Hlast].
    - rewrite List.Forall_forall in *.
      intros t (r & <- & (_ & Ht & _)%In_blocks)%in_map_iff.
      apply Hall, Ht. }
  rewrite (preprocess_data_blocks _ m Hm').
  rewrite (blocks_entity_ids _ w Hd _ Hids Hne). f_equal.
  apply blocks_ext; [reflexivity|].
  intros e t He Ht. now apply value_at_blocks.
Qed.

(** C8.  Aggregation followed by regularisation is idempotent in both modes:
    for every raw input, feeding the pipeline its own output gives that
    output again (and, the pipeline being a function, two runs on the same
    input agree); when the input makes the pipeline raise, there is no output
    to feed back and the outcome of the composition is the same exception. *)
Theorem C8_idempotent (mode : Mode) (rows : list Row) :
  regularize mode rows ≫= regularize mode = regularize mode rows.
Proof.
  destruct (regularize mode rows) as [out|err] eqn:E; [|reflexivity].
  simpl. destruct mode.
  - now apply (full_span_idempotent rows).
  - now apply (fixed_window_idempotent rows).
Qed.

(** ** Conservation of the daily sums *)

Lemma full_span_conservation (rows out : list Row) (r : Row) :
  regularize full_span rows = Ok out -> In r out ->
  (y r == raw_sum rows (unique_id r) (day r))%Q.
Proof.
  simpl. destruct rows as [|r0 rows']; [discriminate|].
  rewrite main_daily_sales_blocks by discriminate. intros [= <-].
  intros (_ & Ht & ->)%In_blocks.
  unfold full_span_calendar in Ht. apply in_map_iff in Ht as (d & Hd & _).
  unfold day. rewrite <- Hd, dt_date_to_datetime.
  unfold value_at. rewrite to_datetime_midnight, dt_date_to_datetime. simpl.
  apply cell_raw_sum.
Qed.

Lemma fixed_window_conservation (rows out : list Row) (m : pd.Timestamp)
    (r : Row) :
  pd.series_max (map ds rows) = Some m -> (m mod pd.ns_per_day = 0)%Z ->
  regularize fixed_window rows = Ok out -> In r out ->
  (y r == raw_sum rows (unique_id r) (day r))%Q.
Proof.
  intros Hm Hmid. simpl. rewrite (preprocess_data_blocks rows m Hm).
  intros [= <-] (_ & Ht & ->)%In_blocks.
  apply master_dates_mod in Ht. unfold value_at. rewrite Ht, Hmid. simpl.
  apply cell_raw_sum.
Qed.

Lemma raw_sum_unobserved (rows : list Row) (e : string) (d : Z) :
  ~ In d (entity_days e rows) -> raw_sum rows e d = 0%Q.
Proof.
  intros H. unfold raw_sum.
  destruct (List.filter _ rows) as [|r l] eqn:F; [reflexivity|].
  exfalso. apply H.
  assert (Hr : In r (List.filter (fun r => has_id e r && Z.eqb (day r) d) rows))
    by (rewrite F; now left).
  apply filter_In in Hr as [Hr [He Hd]%andb_true_iff].
  apply Z.eqb_eq in Hd. subst d. apply in_map, filter_In. auto.
Qed.

Example scenario_A_full_span : regularize full_span scenario_A = Ok regular_A.
Proof. reflexivity. Qed.

(** The same input in fixed-window mode: the three days come last, after 178
    days at zero. *)
Example scenario_A_fixed_window :
  exists out,
    regularize fixed_window scenario_A = Ok out
    /\ length out = 181%nat
    /\ skipn 178 out = regular_A
    /\ forallb (fun r => Qeq_bool (y r) 0) (firstn 178 out) = true.
Proof.
  destruct (regularize fixed_window scenario_A) as [out|] eqn:E;
    [|vm_compute in E; discriminate].
  exists out. split; [reflexivity|].
  vm_compute in E. injection E as <-. repeat split; vm_compute; reflexivity.
Qed.

(** C2 (what the code does).  In fixed-window mode a single sale of 10 by
    "A" on [D1] at ten o'clock is lost: the output has 181 rows for "A", the
    row of [D1] among them, and every value is zero, although the raw values
    of "A" on [D1] sum to 10. *)
Theorem C2_timed_sale_lost :
  exists out,
    regularize fixed_window timed_sale = Ok out
    /\ In (mkRow ten_o_clock "A" 0) out
    /\ day (mkRow ten_o_clock "A" 0) = D1
    /\ Forall (fun r => y r = 0%Q) out
    /\ (raw_sum timed_sale "A" D1 == 10)%Q.
Proof.
  destruct (regularize fixed_window timed_sale) as [out|] eqn:E;
    [|vm_compute in E; discriminate].
  exists out. split; [reflexivity|].
  vm_compute in E. injection E as <-.
  split; [|split; [reflexivity|split; [|reflexivity]]].
  - apply in_rev. vm_compute. now left.
  - repeat (constructor; [reflexivity|]). constructor.
Qed.

(** ** The join with the answer of the service *)

Lemma index_of_rename (old new : string) (cols : list string) :
  mem new cols = false ->
  index_of new (map (fun c => if String.eqb c old then new else c) cols)
  = index_of old cols.
Proof.
  induction cols as [|c cols IH]; [reflexivity|].
  unfold mem. cbn [existsb map index_of]. intros [Hc H]%orb_false_iff.
  rewrite (String.eqb_sym old c).
  destruct (String.eqb_spec c old) as [->|Hne].
  - now rewrite String.eqb_refl.
  - rewrite Hc. f_equal. now apply IH.
Qed.

Lemma mem_true (c : string) (l : list string) : mem c l = true <-> In c l.
Proof.
  unfold mem. rewrite existsb_exists. split.
  - intros (x & Hx & ->%String.eqb_eq). exact Hx.
  - intros H. exists c. split; [exact H | apply String.eqb_refl].
Qed.

(** The promotion of line 69, on any frame that lost [y]. *)
Lemma promote_y_promotes (df : DataFrame) :
  has_column "y" df = false -> has_column "y_anomaly" df = true ->
  has_column "y" (anomaly_detection.promote_y df) = true
  /\ data (anomaly_detection.promote_y df) = data df
  /\ forall row,
       row_get (columns (anomaly_detection.promote_y df)) row "y"
       = row_get (columns df) row "y_anomaly".
Proof.
  intros Hy Hya. unfold anomaly_detection.promote_y. rewrite Hy, Hya. simpl.
  split; [|split; [reflexivity|]].
  - unfold has_column in *. simpl. apply mem_true, in_map_iff.
    apply mem_true in Hya. exists "y_anomaly"%string. split; [|exact Hya].
    reflexivity.
  - intros row. unfold row_get. rewrite index_of_rename; [reflexivity|].
    exact Hy.
Qed.

Lemma promote_y_id (df : DataFrame) :
  has_column "y" df = true -> anomaly_detection.promote_y df = df.
Proof. intros H. unfold anomaly_detection.promote_y. now rewrite H. Qed.

(** The shape of a join of the series with any frame. *)
Lemma merge_series (daily_sales : list Row) (anomalies_df merged_df : DataFrame)
    (how : How) :
  merge (to_frame daily_sales) anomalies_df ["unique_id"; "ds"]%string how
        (EmptyString, "_anomaly"%string) = Ok merged_df ->
  exists rlabels join_row,
    columns merged_df = series_columns ++ rlabels
    /\ data merged_df = flat_map join_row (map row_cells daily_sales)
    /\ (forall lrow row, In row (join_row lrow) ->
          exists extra, row = lrow ++ extra)
    /\ (how = how_left -> forall lrow, join_row lrow <> [])
    /\ (has_column "y" anomalies_df = true -> In "y_anomaly"%string rlabels).
Proof.
  unfold merge.
  destruct (negb (forallb _ _)); [discriminate|].
  destruct (negb (forallb _ _)); [discriminate|].
  set (rnk := non_key _ (columns anomalies_df)).
  set (lnk := non_key _ (columns (to_frame daily_sales))).
  assert (Elnk : lnk = ["y"%string]) by reflexivity.
  set (overlap := List.filter (fun c => mem c rnk) lnk).
  assert (Eov : overlap = if mem "y" rnk then ["y"%string] else []).
  { unfold overlap. rewrite Elnk. simpl. now destruct (mem "y" rnk). }
  cbn [fst snd]. rewrite andb_false_r.
  assert (Ell : map (add_suffix overlap EmptyString) lnk = ["y"%string]).
  { rewrite Elnk. cbn [map]. unfold add_suffix.
    now destruct (mem "y" overlap). }
  rewrite Ell. cbn [new_duplicates duplicated duplicated_from zip3 mem existsb
                    List.filter map fst snd andb app].
  destruct (new_duplicates rnk _); [|discriminate].
  intros [= <-]. cbn [columns data].
  eexists _, _. split; [|split; [reflexivity|split; [|split]]].
  - cbn [to_frame columns series_columns map mem existsb String.eqb
         Ascii.eqb Bool.eqb orb negb]. unfold add_suffix.
    destruct (mem "y" overlap); reflexivity.
  - intros lrow row. cbn beta.
    destruct (List.filter _ (data anomalies_df)) as [|r0 ms].
    + destruct how; [|now intros []]. intros [<-|[]]. eauto.
    + intros [<-|(rrow & <- & _)%in_map_iff]; eauto.
  - intros -> lrow. cbn beta.
    destruct (List.filter _ (data anomalies_df)); discriminate.
  - intros Hy. apply in_map_iff. exists "y"%string.
    assert (Hin : In "y"%string rnk).
    { unfold rnk, non_key. apply filter_In. split; [|reflexivity].
      apply mem_true. exact Hy. }
    split; [|exact Hin]. unfold add_suffix.
    rewrite Eov, (proj2 (mem_true _ _) Hin). reflexivity.
Qed.

Lemma merge_series_keeps (daily_sales : list Row)
    (anomalies_df merged_df : DataFrame) (how : How) :
  merge (to_frame daily_sales) anomalies_df ["unique_id"; "ds"]%string how
        (EmptyString, "_anomaly"%string) = Ok merged_df ->
  keeps_series_value daily_sales merged_df
  /\ (how = how_left -> keeps_series_rows daily_sales merged_df)
  /\ (has_column "y" anomalies_df = true ->
      has_column "y_anomaly" merged_df = true).
Proof.
  intros (rlabels & join_row & Hc & Hd & Hrow & Hleft & Hya)%merge_series.
  assert (Hget : forall (r : Row) extra,
             row_get (columns merged_df) (row_cells r ++ extra) "y"
             = Some (CNum (y r))
             /\ row_get (columns merged_df) (row_cells r ++ extra) "unique_id"
                = Some (CStr (unique_id r))
             /\ row_get (columns merged_df) (row_cells r ++ extra) "ds"
                = Some (CTime (ds r))).
  { intros r extra. rewrite Hc. repeat split; reflexivity. }
  split; [split|split].
  - unfold has_column. rewrite Hc. reflexivity.
  - intros row. rewrite Hd.
    intros (lrow & (r & <- & Hr)%in_map_iff & Hin)%in_flat_map.
    destruct (Hrow _ _ Hin) as [extra ->]. exists r. split; [exact Hr|].
    apply Hget.
  - intros Hl r Hr. specialize (Hleft Hl (row_cells r)).
    destruct (join_row (row_cells r)) as [|row l] eqn:E; [congruence|].
    assert (Hin : In row (join_row (row_cells r))) by (rewrite E; now left).
    destruct (Hrow _ _ Hin) as [extra ->].
    exists (row_cells r ++ extra). split; [|apply Hget].
    rewrite Hd. apply in_flat_map. exists (row_cells r).
    split; [now apply in_map | exact Hin].
  - intros Hy. unfold has_column. rewrite Hc. apply mem_true, in_or_app.
    right. now apply Hya.
Qed.

(** ** The classification of an anomalous row *)

Lemma Qgtb_true (a b : Q) : app.Qgtb a b = true <-> (b < a)%Q.
Proof.
  unfold app.Qgtb. rewrite negb_true_iff, <- not_true_iff_false, Qle_bool_iff.
  split; [apply Qnot_le_lt | apply Qlt_not_le].
Qed.

Lemma Qgtb_false (a b : Q) : app.Qgtb a b = false <-> (a <= b)%Q.
Proof.
  unfold app.Qgtb. rewrite negb_false_iff. apply Qle_bool_iff.
Qed.

(** C4.  For an anomalous row with the numbers [actual], [upper_bound] and
    [lower_bound]: when [actual > upper_bound] the direction is Spike and the
    magnitude is [actual / upper_bound], or [actual] itself when
    [upper_bound <= 0]; otherwise the direction is Dip and the magnitude is
    [lower_bound / actual], or 0 when [actual <= 0].  So 150 against an
    upper bound of 100 is a Spike of magnitude 1.5, and 40 against a lower
    bound of 100 (and an upper bound not below 40) is a Dip of magnitude
    2.5. *)
Theorem C4_classification (actual upper_bound lower_bound : Q) :
  ((upper_bound < actual)%Q ->
     direction_of actual upper_bound lower_bound = app.Spike
     /\ ((0 < upper_bound)%Q ->
         is_number (magnitude_of actual upper_bound lower_bound)
                   (actual / upper_bound))
     /\ ((upper_bound <= 0)%Q ->
         is_number (magnitude_of actual upper_bound lower_bound) actual))
  /\ ((actual <= upper_bound)%Q ->
        direction_of actual upper_bound lower_bound = app.Dip
        /\ ((0 < actual)%Q ->
            is_number (magnitude_of actual upper_bound lower_bound)
                      (lower_bound / actual))
        /\ ((actual <= 0)%Q ->
            is_number (magnitude_of actual upper_bound lower_bound) 0))
  /\ (direction_of 150 100 lower_bound = app.Spike
      /\ is_number (magnitude_of 150 100 lower_bound) 1.5)
  /\ ((40 <= upper_bound)%Q ->
        direction_of 40 upper_bound 100 = app.Dip
        /\ is_number (magnitude_of 40 upper_bound 100) 2.5).
Proof.
  unfold direction_of, magnitude_of, app.classify, app.fgt, app.fdiv.
  split; [|split; [|split]].
  - intros H. rewrite (proj2 (Qgtb_true _ _) H). simpl.
    split; [reflexivity|]. split; intros H0.
    + rewrite (proj2 (Qgtb_true _ _) H0). simpl. reflexivity.
    + rewrite (proj2 (Qgtb_false _ _) H0). simpl.
      unfold Qdiv. change (/ 1)%Q with 1%Q. apply Qmult_1_r.
  - intros H. rewrite (proj2 (Qgtb_false _ _) H). simpl.
    split; [reflexivity|]. split; intros H0.
    + rewrite (proj2 (Qgtb_true _ _) H0). simpl. reflexivity.
    + rewrite (proj2 (Qgtb_false _ _) H0). simpl. reflexivity.
  - split; reflexivity.
  - intros H. rewrite (proj2 (Qgtb_false _ _) H). simpl.
    split; reflexivity.
Qed.

Lemma C4_classification_witness :
  direction_of 120 100 80 = app.Spike
  /\ is_number (magnitude_of 120 100 80) (120 / 100)
  /\ direction_of 40 200 100 = app.Dip
  /\ is_number (magnitude_of 40 200 100) 2.5.
Proof.
  destruct (C4_classification 120 100 80) as (Hspike & _ & _ & _).
  destruct (C4_classification 40 200 100) as (_ & _ & _ & Hdip).
  destruct Hspike as (Hd & Hm & _); [reflexivity|].
  destruct Hdip as (Hd' & Hm'); [discriminate|].
  split; [exact Hd|]. split; [apply Hm; reflexivity|].
  split; [exact Hd' | exact Hm'].
Defined.

(** The card of a row carries the classification of the numbers found under
    its value column and the first bound columns. *)
Lemma insight_card_classifies (cols : list string) (row : list Cell)
    (hi lo : string) (his los : list string) (actual upper_bound lower_bound : Q)
    (uid day_cell : Cell) :
  List.filter (fun c => contains "hi" (lower c)) cols = hi :: his ->
  List.filter (fun c => contains "lo" (lower c)) cols = lo :: los ->
  row_get cols row hi = Some (CNum upper_bound) ->
  row_get cols row lo = Some (CNum lower_bound) ->
  row_get cols row "y" = Some (CNum actual) ->
  row_get cols row "unique_id" = Some uid ->
  row_get cols row "ds" = Some day_cell ->
  app.insight_card cols row
  = Ok (Some (app.mkCard day_cell uid (Some actual)
                (direction_of actual upper_bound lower_bound)
                (magnitude_of actual upper_bound lower_bound))).
Proof.
  intros Hhi Hlo Hu Hl Ha Hid Hds. unfold app.insight_card, app.getitem.
  rewrite Hhi, Hlo, Hu, Hl, Ha, Hid, Hds. reflexivity.
Qed.

(** ** The client adapters *)

(** C6.  Whatever the series, the selection of entity ids, the key and the
    service: when no row of the series has a selected id, the
    anomaly-detection adapter and the forecast adapter both return the empty
    frame and leave the list of calls issued to the service as it was. *)
Theorem C6_empty_selection_no_call
    (service : app.NixtlaClient -> app.Request -> result DataFrame)
    (df : list Row) (level : Q) (selected_items : list string) (key : string)
    (horizon : Z) (calls : list app.Request) :
  List.filter (app.isin selected_items) df = [] ->
  app.detect_anomalies service df level selected_items key calls
  = (Ok empty_frame, calls)
  /\ app.generate_forecast service df selected_items key horizon calls
     = (Ok empty_frame, calls).
Proof.
  intros H. unfold app.detect_anomalies, app.generate_forecast.
  rewrite H. split; reflexivity.
Qed.

Lemma C6_empty_selection_no_call_witness :
  app.detect_anomalies service_down regular_A 99 ["B"%string] "key" []
  = (Ok empty_frame, [])
  /\ app.generate_forecast service_down regular_A ["B"%string] "key" 7 []
     = (Ok empty_frame, []).
Proof.
  apply (C6_empty_selection_no_call service_down regular_A 99 ["B"%string]
           "key"%string 7%Z []).
  reflexivity.
Defined.

(** With a row selected, each adapter issues exactly one call. *)
Lemma adapters_call_once
    (service : app.NixtlaClient -> app.Request -> result DataFrame)
    (df : list Row) (level : Q) (selected_items : list string) (key : string)
    (horizon : Z) (calls : list app.Request) :
  List.filter (app.isin selected_items) df <> [] ->
  (exists req,
     app.detect_anomalies service df level selected_items key calls
     = (service (app.mkNixtlaClient key) req, calls ++ [req]))
  /\ (exists req,
        app.generate_forecast service df selected_items key horizon calls
        = (service (app.mkNixtlaClient key) req, calls ++ [req])).
Proof.
  intros H. unfold app.detect_anomalies, app.generate_forecast.
  destruct (List.filter _ df) as [|r l]; [congruence|].
  split; eexists; reflexivity.
Qed.

(** ** The insight cards *)

Lemma mapM_Ok {A B : Type} (f : A -> result B) (l : list A) (l' : list B) :
  mapM f l = Ok l' -> Forall2 (fun a b => f a = Ok b) l l'.
Proof.
  revert l'. induction l as [|a l IH]; intros l'; simpl.
  - intros [= <-]. constructor.
  - destruct (f a) as [b|] eqn:Fa; simpl; [|discriminate].
    destruct (mapM f l) as [bs|]; simpl; [|discriminate].
    intros [= <-]. constructor; [exact Fa | now apply IH].
Qed.

Lemma column_Ok (df : DataFrame) (c : string) (cells : list Cell) :
  app.column df c = Ok cells ->
  Forall2 (fun row cell => row_get (columns df) row c = Some cell)
          (data df) cells.
Proof.
  unfold app.column. destruct (has_column c df); [|discriminate].
  intros H%mapM_Ok. eapply Forall2_impl; [exact H|].
  intros row cell. unfold app.getitem.
  destruct (row_get (columns df) row c); [congruence | discriminate].
Qed.

Lemma flagged_combine (cols : list string) (rows : list (list Cell))
    (flags : list Cell) :
  Forall2 (fun row cell => row_get cols row "anomaly" = Some cell) rows flags ->
  map fst (List.filter (fun p => app.is_one (snd p)) (combine rows flags))
  = List.filter (row_flagged cols) rows.
Proof.
  induction 1 as [|row cell rows flags H _ IH]; simpl; [reflexivity|].
  unfold row_flagged at 1. rewrite H.
  destruct (app.is_one cell); simpl; now rewrite IH.
Qed.

Lemma insert_sorted_perm {A : Type} (cmp : A -> A -> comparison) (x : A)
    (l : list A) : Permutation (pd.insert_sorted cmp x l) (x :: l).
Proof.
  induction l as [|h t IH]; simpl; [reflexivity|].
  destruct (cmp x h); try reflexivity.
  rewrite IH. apply perm_swap.
Qed.

Lemma sort_by_perm {A : Type} (cmp : A -> A -> comparison) (l : list A) :
  Permutation (pd.sort_by cmp l) l.
Proof.
  unfold pd.sort_by. induction l as [|h t IH]; simpl; [reflexivity|].
  rewrite insert_sorted_perm. now constructor.
Qed.

Lemma insert_descending (x : pd.Timestamp * list Cell)
    (l : list (pd.Timestamp * list Cell)) :
  StronglySorted not_earlier l ->
  StronglySorted not_earlier (pd.insert_sorted app.ds_descending x l).
Proof.
  induction 1 as [|h t Hs IH Hd]; simpl; [repeat constructor|].
  unfold app.ds_descending at 1.
  destruct (Z.compare_spec (fst h) (fst x)) as [E|E|E].
  - constructor; [now constructor|]. constructor; [unfold not_earlier; lia|].
    eapply List.Forall_impl; [|exact Hd]. unfold not_earlier. intros; lia.
  - constructor; [now constructor|]. constructor; [unfold not_earlier; lia|].
    eapply List.Forall_impl; [|exact Hd]. unfold not_earlier. intros; lia.
  - constructor; [exact IH|].
    rewrite List.Forall_forall in *. intros z Hz.
    apply (Permutation_in _ (insert_sorted_perm _ _ _)) in Hz.
    destruct Hz as [<-|Hz]; [unfold not_earlier; lia | now apply Hd].
Qed.

Lemma sort_descending (l : list (pd.Timestamp * list Cell)) :
  StronglySorted not_earlier (pd.sort_by app.ds_descending l).
Proof.
  unfold pd.sort_by. induction l as [|h t IH]; simpl; [constructor|].
  now apply insert_descending.
Qed.

(** Line 333 gives the flagged rows, latest first. *)
Lemma anomalous_data_spec (merged_df : DataFrame) (rows : list (list Cell)) :
  app.anomalous_data merged_df = Ok rows ->
  Permutation rows (flagged_rows merged_df)
  /\ exists times,
       Forall2 (fun row t => row_time (columns merged_df) row = Some t)
               rows times
       /\ StronglySorted Z.ge times.
Proof.
  unfold app.anomalous_data.
  destruct (app.column merged_df "anomaly") as [flags|] eqn:Hf;
    [|discriminate].
  simpl. rewrite (flagged_combine (columns merged_df)) by now apply column_Ok.
  fold (flagged_rows merged_df).
  destruct (mapM _ (flagged_rows merged_df)) as [keyed|] eqn:Hk;
    [|discriminate].
  simpl. intros [= <-]. apply mapM_Ok in Hk.
  assert (Hsnd : map snd keyed = flagged_rows merged_df).
  { clear Hf. induction Hk as [|row p l l' H _ IH]; simpl; [reflexivity|].
    rewrite IH. f_equal. unfold app.getitem in H.
    destruct (row_get _ row "ds") as [c|]; simpl in H; [|discriminate].
    destruct (app.as_time c); simpl in H; [|discriminate]. now injection H as <-. }
  assert (Htime : Forall (fun p => row_time (columns merged_df) (snd p)
                                   = Some (fst p)) keyed).
  { clear Hf Hsnd. induction Hk as [|row p l l' H _ IH]; constructor; [|exact IH].
    unfold app.getitem in H. unfold row_time.
    destruct (row_get _ row "ds") as [c|] eqn:G; simpl in H; [|discriminate].
    destruct c; simpl in H; try discriminate. injection H as <-. simpl.
    now rewrite G. }
  split.
  - rewrite <- Hsnd. apply Permutation_map, sort_by_perm.
  - exists (map fst (pd.sort_by app.ds_descending keyed)). split.
    + assert (Hall : Forall (fun p => row_time (columns merged_df) (snd p)
                                      = Some (fst p))
                            (pd.sort_by app.ds_descending keyed)).
      { rewrite List.Forall_forall in *. intros p Hp. apply Htime.
        exact (Permutation_in _ (sort_by_perm app.ds_descending keyed) Hp). }
      induction Hall as [|p l Hp _ IH]; simpl; constructor; assumption.
    + eapply StronglySorted_map; [|apply sort_descending].
      unfold not_earlier. intros a b. lia.
Qed.

Lemma length_somes {A : Type} (l : list (option A)) :
  (length (app.somes l) <= length l)%nat.
Proof.
  induction l as [|[a|] l IH]; simpl; lia.
Qed.

Lemma flag_value_spec (c : Cell) :
  is_flag c ->
  (0 <= flag_value c)%Q
  /\ (app.is_one c = true -> (0 < flag_value c)%Q)
  /\ (app.is_one c = false -> (flag_value c == 0)%Q).
Proof.
  destruct c as [t|s|q|b|]; simpl; try contradiction.
  - intros [H|H]; repeat split.
    + rewrite H. apply Qle_refl.
    + intros C%Qeq_bool_eq. rewrite H in C. discriminate.
    + intros _. exact H.
    + rewrite H. discriminate.
    + intros _. rewrite H. reflexivity.
    + intros C%Qeq_bool_neq. contradiction.
  - intros _. destruct b; repeat split; try discriminate; reflexivity.
Qed.

Lemma flag_sum (flags : list Cell) :
  Forall is_flag flags ->
  let total := fold_right Qplus 0%Q (map flag_value flags) in
  (0 <= total)%Q /\ (existsb app.is_one flags = true <-> (0 < total)%Q).
Proof.
  induction 1 as [|c flags Hc _ [IH1 IH2]]; simpl.
  - split; [apply Qle_refl|]. split; [discriminate | intros H; inversion H].
  - destruct (flag_value_spec c Hc) as (H0 & H1 & H2). split.
    + apply (Qle_trans _ (0 + 0)%Q); [discriminate|].
      now apply Qplus_le_compat.
    + destruct (app.is_one c); simpl.
      * split; [intros _ | reflexivity].
        apply (Qlt_le_trans _ (flag_value c + 0)%Q).
        -- rewrite Qplus_0_r. now apply H1.
        -- apply Qplus_le_compat; [apply Qle_refl | exact IH1].
      * rewrite (H2 eq_refl), Qplus_0_l. exact IH2.
Qed.

Lemma flag_column_cells (df : DataFrame) (flags : list Cell) :
  flag_column df -> app.column df "anomaly" = Ok flags ->
  Forall is_flag flags
  /\ (existsb app.is_one flags = true <-> flagged_rows df <> []).
Proof.
  intros Hb Hc%column_Ok. unfold flag_column, flagged_rows in *.
  induction Hc as [|row cell rows flags H _ IH].
  - split; [constructor|]. simpl. split; [discriminate | congruence].
  - apply Forall_cons_iff in Hb as [(c & Hrow & Hflag) Hb].
    destruct (IH Hb) as (Hall & Hex).
    rewrite Hrow in H. injection H as <-. split; [now constructor|].
    simpl. unfold row_flagged at 1. rewrite Hrow.
    destruct (app.is_one c); simpl; [split; [discriminate | reflexivity]|].
    exact Hex.
Qed.

Lemma cells_sum_flags (flags : list Cell) :
  Forall is_flag flags ->
  exists total,
    app.cells_sum flags = Ok total
    /\ app.Qgtb total 0 = existsb app.is_one flags.
Proof.
  intros Hall. unfold app.cells_sum.
  assert (E : mapM app.as_float flags
              = Ok (map (fun c => Some (flag_value c)) flags)).
  { induction Hall as [|c flags Hc _ IH]; [reflexivity|].
    simpl in *. rewrite IH.
    destruct c as [t|s|q|b|]; simpl in *; try contradiction; reflexivity. }
  rewrite E. simpl. eexists. split; [reflexivity|].
  rewrite map_map. simpl.
  destruct (flag_sum flags Hall) as [_ H].
  assert (Hs := series_sum_fold_right (map flag_value flags)).
  destruct (existsb app.is_one flags).
  - apply Qgtb_true. rewrite Hs. now apply H.
  - apply Qgtb_false. rewrite Hs. apply Qnot_lt_le. intros C.
    apply H in C. discriminate.
Qed.

(** C9 (amended).  For a joined frame whose anomaly column holds flags
    (booleans, or the numbers 0 and 1) and on which the insight section runs
    to its end: with no flagged row it shows no card;
    otherwise the flagged rows are put latest first, at most 6 cards are
    shown and they come, in order, from the first 6 of these rows, and a
    notice is shown exactly when more than 6 rows are flagged; the number the
    notice reports is the total number of flagged rows. *)
Theorem C9_insight_cards (merged_df : DataFrame) (panel : app.Panel) :
  flag_column merged_df ->
  app.insight_panel merged_df = Ok panel ->
  (flagged_rows merged_df = [] -> panel = app.no_anomalies)
  /\ (flagged_rows merged_df <> [] ->
      exists rows times cs,
        app.anomalous_data merged_df = Ok rows
        /\ Permutation rows (flagged_rows merged_df)
        /\ Forall2 (fun row t => row_time (columns merged_df) row = Some t)
                   rows times
        /\ StronglySorted Z.ge times
        /\ mapM (app.insight_card (columns merged_df)) (firstn 6 rows) = Ok cs
        /\ (length (app.somes cs) <= 6)%nat
        /\ ((6 < length (flagged_rows merged_df))%nat ->
            panel = app.insights (app.somes cs)
                      (Some (app.showing_top_6_of
                               (length (flagged_rows merged_df)))))
        /\ ((length (flagged_rows merged_df) <= 6)%nat ->
            panel = app.insights (app.somes cs) None)).
Proof.
  intros Hb. unfold app.insight_panel.
  destruct (app.column merged_df "anomaly") as [flags|] eqn:Hf;
    [|discriminate].
  destruct (flag_column_cells _ _ Hb Hf) as (Hall & Hex).
  destruct (cells_sum_flags flags Hall) as (total & Hsum & Hgt).
  simpl. rewrite Hsum. simpl. rewrite Hgt.
  destruct (existsb app.is_one flags) eqn:Hany.
  - destruct (app.anomalous_data merged_df) as [rows|] eqn:Hrows;
      [|discriminate].
    simpl.
    destruct (mapM _ (firstn 6 rows)) as [cs|] eqn:Hcs; [|discriminate].
    simpl. intros [= <-]. split.
    + intros E. exfalso. now apply (proj1 Hex).
    + intros _. destruct (anomalous_data_spec _ _ Hrows)
        as (Hperm & times & Htimes & Hsorted).
      exists rows, times, cs. repeat split; try assumption.
      * etransitivity; [apply length_somes|].
        apply mapM_Ok, Forall2_length in Hcs. rewrite <- Hcs.
        rewrite length_firstn. lia.
      * intros Hlen. rewrite <- (Permutation_length Hperm) in *.
        now rewrite (proj2 (Nat.ltb_lt _ _) Hlen).
      * intros Hlen. rewrite <- (Permutation_length Hperm) in *.
        now rewrite (proj2 (Nat.ltb_ge _ _) Hlen).
  - intros [= <-]. split; [reflexivity|].
    intros Hne. apply Hex in Hne. discriminate.
Qed.

Lemma C9_insight_cards_witness :
  exists panel,
    app.insight_panel seven_flagged = Ok panel
    /\ (6 < length (flagged_rows seven_flagged))%nat
    /\ exists cards,
         panel = app.insights cards
                   (Some (app.showing_top_6_of
                            (length (flagged_rows seven_flagged))))
         /\ (length cards <= 6)%nat.
Proof.
  destruct (app.insight_panel seven_flagged) as [panel|] eqn:E;
    [|vm_compute in E; discriminate].
  exists panel. split; [reflexivity|].
  assert (Hlen : (6 < length (flagged_rows seven_flagged))%nat)
    by (vm_compute; lia).
  split; [exact Hlen|].
  assert (Hb : flag_column seven_flagged).
  { unfold flag_column, seven_flagged, joined_row. simpl.
    repeat (constructor; [eexists; split; [reflexivity | exact I]|]).
    constructor. }
  destruct (C9_insight_cards seven_flagged panel Hb E) as [_ H].
  destruct H as (rows & times & cs & _ & _ & _ & _ & _ & Hsix & Hmore & _).
  { vm_compute. discriminate. }
  exists (app.somes cs). split; [now apply Hmore | exact Hsix].
Defined.

(** On the sample the six cards are those of days 8, 7, 6, 5, 4 and 2. *)
Example seven_flagged_cards :
  exists cards info,
    app.insight_panel seven_flagged = Ok (app.insights cards info)
    /\ map app.card_ds cards
       = map (fun d => CTime (pd.to_datetime d)) [8; 7; 6; 5; 4; 2]%Z
    /\ map app.card_direction cards
       = [app.Spike; app.Dip; app.Spike; app.Spike; app.Dip; app.Spike].
Proof.
  destruct (app.insight_panel seven_flagged) as [panel|] eqn:E;
    [|vm_compute in E; discriminate].
  vm_compute in E. injection E as <-.
  eexists _, _. split; [reflexivity|]. split; reflexivity.
Qed.

(** C9 (as stated) fails: with seven flagged rows the notice reads "top 6 of
    7 total anomalies"; the number it reports is the total, 7, and not the
    number of remaining anomalies, 1. *)
Lemma C9_counterexample :
  length (flagged_rows seven_flagged) = 7%nat
  /\ (exists cards,
        app.insight_panel seven_flagged
        = Ok (app.insights cards (Some (app.showing_top_6_of 7))))
  /\ app.showing_top_6_of 7
     = "Showing top 6 of 7 total anomalies. Adjust sensitivity to refine results."%string
  /\ app.showing_top_6_of 7 <> app.showing_top_6_of (7 - 6).
Proof.
  split; [reflexivity|]. split; [|split; [reflexivity|]].
  - eexists. vm_compute. reflexivity.
  - vm_compute. discriminate.
Qed.

(** ** The credential file *)

Lemma split1_Some (c : ascii) (s name value : string) :
  split1 c s = (name, Some value) ->
  s = (name ++ String c value)%string /\ contains_char c name = false.
Proof.
  revert name. induction s as [|a s IH]; intros name; simpl; [discriminate|].
  destruct (Ascii.eqb_spec a c) as [->|Hne].
  - intros [= <- <-]. split; reflexivity.
  - destruct (split1 c s) as [k o] eqn:E. simpl. intros [= <- ->].
    destruct (IH k eq_refl) as [-> Hk]. split; [reflexivity|].
    simpl. rewrite Hk. now destruct (Ascii.eqb_spec a c).
Qed.

Lemma split1_None (c : ascii) (s name : string) :
  split1 c s = (name, None) -> contains_char c s = false.
Proof.
  revert name. induction s as [|a s IH]; intros name; simpl; [reflexivity|].
  destruct (Ascii.eqb a c); [discriminate|].
  destruct (split1 c s) as [k o] eqn:E. simpl. intros [= <- ->].
  now apply (IH k).
Qed.

Lemma split1_app (c : ascii) (name value : string) :
  contains_char c name = false ->
  split1 c (name ++ String c value) = (name, Some value).
Proof.
  induction name as [|a name IH]; simpl.
  - now rewrite Ascii.eqb_refl.
  - intros [Ha H]%orb_false_iff. rewrite Ha, (IH H). reflexivity.
Qed.

Lemma contains_char_app (c : ascii) (s t : string) :
  contains_char c (s ++ t) = contains_char c s || contains_char c t.
Proof.
  induction s as [|a s IH]; simpl; [reflexivity|].
  now rewrite IH, orb_assoc.
Qed.

Lemma lstrip_app (c : ascii) (s t : string) :
  isspace c = false ->
  lstrip (s ++ String c t) = (lstrip s ++ String c t)%string.
Proof.
  intros Hc. induction s as [|a s IH]; simpl; [now rewrite Hc|].
  destruct (isspace a); [exact IH | reflexivity].
Qed.

Lemma rstrip_app (c : ascii) (s t : string) :
  isspace c = false ->
  rstrip (s ++ String c t) = (s ++ String c (rstrip t))%string.
Proof.
  intros Hc. induction s as [|a s IH]; simpl.
  - rewrite Hc. now destruct (rstrip t).
  - rewrite IH. now destruct s.
Qed.

Lemma contains_char_lstrip (c : ascii) (s : string) :
  contains_char c s = false -> contains_char c (lstrip s) = false.
Proof.
  induction s as [|a s IH]; simpl; [reflexivity|].
  intros [Ha H]%orb_false_iff.
  destruct (isspace a); [now apply IH|]. simpl. now rewrite Ha, H.
Qed.

Lemma contains_char_rstrip (c : ascii) (s : string) :
  contains_char c s = false -> contains_char c (rstrip s) = false.
Proof.
  induction s as [|a s IH]; simpl; [reflexivity|].
  intros [Ha H]%orb_false_iff. specialize (IH H).
  destruct (rstrip s) as [|b r].
  - destruct (isspace a); simpl; [reflexivity | now rewrite Ha].
  - simpl in *. now rewrite Ha, IH.
Qed.

Lemma lstrip_idem (s : string) : lstrip (lstrip s) = lstrip s.
Proof.
  induction s as [|a s IH]; simpl; [reflexivity|].
  destruct (isspace a) eqn:E; [exact IH|]. simpl. now rewrite E.
Qed.

Lemma rstrip_idem (s : string) : rstrip (rstrip s) = rstrip s.
Proof.
  induction s as [|a s IH]; simpl; [reflexivity|].
  destruct (rstrip s) as [|b r] eqn:E.
  - destruct (isspace a) eqn:Ha; simpl; [reflexivity | now rewrite Ha].
  - remember (String b r) as t eqn:Et. simpl. rewrite IH, Et. reflexivity.
Qed.

Lemma lstrip_rstrip (s : string) : lstrip (rstrip s) = rstrip (lstrip s).
Proof.
  induction s as [|a s IH]; simpl; [reflexivity|].
  destruct (isspace a) eqn:Ha.
  - rewrite <- IH. destruct (rstrip s) as [|b r]; simpl; [reflexivity|].
    now rewrite Ha.
  - simpl. destruct (rstrip s) as [|b r]; simpl; now rewrite Ha.
Qed.

Lemma strip_lstrip (s : string) : strip (lstrip s) = strip s.
Proof. unfold strip. now rewrite lstrip_idem. Qed.

Lemma strip_rstrip (s : string) : strip (rstrip s) = strip s.
Proof. unfold strip. now rewrite lstrip_rstrip, rstrip_idem. Qed.

Lemma contains_char_strip (c : ascii) (s : string) :
  contains_char c s = false -> contains_char c (strip s) = false.
Proof.
  intros H. unfold strip. now apply contains_char_rstrip, contains_char_lstrip.
Qed.

(** Stripping the line first and cutting it afterwards gives the parts of
    the raw line, stripped. *)
Lemma split1_strip (line name value : string) :
  split1 "=" line = (name, Some value) ->
  split1 "=" (strip line) = (lstrip name, Some (rstrip value)).
Proof.
  intros [-> Hname]%split1_Some. unfold strip.
  rewrite lstrip_app, rstrip_app by reflexivity.
  apply split1_app. now apply contains_char_lstrip.
Qed.

Lemma load_env_line_spec (line : string) (environ : gmap string string) :
  loadable line ->
  load_env_line line environ = (Ok tt, spec_load_line line environ).
Proof.
  unfold loadable, spec_load_line, load_env_line.
  destruct (split1 "=" line) as [name [value|]] eqn:E.
  - intros (Hne & Hn0 & Hv0).
    destruct (split1_Some _ _ _ _ E) as [Hline Hname].
    assert (Hc : contains_char "=" line = true).
    { rewrite Hline, contains_char_app. simpl. apply orb_true_r. }
    rewrite Hc, (split1_strip _ _ _ E), strip_lstrip, strip_rstrip.
    unfold environ_setitem. rewrite Hn0, Hv0. simpl.
    rewrite (contains_char_strip _ _ Hname).
    destruct (String.eqb_spec (strip name) EmptyString); [contradiction | reflexivity].
  - intros _. now rewrite (split1_None _ _ _ E).
Qed.

Lemma load_env_lines_spec (lines : list string) (environ : gmap string string) :
  Forall loadable lines ->
  load_env_lines lines environ
  = (Ok tt, fold_left (fun env line => spec_load_line line env) lines environ).
Proof.
  intros H. revert environ.
  induction H as [|line lines Hl _ IH]; intros environ; simpl; [reflexivity|].
  rewrite (load_env_line_spec _ _ Hl). apply IH.
Qed.

(** C10 (amended).  The loader of either program does nothing and succeeds
    when the file is absent.  On a file all of whose lines with an ['='] have,
    once stripped, a non-empty name and no NUL character, it succeeds and
    treats the lines one after the other, each on its own: a line without
    ['='] leaves the environment as it is, and a line with one is cut at its
    first ['='] only, name and value are stripped, and the pair is written,
    replacing what the name held. *)
Theorem C10_load_env (dotenv : option string) (environ : gmap string string) :
  (dotenv = None -> app.load_env dotenv environ = (Ok tt, environ))
  /\ (forall text,
        dotenv = Some text -> Forall loadable (readlines text) ->
        app.load_env dotenv environ
        = (Ok tt, fold_left (fun env line => spec_load_line line env)
                            (readlines text) environ))
  /\ anomaly_detection.load_env dotenv environ = app.load_env dotenv environ
  /\ (forall line, contains_char "=" line = false ->
        spec_load_line line environ = environ)
  /\ (forall name value,
        contains_char "=" name = false ->
        spec_load_line (name ++ String "=" value) environ
        = <[strip name := strip value]> environ
        /\ spec_load_line (name ++ String "=" value) environ !! strip name
           = Some (strip value)).
Proof.
  split; [now intros ->|]. split; [|split; [reflexivity|split]].
  - intros text -> H. simpl. now apply load_env_lines_spec.
  - intros line H. unfold spec_load_line.
    destruct (split1 "=" line) as [name [value|]] eqn:E; [|reflexivity].
    apply split1_Some in E as [-> _].
    rewrite contains_char_app in H. simpl in H.
    rewrite orb_true_r in H. discriminate.
  - intros name value H. unfold spec_load_line.
    rewrite (split1_app _ _ _ H).
    split; [reflexivity | apply lookup_insert_eq].
Qed.

Lemma C10_load_env_witness :
  app.load_env (Some dotenv_ok) ∅
  = (Ok tt, fold_left (fun env line => spec_load_line line env)
                      (readlines dotenv_ok) ∅)
  /\ fold_left (fun env line => spec_load_line line env)
               (readlines dotenv_ok) (∅ : gmap string string)
     !! "NIXTLA_API_KEY"%string = Some "abc=def"%string.
Proof.
  split; [|vm_compute; reflexivity].
  apply (proj1 (proj2 (C10_load_env (Some dotenv_ok) ∅)) dotenv_ok);
    [reflexivity|].
  unfold dotenv_ok. simpl.
  repeat (constructor; [unfold loadable; simpl; try tauto;
                        repeat split; try discriminate; reflexivity|]).
  constructor.
Defined.

(** C10 (as stated) fails: the second line of this file has an ['='] and an
    empty name; the loader raises there, the pair is not written, and the
    line after it is never read. *)
Lemma C10_counterexample :
  exists environ,
    app.load_env (Some dotenv_empty_name) ∅
    = (Raise (OSError 22 "Invalid argument"), environ)
    /\ environ !! "KEY"%string = Some "1"%string
    /\ environ !! EmptyString = None
    /\ environ !! "LATER"%string = None.
Proof.
  eexists. split; [reflexivity|]. repeat split; vm_compute; reflexivity.
Qed.

(** * Further properties of the two programs *)

(** ** The regularised table *)

Lemma regularize_shape (mode : Mode) (rows out : list Row) :
  regularize mode rows = Ok out ->
  rows <> []
  /\ out = blocks (value_at rows) (calendar mode rows) (entity_ids rows).
Proof.
  destruct mode; simpl; intros H.
  - destruct rows as [|r rows']; [discriminate|]. split; [discriminate|].
    rewrite main_daily_sales_blocks in H by discriminate. now injection H.
  - destruct (pd.series_max (map ds rows)) as [m|] eqn:Hm.
    + split; [intros ->; discriminate|].
      rewrite (preprocess_data_blocks rows m Hm) in H. injection H as <-.
      apply blocks_ext; [|reflexivity].
      intros e _. unfold calendar. now rewrite Hm.
    + unfold app.preprocess_data in H. rewrite Hm in H. discriminate.
Qed.

Lemma calendar_days (mode : Mode) (rows : list Row) (e : string) :
  map pd.dt_date (calendar mode rows e) = window mode rows e.
Proof.
  destruct mode; simpl; [apply full_span_days|].
  destruct (pd.series_max (map ds rows)); [apply master_dates_days|reflexivity].
Qed.

Lemma calendar_days_sorted (mode : Mode) (rows : list Row) (e : string) :
  StronglySorted Z.lt (map pd.dt_date (calendar mode rows e)).
Proof.
  destruct mode; simpl.
  - rewrite full_span_days. apply entity_span_sorted.
  - destruct (pd.series_max (map ds rows));
      [apply master_calendar_days_sorted | constructor].
Qed.

Lemma calendar_sorted (mode : Mode) (rows : list Row) (e : string) :
  StronglySorted Z.lt (calendar mode rows e).
Proof.
  destruct mode; simpl; [apply full_span_calendar_sorted|].
  destruct (pd.series_max (map ds rows));
    [apply date_range_sorted | constructor].
Qed.

Lemma calendar_nonempty (mode : Mode) (rows : list Row) (e : string) :
  rows <> [] -> In e (entity_ids rows) -> calendar mode rows e <> [].
Proof.
  intros Hne He. destruct mode; simpl.
  - now apply full_span_calendar_nonempty.
  - destruct (series_max_is_Some (map ds rows)) as [m Hm].
    + intros E%map_eq_nil. contradiction.
    + rewrite Hm. apply master_calendar_nonempty.
Qed.

Lemma calendar_midnight (mode : Mode) (rows : list Row) (e : string)
    (t : pd.Timestamp) :
  (mode = fixed_window -> latest_at_midnight rows) ->
  In t (calendar mode rows e) -> (t mod pd.ns_per_day = 0)%Z.
Proof.
  intros Hmid. destruct mode; simpl.
  - unfold full_span_calendar. intros (d & <- & _)%in_map_iff.
    apply to_datetime_midnight.
  - destruct (pd.series_max (map ds rows)) as [m|] eqn:Hm; [|now intros []].
    intros Ht%master_dates_mod. rewrite Ht. now apply Hmid.
Qed.

(** X1.  The table a regulariser returns is in strictly ascending order of
    (entity id, timestamp), in both modes. *)
Theorem X1_output_sorted (mode : Mode) (rows out : list Row) :
  regularize mode rows = Ok out ->
  StronglySorted (lt_of row_compare) out.
Proof.
  intros [_ ->]%regularize_shape. apply blocks_sorted.
  - apply calendar_sorted.
  - apply entity_ids_sorted.
Qed.

Lemma X1_output_sorted_witness :
  exists out,
    regularize full_span two_entities = Ok out
    /\ StronglySorted (lt_of row_compare) out.
Proof.
  destruct (regularize full_span two_entities) as [out|] eqn:E;
    [|vm_compute in E; discriminate].
  exists out. split; [reflexivity|].
  exact (X1_output_sorted full_span two_entities out E).
Defined.

(** X2.  A regulariser neither loses nor invents an entity: the entity ids of
    its output are those of the raw input, in both modes. *)
Theorem X2_entities_kept (mode : Mode) (rows out : list Row) (e : string) :
  regularize mode rows = Ok out ->
  In e (map unique_id out) <-> In e (map unique_id rows).
Proof.
  intros [Hne ->]%regularize_shape. rewrite <- (In_entity_ids e rows).
  apply blocks_ids. intros e'. now apply calendar_nonempty.
Qed.

Lemma X2_entities_kept_witness :
  exists out,
    regularize fixed_window two_entities = Ok out
    /\ (In "B"%string (map unique_id out)
        <-> In "B"%string (map unique_id two_entities)).
Proof.
  destruct (regularize fixed_window two_entities) as [out|] eqn:E;
    [|vm_compute in E; discriminate].
  exists out. split; [reflexivity|].
  exact (X2_entities_kept fixed_window two_entities out "B" E).
Defined.

(** X3.  In both modes and for every raw input, a row of the output whose
    entity has no raw observation on the day of the row has the value 0. *)
Theorem X3_gap_days_are_zero (mode : Mode) (rows out : list Row) (r : Row) :
  regularize mode rows = Ok out ->
  In r out ->
  ~ In (day r) (entity_days (unique_id r) rows) ->
  y r = 0%Q.
Proof.
  intros [_ ->]%regularize_shape (_ & _ & ->)%In_blocks Hgap.
  apply value_at_unobserved. intros r' Hr' Hd. apply Hgap.
  unfold entity_days. change (day r) with (pd.dt_date (ds r)).
  rewrite <- Hd. apply in_map. exact Hr'.
Qed.

Lemma X3_gap_days_are_zero_witness :
  y (mkRow (pd.to_datetime D2) "A" 0) = 0%Q.
Proof.
  apply (X3_gap_days_are_zero full_span scenario_A regular_A).
  - reflexivity.
  - right. left. reflexivity.
  - vm_compute. intros [H|[H|[H|[]]]]; discriminate.
Defined.

(** X4.  When the latest timestamp of the input falls at midnight (always so
    in full-span mode, where the condition is not needed), every value of the
    output is the sum of the raw values of its entity on its day. *)
Theorem X4_daily_sums_kept (mode : Mode) (rows out : list Row) (r : Row) :
  (mode = fixed_window -> latest_at_midnight rows) ->
  regularize mode rows = Ok out ->
  In r out ->
  (y r == raw_sum rows (unique_id r) (day r))%Q.
Proof.
  intros Hmid [_ ->]%regularize_shape (_ & Ht & ->)%In_blocks.
  unfold value_at. rewrite (calendar_midnight _ _ _ _ Hmid Ht). simpl.
  apply cell_raw_sum.
Qed.

Lemma X4_daily_sums_kept_witness :
  exists out,
    regularize fixed_window two_entities = Ok out
    /\ Forall (fun r => (y r == raw_sum two_entities (unique_id r) (day r))%Q)
              out.
Proof.
  destruct (regularize fixed_window two_entities) as [out|] eqn:E;
    [|vm_compute in E; discriminate].
  exists out. split; [reflexivity|]. apply List.Forall_forall. intros r Hr.
  apply (X4_daily_sums_kept fixed_window two_entities out r); [|exact E|exact Hr].
  intros _ m Hm. vm_compute in Hm. injection Hm as <-. reflexivity.
Defined.

(** X5.  In fixed-window mode, when the latest timestamp of the input does
    not fall at midnight, the run succeeds and every value of the output is
    0, whatever was sold. *)
Theorem X5_timed_input_gives_zeros (rows : list Row) (m : pd.Timestamp) :
  pd.series_max (map ds rows) = Some m ->
  (m mod pd.ns_per_day <> 0)%Z ->
  exists out,
    regularize fixed_window rows = Ok out
    /\ Forall (fun r => y r = 0%Q) out.
Proof.
  intros Hm Hmid. simpl. rewrite (preprocess_data_blocks rows m Hm).
  eexists. split; [reflexivity|]. apply List.Forall_forall.
  intros r (_ & Ht & ->)%In_blocks. apply master_dates_mod in Ht.
  unfold value_at. rewrite Ht. now destruct (Z.eqb_spec (m mod pd.ns_per_day) 0).
Qed.

Lemma X5_timed_input_gives_zeros_witness :
  exists out,
    regularize fixed_window timed_sale = Ok out
    /\ Forall (fun r => y r = 0%Q) out.
Proof.
  apply (X5_timed_input_gives_zeros timed_sale ten_o_clock).
  - reflexivity.
  - vm_compute. discriminate.
Defined.

(** ** Totals *)

Lemma sum_plus {A : Type} (f g : A -> Q) (l : list A) :
  (fold_right Qplus 0 (map (fun a => f a + g a) l)
   == fold_right Qplus 0 (map f l) + fold_right Qplus 0 (map g l))%Q.
Proof.
  induction l as [|a l IH]; simpl; [reflexivity|]. rewrite IH. ring.
Qed.

Lemma sum_ext {A : Type} (f g : A -> Q) (l : list A) :
  (forall a, In a l -> (f a == g a)%Q) ->
  (fold_right Qplus 0 (map f l) == fold_right Qplus 0 (map g l))%Q.
Proof.
  induction l as [|a l IH]; intros H; simpl; [reflexivity|].
  rewrite (H a) by now left. rewrite IH; [reflexivity|].
  intros b Hb. apply H. now right.
Qed.

Lemma sum_indicator (x : Z) (v : Q) (days : list Z) :
  List.NoDup days ->
  (fold_right Qplus 0 (map (fun d => if Z.eqb x d then v else 0) days)
   == if existsb (Z.eqb x) days then v else 0)%Q.
Proof.
  induction 1 as [|d days Hd _ IH]; simpl; [reflexivity|].
  rewrite IH. destruct (Z.eqb_spec x d) as [->|Hne]; simpl.
  - destruct (existsb (Z.eqb d) days) eqn:E; [|ring].
    exfalso. apply Hd. apply existsb_exists in E as (z & Hz & ->%Z.eqb_eq).
    exact Hz.
  - ring.
Qed.

Lemma raw_sum_cons (r : Row) (rows : list Row) (e : string) (d : Z) :
  (raw_sum (r :: rows) e d
   == (if has_id e r && Z.eqb (day r) d then y r else 0) + raw_sum rows e d)%Q.
Proof.
  unfold raw_sum. simpl.
  destruct (has_id e r && Z.eqb (day r) d); simpl; [reflexivity | ring].
Qed.

(** The daily sums of an entity over distinct days add up to the sum of its
    raw values on those days. *)
Lemma raw_sum_over_days (rows : list Row) (e : string) (days : list Z) :
  List.NoDup days ->
  (fold_right Qplus 0 (map (raw_sum rows e) days)
   == fold_right Qplus 0
        (map y (List.filter (fun r => existsb (Z.eqb (day r)) days)
                            (series_of e rows))))%Q.
Proof.
  intros Hnd. induction rows as [|r rows IH].
  - simpl. induction days as [|d days IHd]; simpl; [reflexivity|].
    apply NoDup_cons_iff in Hnd as [_ Hnd]. rewrite (IHd Hnd).
    unfold raw_sum. simpl. ring.
  - rewrite (sum_ext _ (fun d => (if has_id e r && Z.eqb (day r) d
                                  then y r else 0) + raw_sum rows e d)%Q)
      by (intros d _; apply raw_sum_cons).
    rewrite sum_plus, IH. unfold series_of. simpl.
    destruct (has_id e r); simpl.
    + rewrite (sum_indicator _ _ _ Hnd).
      destruct (existsb (Z.eqb (day r)) days); simpl; [reflexivity | ring].
    + assert (Z0 : (fold_right Qplus 0 (map (fun _ : Z => 0) days) == 0)%Q).
      { clear. induction days as [|d days IHd]; simpl; [reflexivity|].
        rewrite IHd. ring. }
      rewrite Z0. ring.
Qed.

Lemma entity_span_covers (rows : list Row) (e : string) (r : Row) :
  In r (series_of e rows) ->
  existsb (Z.eqb (day r)) (entity_span rows e) = true.
Proof.
  intros Hr. assert (Hd : In (day r) (entity_days e rows)) by now apply in_map.
  unfold entity_span.
  destruct (series_min_is_Some (entity_days e rows)) as [lo Hlo];
    [intros E; now rewrite E in Hd|].
  destruct (series_max_is_Some (entity_days e rows)) as [hi Hhi];
    [intros E; now rewrite E in Hd|].
  rewrite Hlo, Hhi. apply existsb_exists. exists (day r).
  split; [|apply Z.eqb_refl]. apply In_days_from.
  apply series_min_spec in Hlo as [_ Hlo]. apply series_max_spec in Hhi as [_ Hhi].
  rewrite List.Forall_forall in Hlo, Hhi. split; [now apply Hlo | now apply Hhi].
Qed.

Lemma filter_all {A : Type} (p : A -> bool) (l : list A) :
  (forall a, In a l -> p a = true) -> List.filter p l = l.
Proof.
  induction l as [|a l IH]; intros H; simpl; [reflexivity|].
  rewrite (H a) by now left. f_equal. apply IH. intros b Hb. apply H. now right.
Qed.

Lemma ascending_NoDup (l : list Z) : StronglySorted Z.lt l -> List.NoDup l.
Proof.
  induction 1 as [|a l _ IH Ha]; constructor; [|exact IH].
  intros Hin. rewrite List.Forall_forall in Ha. specialize (Ha a Hin). lia.
Qed.

(** X6.  When the latest timestamp of the input falls at midnight (a
    condition that full-span mode does not need), the values of an entity in
    the output add up to the sum of its raw values on the days of its
    window; in full-span mode that is the sum of all its raw values. *)
Theorem X6_totals_kept (mode : Mode) (rows out : list Row) (e : string) :
  (mode = fixed_window -> latest_at_midnight rows) ->
  regularize mode rows = Ok out ->
  In e (map unique_id out) ->
  (total (series_of e out)
   == total (List.filter (fun r => existsb (Z.eqb (day r)) (window mode rows e))
                         (series_of e rows)))%Q
  /\ (mode = full_span ->
      (total (series_of e out) == total (series_of e rows))%Q).
Proof.
  intros Hmid Hrun Hin.
  destruct (regularize_shape _ _ _ Hrun) as [Hne ->].
  assert (He : In e (entity_ids rows)).
  { apply (blocks_ids (value_at rows) (calendar mode rows) (entity_ids rows));
      [|exact Hin]. intros e'. now apply calendar_nonempty. }
  assert (Hgen :
    (total (series_of e (blocks (value_at rows) (calendar mode rows)
                                (entity_ids rows)))
     == total (List.filter
                 (fun r => existsb (Z.eqb (day r)) (window mode rows e))
                 (series_of e rows)))%Q).
  { unfold total. rewrite !series_sum_fold_right.
    rewrite series_of_block
      by (exact He || apply (ids_NoDup _ (entity_ids_sorted rows))).
    rewrite map_map. simpl.
    rewrite (sum_ext _ (fun t => raw_sum rows e (pd.dt_date t))).
    - rewrite <- (map_map pd.dt_date (raw_sum rows e)), calendar_days.
      apply raw_sum_over_days.
      rewrite <- calendar_days.
      apply ascending_NoDup, calendar_days_sorted.
    - intros t Ht. unfold value_at.
      rewrite (calendar_midnight _ _ _ _ Hmid Ht). simpl. apply cell_raw_sum. }
  split; [exact Hgen|].
  intros ->. rewrite Hgen. simpl.
  rewrite filter_all; [reflexivity|]. apply entity_span_covers.
Qed.

Lemma X6_totals_kept_witness :
  exists out,
    regularize full_span scenario_A = Ok out
    /\ (total (series_of "A" out) == total (series_of "A" scenario_A))%Q.
Proof.
  exists regular_A. split; [reflexivity|].
  apply (X6_totals_kept full_span scenario_A regular_A "A").
  - discriminate.
  - reflexivity.
  - left. reflexivity.
  - reflexivity.
Defined.

(** ** Sizes *)

Lemma length_blocks (v : string -> pd.Timestamp -> Q)
    (w : string -> list pd.Timestamp) (ids : list string) :
  length (blocks v w ids) = list_sum (map (fun e => length (w e)) ids).
Proof.
  unfold blocks. induction ids as [|e ids IH]; simpl; [reflexivity|].
  now rewrite length_app, length_map, IH.
Qed.

Lemma list_sum_const {A : Type} (n : nat) (l : list A) :
  list_sum (map (fun _ => n) l) = (n * length l)%nat.
Proof.
  induction l as [|a l IH]; cbn [map list_sum length fold_right];
    [now rewrite Nat.mul_0_r|].
  rewrite Nat.mul_succ_r. unfold list_sum in IH. rewrite IH. lia.
Qed.

(** X7.  The output of a regulariser has, for each entity of the input, as
    many rows as its window has days; in fixed-window mode that is 181 rows
    per entity, whatever the input. *)
Theorem X7_output_size (mode : Mode) (rows out : list Row) :
  regularize mode rows = Ok out ->
  length out
  = list_sum (map (fun e => length (window mode rows e)) (entity_ids rows))
  /\ List.NoDup (entity_ids rows)
  /\ (forall e, In e (entity_ids rows) <-> In e (map unique_id rows))
  /\ (mode = fixed_window ->
      length out = (181 * length (entity_ids rows))%nat).
Proof.
  intros Hrun. destruct (regularize_shape _ _ _ Hrun) as [Hne ->].
  assert (Hlen : length (blocks (value_at rows) (calendar mode rows)
                                (entity_ids rows))
                 = list_sum (map (fun e => length (window mode rows e))
                                 (entity_ids rows))).
  { rewrite length_blocks. f_equal. apply map_ext. intros e.
    now rewrite <- calendar_days, length_map. }
  split; [exact Hlen|]. split; [apply entity_ids_NoDup|].
  split; [intros e; apply In_entity_ids|].
  intros ->. rewrite Hlen. unfold window.
  destruct (series_max_is_Some (map ds rows)) as [m Hm].
  { intros E%map_eq_nil. contradiction. }
  rewrite Hm. rewrite length_days_from.
  replace (Z.to_nat (pd.dt_date m - (pd.dt_date m - 180) + 1)) with 181%nat
    by lia.
  apply list_sum_const.
Qed.

Lemma X7_output_size_witness :
  exists out,
    regularize fixed_window two_entities = Ok out
    /\ length out = (181 * length (entity_ids two_entities))%nat.
Proof.
  destruct (regularize fixed_window two_entities) as [out|] eqn:E;
    [|vm_compute in E; discriminate].
  exists out. split; [reflexivity|].
  apply (X7_output_size fixed_window two_entities out E). reflexivity.
Defined.

(** ** The sidebar of the dashboard *)

Section sort_by_sorted.

Context {A : Type} (cmp : A -> A -> comparison) (R : A -> A -> Prop).
Hypothesis R_before : forall x h, cmp x h <> Gt -> R x h.
Hypothesis R_after : forall x h, cmp x h = Gt -> R h x.
Hypothesis R_trans : forall a b c, R a b -> R b c -> R a c.

Lemma insert_sorted_sorted (x : A) (l : list A) :
  StronglySorted R l -> StronglySorted R (pd.insert_sorted cmp x l).
Proof using R_before R_after R_trans.
  induction 1 as [|h t Hs IH Hd]; simpl; [repeat constructor|].
  assert (Hfront : cmp x h <> Gt -> StronglySorted R (x :: h :: t)).
  { intros Hc. constructor; [now constructor|].
    constructor; [now apply R_before|].
    eapply List.Forall_impl; [|exact Hd]. intros a. apply R_trans.
    now apply R_before. }
  destruct (cmp x h) eqn:C; try (apply Hfront; discriminate).
  constructor; [exact IH|].
  rewrite List.Forall_forall in *. intros z Hz.
  apply (Permutation_in _ (insert_sorted_perm _ _ _)) in Hz.
  destruct Hz as [<-|Hz]; [now apply R_after | now apply Hd].
Qed.

Lemma sort_by_sorted (l : list A) : StronglySorted R (pd.sort_by cmp l).
Proof using R_before R_after R_trans.
  unfold pd.sort_by. induction l as [|h t IH]; simpl; [constructor|].
  now apply insert_sorted_sorted.
Qed.

End sort_by_sorted.

Lemma string_le_trans (a b c : string) :
  le_of String.compare a b -> le_of String.compare b c ->
  le_of String.compare a c.
Proof.
  unfold le_of. intros Hab Hbc.
  destruct (String.compare a b) eqn:E1; [| |congruence].
  - apply String.compare_eq_iff in E1. now subst.
  - destruct (String.compare b c) eqn:E2; [| |congruence].
    + apply String.compare_eq_iff in E2. subst. now rewrite E1.
    + now rewrite (string_compare_trans a b c E1 E2).
Qed.

Lemma sorted_strings (l : list string) :
  StronglySorted (le_of String.compare) (app.sorted l).
Proof.
  apply sort_by_sorted.
  - intros x h H. exact H.
  - intros x h H. unfold le_of. rewrite String.compare_antisym, H. discriminate.
  - apply string_le_trans.
Qed.

Lemma NoDup_unique (l : list string) : List.NoDup (pd.unique l).
Proof.
  induction l as [|a l IH]; simpl; constructor.
  - intros [_ H]%filter_In. now rewrite String.eqb_refl in H.
  - now apply List.NoDup_filter.
Qed.

Lemma sorted_NoDup_strict (l : list string) :
  StronglySorted (le_of String.compare) l -> List.NoDup l ->
  StronglySorted (lt_of String.compare) l.
Proof.
  induction 1 as [|a l Hs IH Hd]; [constructor|].
  intros [Ha Hnd]%NoDup_cons_iff. constructor; [now apply IH|].
  rewrite List.Forall_forall in *. intros x Hx. specialize (Hd x Hx).
  unfold le_of, lt_of in *.
  destruct (String.compare a x) eqn:C; [|reflexivity|congruence].
  apply String.compare_eq_iff in C. subst. contradiction.
Qed.

Lemma regularize_keeps_entities (mode : Mode) (rows out : list Row)
    (e : string) :
  regularize mode rows = Ok out ->
  In e (map unique_id out) <-> In e (map unique_id rows).
Proof.
  intros [Hne ->]%regularize_shape. rewrite <- (In_entity_ids e rows).
  apply blocks_ids. intros e'. now apply calendar_nonempty.
Qed.

(** X8.  The entities the dashboard offers for selection are exactly the
    entity ids of the raw input, each once, in strictly ascending order; the
    ones selected when the page opens are the first two of them. *)
Theorem X8_items_offered (rows out : list Row) :
  regularize fixed_window rows = Ok out ->
  StronglySorted (lt_of String.compare) (app.all_items out)
  /\ (forall e, In e (app.all_items out) <-> In e (map unique_id rows))
  /\ app.all_items out = entity_ids rows
  /\ app.default_items (app.all_items out) = firstn 2 (entity_ids rows)
  /\ app.default_items (app.all_items out) <> [].
Proof.
  intros Hrun.
  assert (Hin : forall e, In e (app.all_items out) <-> In e (map unique_id rows)).
  { intros e. rewrite <- (regularize_keeps_entities fixed_window rows out e Hrun).
    unfold app.all_items, app.sorted. split.
    - intros H%(Permutation_in _ (sort_by_perm _ _)). now apply In_unique.
    - intros H. apply (Permutation_in _ (Permutation_sym (sort_by_perm _ _))).
      now apply In_unique. }
  assert (Hs : StronglySorted (lt_of String.compare) (app.all_items out)).
  { apply sorted_NoDup_strict; [apply sorted_strings|].
    apply (Permutation_NoDup (Permutation_sym (sort_by_perm _ _))).
    apply NoDup_unique. }
  assert (E : app.all_items out = entity_ids rows).
  { apply (sorted_ext String.compare).
    - apply String.compare_antisym.
    - apply string_compare_trans.
    - exact Hs.
    - apply entity_ids_sorted.
    - intros e. rewrite Hin. symmetry. apply In_entity_ids. }
  repeat split; try assumption; try apply Hin.
  - rewrite E. unfold app.default_items. now destruct (entity_ids rows).
  - rewrite E. destruct (regularize_shape _ _ _ Hrun) as [Hne _].
    apply entity_ids_nonempty in Hne.
    unfold app.default_items. destruct (entity_ids rows); [congruence|discriminate].
Qed.

Lemma X8_items_offered_witness :
  exists out,
    regularize fixed_window two_entities = Ok out
    /\ app.all_items out = ["A"; "B"]%string
    /\ app.default_items (app.all_items out) <> [].
Proof.
  destruct (regularize fixed_window two_entities) as [out|] eqn:E;
    [|vm_compute in E; discriminate].
  exists out. split; [reflexivity|].
  destruct (X8_items_offered two_entities out E) as (_ & _ & Hall & _ & Hne).
  split; [rewrite Hall; reflexivity | exact Hne].
Defined.

Lemma filter_isin_blocks (v : string -> pd.Timestamp -> Q)
    (w : string -> list pd.Timestamp) (sel ids : list string) :
  List.filter (app.isin sel) (blocks v w ids)
  = blocks v w (List.filter (fun e => mem e sel) ids).
Proof.
  unfold blocks. induction ids as [|e ids IH]; simpl; [reflexivity|].
  rewrite List.filter_app, IH.
  assert (E : List.filter (app.isin sel) (map (fun t => mkRow t e (v e t)) (w e))
              = if mem e sel then map (fun t => mkRow t e (v e t)) (w e) else []).
  { induction (w e) as [|t l IHl]; simpl; [now destruct (mem e sel)|].
    unfold app.isin at 1. simpl. rewrite IHl. now destruct (mem e sel). }
  rewrite E. now destruct (mem e sel).
Qed.

Lemma mem_false (c : string) (l : list string) : mem c l = false <-> ~ In c l.
Proof.
  rewrite <- mem_true. now destruct (mem c l).
Qed.

Lemma filter_firstn (n : nat) (l : list string) :
  List.NoDup l -> List.filter (fun e => mem e (firstn n l)) l = firstn n l.
Proof.
  revert n. induction l as [|a l IH]; intros n Hnd; [now destruct n|].
  apply NoDup_cons_iff in Hnd as [Ha Hnd]. destruct n as [|n]; simpl.
  - clear. now induction l.
  - unfold mem at 1. simpl. rewrite String.eqb_refl. simpl. f_equal.
    transitivity (List.filter (fun e => mem e (firstn n l)) l);
      [|now apply IH].
    apply filter_ext_in. intros x Hx.
    destruct (String.eqb_spec x a) as [->|]; [contradiction|reflexivity].
Qed.

Lemma all_items_shape (rows out : list Row) :
  regularize fixed_window rows = Ok out ->
  app.all_items out = entity_ids rows
  /\ app.default_items (app.all_items out) = firstn 2 (entity_ids rows)
  /\ app.default_items (app.all_items out) <> [].
Proof.
  intros Hrun.
  assert (E : app.all_items out = entity_ids rows).
  { apply (sorted_ext String.compare).
    - apply String.compare_antisym.
    - apply string_compare_trans.
    - apply sorted_NoDup_strict; [apply sorted_strings|].
      apply (Permutation_NoDup (Permutation_sym (sort_by_perm _ _))).
      apply NoDup_unique.
    - apply entity_ids_sorted.
    - intros e. rewrite In_entity_ids.
      rewrite <- (regularize_keeps_entities fixed_window rows out e Hrun).
      unfold app.all_items, app.sorted. split.
      + intros H%(Permutation_in _ (sort_by_perm _ _)). now apply In_unique.
      + intros H. apply (Permutation_in _ (Permutation_sym (sort_by_perm _ _))).
        now apply In_unique. }
  rewrite E. destruct (regularize_shape _ _ _ Hrun) as [Hne _].
  apply entity_ids_nonempty in Hne. unfold app.default_items.
  split; [reflexivity|].
  destruct (entity_ids rows); [congruence|]. split; [reflexivity|discriminate].
Qed.

Lemma length_selected (selected_items ids : list string) :
  List.NoDup selected_items -> List.NoDup ids ->
  (forall e, In e selected_items -> In e ids) ->
  length (List.filter (fun e => mem e selected_items) ids)
  = length selected_items.
Proof.
  intros Hs Hi Hsub. apply Permutation_length, Permutation.NoDup_Permutation.
  - now apply List.NoDup_filter.
  - exact Hs.
  - intros e. rewrite filter_In, mem_true. split; [tauto|]. intros H.
    split; [now apply Hsub | exact H].
Qed.

(** X9.  On the table of the dashboard, with any selection the sidebar can
    give (some of the items offered, each once, and at least one), each
    adapter issues exactly one call; the frame it sends holds the rows of the
    selected entities and no other, 181 rows for each, with the daily
    frequency, the given level for the anomalies, and the horizon and the
    levels 80 and 90 for the forecast; what the service answers, an exception
    included, is what the adapter returns.  The selection the page opens with
    is such a selection. *)
Theorem X9_selection_calls
    (service : app.NixtlaClient -> app.Request -> result DataFrame)
    (rows out : list Row) (level : Q) (selected_items : list string)
    (key : string) (horizon : Z) (calls : list app.Request) :
  regularize fixed_window rows = Ok out ->
  selected_items <> [] ->
  List.NoDup selected_items ->
  (forall e, In e selected_items -> In e (app.all_items out)) ->
  let subset_df := List.filter (app.isin selected_items) out in
  length subset_df = (181 * length selected_items)%nat
  /\ Forall (fun r => In (unique_id r) selected_items) subset_df
  /\ app.detect_anomalies service out level selected_items key calls
     = (service (app.mkNixtlaClient key)
                (app.detect_anomalies_request subset_df "D" level),
        calls ++ [app.detect_anomalies_request subset_df "D" level])
  /\ app.generate_forecast service out selected_items key horizon calls
     = (service (app.mkNixtlaClient key)
                (app.forecast_request subset_df horizon "D" [80; 90]%Z),
        calls ++ [app.forecast_request subset_df horizon "D" [80; 90]%Z])
  /\ (let default := app.default_items (app.all_items out) in
      default <> [] /\ List.NoDup default
      /\ forall e, In e default -> In e (app.all_items out)).
Proof.
  intros Hrun Hne Hnd Hsub subset_df.
  destruct (all_items_shape rows out Hrun) as (Hall & Hdef & Hdne).
  destruct (regularize_shape _ _ _ Hrun) as [Hrows Hout].
  destruct (series_max_is_Some (map ds rows)) as [m Hm].
  { intros E%map_eq_nil. contradiction. }
  assert (Hlen : length subset_df = (181 * length selected_items)%nat).
  { unfold subset_df. rewrite Hout, filter_isin_blocks, length_blocks.
    rewrite (map_ext _ (fun _ => 181%nat)).
    - rewrite list_sum_const. f_equal.
      apply length_selected; [exact Hnd | apply entity_ids_NoDup |].
      intros e He. rewrite <- Hall. now apply Hsub.
    - intros e. simpl. rewrite Hm. apply length_master_calendar. }
  split; [exact Hlen|]. split; [|split; [|split]].
  - apply List.Forall_forall. intros r [_ Hr]%filter_In.
    now apply mem_true.
  - unfold app.detect_anomalies. fold subset_df.
    destruct subset_df as [|r l]; [|reflexivity].
    destruct selected_items; [contradiction | simpl in Hlen; lia].
  - unfold app.generate_forecast. fold subset_df.
    destruct subset_df as [|r l]; [|reflexivity].
    destruct selected_items; [contradiction | simpl in Hlen; lia].
  - cbn zeta. split; [exact Hdne|]. rewrite Hdef, Hall. split.
    + pose proof (entity_ids_NoDup rows) as H.
      rewrite <- (firstn_skipn 2 (entity_ids rows)) in H.
      now apply NoDup_app_remove_r in H.
    + intros e He. rewrite <- (firstn_skipn 2 (entity_ids rows)).
      apply in_or_app. now left.
Qed.

Lemma X9_selection_calls_witness :
  exists out,
    regularize fixed_window two_entities = Ok out
    /\ length (List.filter (app.isin ["B"%string]) out) = (181 * 1)%nat.
Proof.
  destruct (regularize fixed_window two_entities) as [out|] eqn:E;
    [|vm_compute in E; discriminate].
  exists out. split; [reflexivity|].
  refine (proj1 (X9_selection_calls service_down two_entities out 99
                   ["B"%string] "key"%string 7%Z [] E _ _ _)).
  - discriminate.
  - repeat constructor. simpl. tauto.
  - destruct (all_items_shape _ _ E) as [-> _]. vm_compute.
    intros e [<-|[]]. tauto.
Defined.

(** ** The join with the answer of the service *)

Lemma flat_map_map {A B C : Type} (f : B -> list C) (g : A -> B) (l : list A) :
  flat_map f (map g l) = flat_map (fun x => f (g x)) l.
Proof.
  induction l as [|a l IH]; simpl; [reflexivity | now rewrite IH].
Qed.

(** The rows and the column labels of a join of the series that succeeds. *)
Lemma merge_series_data (daily_sales : list Row)
    (anomalies_df merged_df : DataFrame) (how : How) :
  merge (to_frame daily_sales) anomalies_df ["unique_id"; "ds"]%string how
        (EmptyString, "_anomaly"%string) = Ok merged_df ->
  data merged_df
  = flat_map
      (fun r =>
         match answers anomalies_df r with
         | [] =>
             match how with
             | how_left =>
                 [row_cells r
                  ++ map (fun _ => CNaN)
                       (non_key ["unique_id"; "ds"]%string
                                (columns anomalies_df))]
             | how_inner => []
             end
         | ms =>
             map (fun a =>
                    row_cells r
                    ++ non_key_cells ["unique_id"; "ds"]%string
                         (columns anomalies_df) a) ms
         end)
      daily_sales
  /\ length (columns merged_df)
     = (3 + length (non_key ["unique_id"; "ds"]%string
                            (columns anomalies_df)))%nat.
Proof.
  unfold merge.
  destruct (negb (forallb _ _)); [discriminate|].
  destruct (negb (forallb _ _)); [discriminate|].
  destruct (_ && _); [discriminate|].
  destruct (_ ++ _); [|discriminate].
  intros [= <-]. cbn [columns data to_frame]. split.
  - rewrite flat_map_map. reflexivity.
  - cbn [length]. now rewrite length_map.
Qed.

Lemma opt_cell_eqb_str (s : string) (x : option Cell) :
  opt_cell_eqb (Some (CStr s)) x = true <-> x = Some (CStr s).
Proof.
  destruct x as [[t|t|q|b|]|]; simpl; try (split; [discriminate|congruence]).
  rewrite String.eqb_eq. split; congruence.
Qed.

Lemma opt_cell_eqb_time (t : pd.Timestamp) (x : option Cell) :
  opt_cell_eqb (Some (CTime t)) x = true <-> x = Some (CTime t).
Proof.
  destruct x as [[u|u|q|b|]|]; simpl; try (split; [discriminate|congruence]).
  rewrite Z.eqb_eq. split; congruence.
Qed.

Lemma In_answers (anomalies_df : DataFrame) (r : Row) (a : list Cell) :
  In a (answers anomalies_df r)
  <-> In a (data anomalies_df)
      /\ row_get (columns anomalies_df) a "unique_id" = Some (CStr (unique_id r))
      /\ row_get (columns anomalies_df) a "ds" = Some (CTime (ds r)).
Proof.
  unfold answers. rewrite filter_In. unfold same_keys.
  cbn [forallb]. rewrite andb_true_r, andb_true_iff.
  change (row_get series_columns (row_cells r) "unique_id")
    with (Some (CStr (unique_id r))).
  change (row_get series_columns (row_cells r) "ds")
    with (Some (CTime (ds r))).
  now rewrite opt_cell_eqb_str, opt_cell_eqb_time.
Qed.

Lemma length_non_key_cells (on cols : list string) (row : list Cell) :
  length row = length cols ->
  length (non_key_cells on cols row) = length (non_key on cols).
Proof.
  unfold non_key_cells, non_key. rewrite length_map. revert row.
  induction cols as [|c cols IH]; intros [|x row] H; try discriminate;
    [reflexivity|].
  simpl. destruct (negb (mem c on)); simpl; rewrite IH; auto.
Qed.

(** X10.  A join of the series with the answer that succeeds, seen on the
    three columns of the series: every series row comes out as many times as
    the answer has rows with its entity id and its timestamp (the same
    instant, time of day included), and once when there is none and the join
    is the one of the script; the copies of a row are side by side and the
    rows keep the order of the series.  So an answer with at most one row per
    key gives the script the series itself, row for row, and an answer that
    has no row for any key leaves the dashboard without rows. *)
Theorem X10_join_rows (daily_sales : list Row)
    (anomalies_df merged_df : DataFrame) (how : How) :
  merge (to_frame daily_sales) anomalies_df ["unique_id"; "ds"]%string how
        (EmptyString, "_anomaly"%string) = Ok merged_df ->
  (forall r a,
     In a (answers anomalies_df r)
     <-> In a (data anomalies_df)
         /\ row_get (columns anomalies_df) a "unique_id"
            = Some (CStr (unique_id r))
         /\ row_get (columns anomalies_df) a "ds" = Some (CTime (ds r)))
  /\ map (firstn 3) (data merged_df)
     = flat_map (fun r => repeat (row_cells r) (copies how anomalies_df r))
                daily_sales
  /\ length (data merged_df)
     = list_sum (map (copies how anomalies_df) daily_sales)
  /\ (how = how_left ->
      (forall r, In r daily_sales ->
                 (length (answers anomalies_df r) <= 1)%nat) ->
      map (firstn 3) (data merged_df) = map row_cells daily_sales)
  /\ (how = how_inner ->
      (forall r, In r daily_sales -> answers anomalies_df r = []) ->
      data merged_df = []).
Proof.
  intros [Hd _]%merge_series_data.
  assert (Hrows : map (firstn 3) (data merged_df)
                  = flat_map (fun r => repeat (row_cells r)
                                              (copies how anomalies_df r))
                             daily_sales).
  { rewrite Hd. clear Hd.
    induction daily_sales as [|r l IH]; [reflexivity|].
    cbn [flat_map]. rewrite map_app, IH. f_equal. unfold copies.
    destruct (answers anomalies_df r) as [|a ms].
    - destruct how; reflexivity.
    - assert (E : forall ms',
                 map (firstn 3)
                     (map (fun a0 => row_cells r
                                     ++ non_key_cells ["unique_id"; "ds"]%string
                                          (columns anomalies_df) a0) ms')
                 = repeat (row_cells r) (length ms')).
      { induction ms' as [|b ms' IHm]; [reflexivity|].
        simpl. now rewrite <- IHm. }
      rewrite E. destruct how; reflexivity. }
  split; [apply In_answers|]. split; [exact Hrows|]. split; [|split].
  - rewrite <- (length_map (firstn 3)), Hrows. clear.
    induction daily_sales as [|r l IH]; [reflexivity|].
    cbn [flat_map map]. rewrite length_app, repeat_length, IH. reflexivity.
  - intros -> Hone. rewrite Hrows. clear Hrows Hd.
    induction daily_sales as [|r l IH]; [reflexivity|].
    cbn [flat_map map]. rewrite IH by (intros; apply Hone; now right).
    assert (E : copies how_left anomalies_df r = 1%nat).
    { unfold copies. specialize (Hone r (or_introl eq_refl)). lia. }
    now rewrite E.
  - intros -> Hnone. rewrite Hd. clear Hd Hrows.
    induction daily_sales as [|r l IH]; [reflexivity|].
    cbn [flat_map]. rewrite IH by (intros; apply Hnone; now right).
    now rewrite (Hnone r (or_introl eq_refl)).
Qed.

Lemma X10_join_rows_witness :
  exists merged_df,
    merge (to_frame regular_A) answer_without_y ["unique_id"; "ds"]%string
          how_left (EmptyString, "_anomaly"%string) = Ok merged_df
    /\ map (firstn 3) (data merged_df) = map row_cells regular_A.
Proof.
  destruct (merge (to_frame regular_A) answer_without_y
                  ["unique_id"; "ds"]%string how_left
                  (EmptyString, "_anomaly"%string)) as [merged_df|] eqn:E;
    [|vm_compute in E; discriminate].
  exists merged_df. split; [reflexivity|].
  apply (X10_join_rows regular_A answer_without_y merged_df how_left E);
    [reflexivity|].
  intros r [<-|[<-|[<-|[]]]]; vm_compute; lia.
Defined.

(** Labels without a repeat have no duplicate to report, and labels for which
    none is reported, made from labels without a repeat, have none. *)
Lemma duplicated_from_length (seen l : list string) :
  length (duplicated_from seen l) = length l.
Proof.
  revert seen. induction l as [|x l IH]; intros seen; simpl; [reflexivity|].
  now rewrite IH.
Qed.

Lemma duplicated_from_false (seen l : list string) :
  List.NoDup l -> (forall x, In x l -> ~ In x seen) ->
  duplicated_from seen l = repeat false (length l).
Proof.
  revert seen. induction l as [|x l IH]; intros seen Hnd Hs; [reflexivity|].
  apply NoDup_cons_iff in Hnd as [Hx Hnd]. simpl. f_equal.
  - apply mem_false, Hs. now left.
  - apply IH; [exact Hnd|]. intros z Hz [<-|Hin]; [contradiction|].
    apply (Hs z); [now right | exact Hin].
Qed.

Lemma duplicated_from_NoDup (seen l : list string) :
  duplicated_from seen l = repeat false (length l) ->
  List.NoDup l /\ forall x, In x l -> ~ In x seen.
Proof.
  revert seen. induction l as [|x l IH]; intros seen H.
  - split; [constructor | intros ? []].
  - simpl in H. injection H as Hx Hl. apply IH in Hl as [Hnd Hs].
    apply mem_false in Hx. split.
    + constructor; [|exact Hnd]. intros Hin. apply (Hs x Hin). now left.
    + intros z [<-|Hz]; [exact Hx|]. intros Hin. apply (Hs z Hz). now right.
Qed.

Lemma zip3_no_new (labels : list string) (b : list bool) (n : nat) :
  length b = length labels -> n = length labels ->
  map fst (List.filter (fun p => fst (snd p) && negb (snd (snd p)))
                       (zip3 labels b (repeat false n))) = []
  -> b = repeat false (length labels).
Proof.
  revert b n. induction labels as [|x l IH]; intros [|y b] [|n] Hb Hn H;
    try discriminate; [reflexivity|].
  simpl in *. destruct y; [discriminate|]. f_equal.
  apply (IH b n); [lia | lia | exact H].
Qed.

Lemma zip3_all_false (labels : list string) (c : list bool) (n : nat) :
  map fst (List.filter (fun p => fst (snd p) && negb (snd (snd p)))
                       (zip3 labels (repeat false n) c)) = [].
Proof.
  revert c n. induction labels as [|x l IH]; intros [|z c] [|n];
    try reflexivity.
  simpl. apply IH.
Qed.

Lemma new_duplicates_nil (before labels : list string) :
  List.NoDup before -> length labels = length before ->
  new_duplicates before labels = [] <-> List.NoDup labels.
Proof.
  intros Hb Hlen. unfold new_duplicates, duplicated.
  rewrite (duplicated_from_false [] before Hb) by (intros ? _ []).
  split.
  - intros H. apply zip3_no_new in H.
    + now apply duplicated_from_NoDup in H.
    + apply duplicated_from_length.
    + now symmetry.
  - intros H. rewrite (duplicated_from_false [] labels H) by (intros ? _ []).
    apply zip3_all_false.
Qed.

Lemma NoDup_map_eq {A B : Type} (f : A -> B) (l : list A) (a b : A) :
  List.NoDup (map f l) -> In a l -> In b l -> f a = f b -> a = b.
Proof.
  induction l as [|x l IH]; [intros _ []|].
  simpl. intros [Hx Hnd]%NoDup_cons_iff [->|Ha] [->|Hb] E; auto.
  - exfalso. apply Hx. rewrite E. now apply in_map.
  - exfalso. apply Hx. rewrite <- E. now apply in_map.
Qed.

Lemma In_non_key (on cols : list string) (c : string) :
  In c (non_key on cols) <-> In c cols /\ ~ In c on.
Proof.
  unfold non_key. rewrite filter_In, negb_true_iff, mem_false. reflexivity.
Qed.

(** The labels the answer's columns get in a join with the series. *)
Lemma series_rlabels (rnk : list string) :
  map (add_suffix (List.filter (fun c => mem c rnk) ["y"%string])
                  "_anomaly") rnk
  = map (fun c => if String.eqb c "y" then "y_anomaly"%string else c) rnk.
Proof.
  cbn [List.filter]. destruct (mem "y" rnk) eqn:E.
  - apply map_ext. intros c. unfold add_suffix, mem. cbn [existsb].
    rewrite orb_false_r. now destruct (String.eqb_spec c "y") as [->|].
  - apply map_ext_in. intros c Hc. unfold add_suffix. cbn [mem existsb].
    destruct (String.eqb_spec c "y") as [->|]; [|reflexivity].
    apply mem_false in E. contradiction.
Qed.

(** The join of the series with an answer, step by step. *)
Lemma merge_series_unfold (daily_sales : list Row) (anomalies_df : DataFrame)
    (how : How) :
  let rnk := non_key ["unique_id"; "ds"]%string (columns anomalies_df) in
  let rlabels := map joined_label rnk in
  merge (to_frame daily_sales) anomalies_df ["unique_id"; "ds"]%string how
        (EmptyString, "_anomaly"%string)
  = if negb (has_column "unique_id" anomalies_df
             && has_column "ds" anomalies_df)
    then Raise (KeyError "merge key")
    else if negb (merge_keys_compatible
                    (column_cells (to_frame daily_sales) "unique_id")
                    (column_cells anomalies_df "unique_id")
                  && merge_keys_compatible
                       (column_cells (to_frame daily_sales) "ds")
                       (column_cells anomalies_df "ds"))
    then Raise (ValueError
                  "You are trying to merge on columns of different dtypes")
    else
      match new_duplicates rnk rlabels with
      | _ :: _ =>
          Raise (MergeError "Passing 'suffixes' which cause duplicate columns")
      | [] =>
          Ok (mkFrame
                (series_columns ++ rlabels)
                (flat_map
                   (fun lrow =>
                      match List.filter
                              (same_keys ["unique_id"; "ds"]%string
                                         series_columns lrow
                                         (columns anomalies_df))
                              (data anomalies_df) with
                      | [] =>
                          match how with
                          | how_left => [lrow ++ map (fun _ => CNaN) rnk]
                          | how_inner => []
                          end
                      | ms =>
                          map (fun rrow =>
                                 lrow
                                 ++ non_key_cells ["unique_id"; "ds"]%string
                                      (columns anomalies_df) rrow) ms
                      end)
                   (map row_cells daily_sales)))
      end.
Proof.
  intros rnk rlabels. unfold merge.
  assert (Hk : forallb (fun k => has_column k (to_frame daily_sales)
                                 && has_column k anomalies_df)
                       ["unique_id"; "ds"]%string
               = has_column "unique_id" anomalies_df
                 && has_column "ds" anomalies_df).
  { cbn [forallb]. rewrite andb_true_r. reflexivity. }
  assert (Hc : forallb (fun k => merge_keys_compatible
                                   (column_cells (to_frame daily_sales) k)
                                   (column_cells anomalies_df k))
                       ["unique_id"; "ds"]%string
               = merge_keys_compatible
                   (column_cells (to_frame daily_sales) "unique_id")
                   (column_cells anomalies_df "unique_id")
                 && merge_keys_compatible
                      (column_cells (to_frame daily_sales) "ds")
                      (column_cells anomalies_df "ds")).
  { cbn [forallb]. now rewrite andb_true_r. }
  rewrite Hk, Hc.
  destruct (has_column "unique_id" anomalies_df && has_column "ds" anomalies_df);
    cbn [negb]; [|reflexivity].
  destruct (_ && _); cbn [negb]; [|reflexivity].
  fold rnk.
  set (lnk := non_key _ (columns (to_frame daily_sales))).
  assert (Elnk : lnk = ["y"%string]) by reflexivity.
  rewrite Elnk. cbn [fst snd]. rewrite andb_false_r.
  rewrite series_rlabels.
  change (map (fun c => if String.eqb c "y" then "y_anomaly"%string else c) rnk)
    with rlabels.
  assert (Ell : map (add_suffix (List.filter (fun c => mem c rnk) ["y"%string])
                                EmptyString) ["y"%string] = ["y"%string]).
  { cbn [map]. unfold add_suffix. now destruct (mem "y" _). }
  rewrite Ell. cbn [new_duplicates duplicated duplicated_from zip3 mem existsb
                    List.filter map fst snd andb app].
  destruct (new_duplicates rnk rlabels); [|reflexivity].
  f_equal. f_equal.
  cbn [to_frame columns series_columns map mem existsb String.eqb
       Ascii.eqb Bool.eqb orb negb app]. unfold add_suffix.
  now destruct (mem "y" _).
Qed.

(** *** The dtypes of the keys *)

Lemma column_cells_ds (daily_sales : list Row) :
  column_cells (to_frame daily_sales) "ds"
  = map (fun r => CTime (ds r)) daily_sales.
Proof.
  unfold column_cells, to_frame. cbn [columns data].
  induction daily_sales as [|r l IH]; [reflexivity|].
  cbn [map]. rewrite <- IH. reflexivity.
Qed.

Lemma column_cells_id (daily_sales : list Row) :
  column_cells (to_frame daily_sales) "unique_id"
  = map (fun r => CStr (unique_id r)) daily_sales.
Proof.
  unfold column_cells, to_frame. cbn [columns data].
  induction daily_sales as [|r l IH]; [reflexivity|].
  cbn [map]. rewrite <- IH. reflexivity.
Qed.

Lemma column_cells_In (df : DataFrame) (c : string) (row : list Cell)
    (x : Cell) :
  In row (data df) -> row_get (columns df) row c = Some x ->
  In x (column_cells df c).
Proof.
  unfold column_cells. induction (data df) as [|h t IH]; [intros []|].
  intros [->|Hin] Hx.
  - change (omap (fun row0 => row_get (columns df) row0 c) (row :: t))
      with (match row_get (columns df) row c with
            | Some y => y :: omap (fun row0 => row_get (columns df) row0 c) t
            | None => omap (fun row0 => row_get (columns df) row0 c) t
            end).
    rewrite Hx. now left.
  - change (omap (fun row0 => row_get (columns df) row0 c) (h :: t))
      with (match row_get (columns df) h c with
            | Some y => y :: omap (fun row0 => row_get (columns df) row0 c) t
            | None => omap (fun row0 => row_get (columns df) row0 c) t
            end).
    destruct (row_get (columns df) h c); [right|]; now apply IH.
Qed.

Lemma column_cells_Forall (P : Cell -> Prop) (df : DataFrame) (c : string) :
  Forall (fun row => exists x, row_get (columns df) row c = Some x /\ P x)
         (data df) ->
  Forall P (column_cells df c)
  /\ length (column_cells df c) = length (data df).
Proof.
  unfold column_cells. induction 1 as [|row rows (x & Hx & HP) _ [IH1 IH2]].
  - split; [constructor | reflexivity].
  - change (omap (fun row0 => row_get (columns df) row0 c) (row :: rows))
      with (match row_get (columns df) row c with
            | Some y => y :: omap (fun row0 => row_get (columns df) row0 c) rows
            | None => omap (fun row0 => row_get (columns df) row0 c) rows
            end).
    rewrite Hx. split; [now constructor | cbn [length]; now rewrite IH2].
Qed.

Lemma forallb_false {A : Type} (f : A -> bool) (l : list A) (x : A) :
  In x l -> f x = false -> forallb f l = false.
Proof.
  intros Hin Hx. destruct (forallb f l) eqn:E; [|reflexivity].
  rewrite forallb_forall in E. now rewrite (E x Hin) in Hx.
Qed.

Lemma infer_datetime (cells : list Cell) :
  cells <> [] -> Forall (fun c => exists t, c = CTime t) cells ->
  infer_dtype cells = datetime64.
Proof.
  intros Hne Hall. unfold infer_dtype.
  assert (E1 : forallb (fun c => match c with
                                 | CTime _ | CNaN => true
                                 | _ => false
                                 end) cells = true).
  { apply forallb_forall. intros c Hc.
    rewrite List.Forall_forall in Hall. now destruct (Hall c Hc) as [t ->]. }
  assert (E2 : existsb (fun c => match c with
                                 | CTime _ => true
                                 | _ => false
                                 end) cells = true).
  { destruct cells as [|c cells]; [contradiction|].
    apply Forall_cons_iff in Hall as [[t ->] _]. reflexivity. }
  now rewrite E1, E2.
Qed.

Lemma infer_object (cells : list Cell) (s : string) :
  In (CStr s) cells -> infer_dtype cells = object_dtype.
Proof.
  intros Hin. unfold infer_dtype.
  rewrite (forallb_false _ cells (CStr s) Hin eq_refl).
  rewrite (forallb_false _ cells (CStr s) Hin eq_refl).
  rewrite (forallb_false _ cells (CStr s) Hin eq_refl).
  reflexivity.
Qed.

Lemma infer_float (cells : list Cell) :
  cells <> [] -> Forall (fun c => exists q, c = CNum q) cells ->
  infer_dtype cells = float64.
Proof.
  intros Hne Hall. unfold infer_dtype.
  destruct cells as [|c cells]; [contradiction|].
  pose proof Hall as Hall'.
  apply Forall_cons_iff in Hall' as [[q ->] _].
  rewrite (forallb_false _ (CNum q :: cells) (CNum q)
             (or_introl eq_refl) eq_refl).
  cbn [andb].
  assert (E : forallb (fun c => match c with
                                | CNum _ | CNaN => true
                                | _ => false
                                end) (CNum q :: cells) = true).
  { apply forallb_forall. intros c Hc.
    rewrite List.Forall_forall in Hall. now destruct (Hall c Hc) as [q' ->]. }
  now rewrite E.
Qed.

Lemma merge_keys_compatible_empty (lk rk : list Cell) :
  lk = [] \/ rk = [] -> merge_keys_compatible lk rk = true.
Proof.
  intros [-> | ->]; [now destruct rk | now destruct lk].
Qed.

Lemma merge_keys_compatible_dtypes (lk rk : list Cell) :
  lk <> [] -> rk <> [] ->
  merge_keys_compatible lk rk
  = match infer_dtype lk, infer_dtype rk with
    | datetime64, datetime64 => true
    | datetime64, _ | _, datetime64 => false
    | object_dtype, float64 | float64, object_dtype => false
    | _, _ => true
    end.
Proof.
  destruct lk, rk; try contradiction. reflexivity.
Qed.

(** An answer with typed keys passes the check, whatever the series. *)
Lemma keys_typed_compatible (daily_sales : list Row) (anomalies_df : DataFrame) :
  keys_typed anomalies_df ->
  merge_keys_compatible (column_cells (to_frame daily_sales) "unique_id")
                        (column_cells anomalies_df "unique_id")
  && merge_keys_compatible (column_cells (to_frame daily_sales) "ds")
                           (column_cells anomalies_df "ds")
  = true.
Proof.
  intros Hk. rewrite column_cells_id, column_cells_ds.
  destruct (column_cells_Forall (fun x => exists s, x = CStr s)
              anomalies_df "unique_id") as [Hid Lid].
  { eapply List.Forall_impl; [|exact Hk].
    intros row [[s Hs] _]. exists (CStr s). eauto. }
  destruct (column_cells_Forall (fun x => exists t, x = CTime t)
              anomalies_df "ds") as [Hds Lds].
  { eapply List.Forall_impl; [|exact Hk].
    intros row [_ [t Ht]]. exists (CTime t). eauto. }
  destruct daily_sales as [|r l].
  { now rewrite !merge_keys_compatible_empty by now left. }
  destruct (data anomalies_df) as [|a rows] eqn:Hd.
  { destruct (column_cells anomalies_df "unique_id"); [|discriminate].
    destruct (column_cells anomalies_df "ds"); [|discriminate].
    reflexivity. }
  destruct (column_cells anomalies_df "unique_id") as [|x xs] eqn:Ex;
    [discriminate|].
  destruct (column_cells anomalies_df "ds") as [|z zs] eqn:Ez;
    [discriminate|].
  rewrite !merge_keys_compatible_dtypes by discriminate.
  apply Forall_cons_iff in Hid as [[s ->] _].
  rewrite (infer_object (CStr s :: xs) s) by now left.
  rewrite (infer_object (map _ (r :: l)) (unique_id r)) by now left.
  rewrite (infer_datetime (z :: zs)) by (discriminate || exact Hds).
  rewrite (infer_datetime (map _ (r :: l))).
  - reflexivity.
  - discriminate.
  - apply List.Forall_forall. intros c (r' & <- & _)%in_map_iff. eauto.
Qed.

(** A text under [ds], or numbers under [unique_id], do not pass it. *)
Lemma text_ds_incompatible (daily_sales : list Row) (anomalies_df : DataFrame)
    (row : list Cell) (s : string) :
  daily_sales <> [] -> In row (data anomalies_df) ->
  row_get (columns anomalies_df) row "ds" = Some (CStr s) ->
  merge_keys_compatible (column_cells (to_frame daily_sales) "ds")
                        (column_cells anomalies_df "ds") = false.
Proof.
  intros Hne Hin Hrow. rewrite column_cells_ds.
  pose proof (column_cells_In _ _ _ _ Hin Hrow) as Hc.
  rewrite merge_keys_compatible_dtypes.
  - rewrite (infer_object _ s Hc). rewrite infer_datetime; [reflexivity| |].
    + now destruct daily_sales.
    + apply List.Forall_forall. intros c (r' & <- & _)%in_map_iff. eauto.
  - now destruct daily_sales.
  - intros E. rewrite E in Hc. destruct Hc.
Qed.

Lemma number_id_incompatible (daily_sales : list Row)
    (anomalies_df : DataFrame) :
  daily_sales <> [] -> data anomalies_df <> [] ->
  Forall (fun row => exists q,
            row_get (columns anomalies_df) row "unique_id" = Some (CNum q))
         (data anomalies_df) ->
  merge_keys_compatible (column_cells (to_frame daily_sales) "unique_id")
                        (column_cells anomalies_df "unique_id") = false.
Proof.
  intros Hne Hrows Hall. rewrite column_cells_id.
  destruct (column_cells_Forall (fun x => exists q, x = CNum q)
              anomalies_df "unique_id") as [Hid Lid].
  { eapply List.Forall_impl; [|exact Hall].
    intros row [q Hq]. exists (CNum q). eauto. }
  assert (Hc : column_cells anomalies_df "unique_id" <> []).
  { intros E. rewrite E in Lid. destruct (data anomalies_df);
      [contradiction | discriminate]. }
  destruct daily_sales as [|r l]; [contradiction|].
  rewrite merge_keys_compatible_dtypes by (discriminate || exact Hc).
  rewrite (infer_float _ Hc Hid).
  now rewrite (infer_object (map _ (r :: l)) (unique_id r)) by now left.
Qed.

(** *** The cells of the joined rows *)

Lemma non_key_get (on cols : list string) (a : list Cell) (c : string) :
  length a = length cols -> ~ In c on ->
  row_get (non_key on cols) (non_key_cells on cols a) c = row_get cols a c.
Proof.
  intros Hlen Hc. unfold row_get, non_key, non_key_cells. revert a Hlen.
  induction cols as [|h t IH]; intros [|x a] Hlen; try discriminate;
    [reflexivity|].
  injection Hlen as Hlen. specialize (IH a Hlen).
  cbn [combine List.filter fst index_of].
  destruct (mem h on) eqn:Hh; cbn [negb map snd index_of].
  - destruct (String.eqb_spec c h) as [->|Hne].
    + apply mem_true in Hh. contradiction.
    + rewrite IH. now destruct (index_of c t).
  - destruct (String.eqb_spec c h) as [->|Hne]; [reflexivity|].
    destruct (index_of c (List.filter _ t)), (index_of c t); exact IH.
Qed.

Lemma index_of_app_r (c : string) (l1 l2 : list string) :
  ~ In c l1 ->
  index_of c (l1 ++ l2) = option_map (Nat.add (length l1)) (index_of c l2).
Proof.
  induction l1 as [|h t IH]; intros Hc.
  - cbn. now destruct (index_of c l2).
  - cbn [app index_of length].
    destruct (String.eqb_spec c h) as [->|Hne]; [exfalso; apply Hc; now left|].
    rewrite IH by (intros H; apply Hc; now right).
    now destruct (index_of c l2).
Qed.

Lemma index_of_map (f : string -> string) (l : list string) (c : string) :
  (forall x, In x l -> f x = f c -> x = c) ->
  index_of (f c) (map f l) = index_of c l.
Proof.
  induction l as [|h t IH]; intros Hinj; [reflexivity|].
  cbn [map index_of].
  destruct (String.eqb_spec c h) as [->|Hne].
  - now rewrite String.eqb_refl.
  - destruct (String.eqb_spec (f c) (f h)) as [E|_].
    + exfalso. apply Hne. symmetry. apply Hinj; [now left | now symmetry].
    + rewrite IH; [reflexivity|]. intros x Hx. apply Hinj. now right.
Qed.

Lemma joined_label_fresh (cols : list string) (c : string) :
  In c (non_key ["unique_id"; "ds"]%string cols) ->
  ~ In (joined_label c) series_columns.
Proof.
  intros [_ Hkey]%In_non_key. unfold joined_label.
  destruct (String.eqb_spec c "y") as [->|Hy].
  - intros [|[|[|[]]]]; discriminate.
  - intros [<-|[<-|[<-|[]]]]; [apply Hkey| apply Hkey | now apply Hy];
      simpl; auto.
Qed.

(** Under the label of a column of the answer, a joined row carries the
    cell its answer part has under that column. *)
Lemma joined_cell (r : Row) (rnk : list string) (extra : list Cell)
    (c : string) :
  In c rnk -> List.NoDup (map joined_label rnk) ->
  ~ In (joined_label c) series_columns ->
  row_get (series_columns ++ map joined_label rnk) (row_cells r ++ extra)
          (joined_label c)
  = row_get rnk extra c.
Proof.
  intros Hc Hnd Hfresh. unfold row_get.
  rewrite index_of_app_r by exact Hfresh.
  rewrite index_of_map.
  - now destruct (index_of c rnk).
  - intros x Hx E. now apply (NoDup_map_eq joined_label rnk).
Qed.

Lemma index_of_In (c : string) (cols : list string) :
  In c cols -> exists i, index_of c cols = Some i /\ nth_error cols i = Some c.
Proof.
  induction cols as [|h t IH]; [intros []|].
  simpl. destruct (String.eqb_spec c h) as [->|Hne].
  - intros _. exists 0%nat. split; reflexivity.
  - intros [E|Hin]; [congruence|].
    destruct (IH Hin) as (i & Hi & Hn). exists (S i).
    rewrite Hi. split; [reflexivity | exact Hn].
Qed.

Lemma row_get_Some (cols : list string) (row : list Cell) (c : string) :
  In c cols -> length row = length cols ->
  exists x, row_get cols row c = Some x.
Proof.
  intros (i & Hi & Hn)%index_of_In Hlen. unfold row_get. rewrite Hi.
  destruct (nth_error row i) as [x|] eqn:E; [eauto|].
  apply nth_error_None in E. assert (nth_error cols i <> None) by congruence.
  apply nth_error_Some in H. lia.
Qed.

Lemma row_get_missing (rnk : list string) (c : string) :
  In c rnk -> row_get rnk (map (fun _ => CNaN) rnk) c = Some CNaN.
Proof.
  intros (i & Hi & Hn)%index_of_In. unfold row_get. rewrite Hi.
  rewrite nth_error_map, Hn. reflexivity.
Qed.

(** A join that succeeds keeps the value column of the answer. *)
Lemma merge_keeps_answer_value (daily_sales : list Row)
    (anomalies_df merged_df : DataFrame) (how : How) :
  merge (to_frame daily_sales) anomalies_df ["unique_id"; "ds"]%string how
        (EmptyString, "_anomaly"%string) = Ok merged_df ->
  has_column "y" anomalies_df = true ->
  List.NoDup (columns anomalies_df) ->
  rectangular anomalies_df ->
  keeps_answer_value how daily_sales anomalies_df merged_df.
Proof.
  rewrite merge_series_unfold. cbn zeta.
  destruct (negb (_ && _)); [discriminate|].
  destruct (negb (_ && _)); [discriminate|].
  set (rnk := non_key ["unique_id"; "ds"]%string (columns anomalies_df)).
  destruct (new_duplicates rnk (map joined_label rnk)) eqn:Edup;
    [|discriminate].
  intros [= <-] Hy Hnd Hrect. cbn [columns data].
  assert (Hrnk : List.NoDup rnk) by now apply List.NoDup_filter.
  assert (Hlab : List.NoDup (map joined_label rnk)).
  { apply (new_duplicates_nil rnk); [exact Hrnk | apply length_map | exact Edup]. }
  assert (Hin : In "y"%string rnk).
  { apply In_non_key. split; [now apply mem_true|].
    intros [|[|[]]]; discriminate. }
  assert (Hval : forall (r : Row) extra,
             row_get (series_columns ++ map joined_label rnk)
                     (row_cells r ++ extra) "y" = Some (CNum (y r))).
  { intros r extra. reflexivity. }
  assert (Hcopy : forall (r : Row) extra,
             row_get (series_columns ++ map joined_label rnk)
                     (row_cells r ++ extra) "y_anomaly"
             = row_get rnk extra "y").
  { intros r extra.
    apply (joined_cell r rnk extra "y" Hin Hlab).
    now apply (joined_label_fresh (columns anomalies_df)). }
  assert (Hans : forall a, In a (data anomalies_df) ->
             exists c,
               row_get (columns anomalies_df) a "y" = Some c
               /\ row_get rnk (non_key_cells ["unique_id"; "ds"]%string
                                             (columns anomalies_df) a) "y"
                  = Some c).
  { intros a Ha. unfold rectangular in Hrect.
    rewrite List.Forall_forall in Hrect. specialize (Hrect a Ha).
    destruct (row_get_Some (columns anomalies_df) a "y") as [c Hc];
      [now apply mem_true | exact Hrect |].
    exists c. split; [exact Hc|]. unfold rnk.
    rewrite non_key_get; [exact Hc | exact Hrect |].
    intros [|[|[]]]; discriminate. }
  split.
  - intros row (lrow & (r & <- & Hr)%in_map_iff & Hrow)%in_flat_map.
    exists r. split; [exact Hr|].
    change (List.filter _ (data anomalies_df))
      with (answers anomalies_df r) in Hrow.
    destruct (answers anomalies_df r) as [|a0 ms] eqn:Ea.
    + destruct how; [|destruct Hrow]. destruct Hrow as [<-|[]].
      split; [apply Hval|]. right. split; [reflexivity|].
      split; [reflexivity|]. rewrite Hcopy. now apply row_get_missing.
    + apply (in_map_iff
               (fun rrow => row_cells r
                            ++ non_key_cells ["unique_id"; "ds"]%string
                                 (columns anomalies_df) rrow) (a0 :: ms))
        in Hrow as (a & <- & Ha).
      split; [apply Hval|]. left.
      assert (Hd : In a (data anomalies_df)).
      { rewrite <- Ea in Ha. unfold answers in Ha.
        now apply filter_In in Ha. }
      destruct (Hans a Hd) as (c & Hc1 & Hc2).
      exists a, c. split; [exact Ha|]. split; [exact Hc1|].
      now rewrite Hcopy.
  - intros r a Hr Ha.
    assert (Hd : In a (data anomalies_df)).
    { unfold answers in Ha. now apply filter_In in Ha. }
    destruct (Hans a Hd) as (c & Hc1 & Hc2).
    exists (row_cells r ++ non_key_cells ["unique_id"; "ds"]%string
                                         (columns anomalies_df) a), c.
    split; [|split; [apply Hval|split; [exact Hc1|now rewrite Hcopy]]].
    apply in_flat_map. exists (row_cells r). split; [now apply in_map|].
    change (List.filter _ (data anomalies_df)) with (answers anomalies_df r).
    destruct (answers anomalies_df r) as [|a0 ms]; [destruct Ha|].
    now apply (in_map
                 (fun rrow => row_cells r
                              ++ non_key_cells ["unique_id"; "ds"]%string
                                   (columns anomalies_df) rrow) (a0 :: ms)).
Qed.

(** C5.  Whatever the service answers, a join of a regularised series with
    the answer on (entity id, day) that succeeds keeps the value column of the
    series, in the script (outer-preserving) and in the dashboard (inner): the
    joined frame has a column [y] whose cell, in every row, is the value of
    the series row with the same key and never a missing value; the script
    keeps every row of the series.  When the answer has a value column of
    its own, that copy is the one that gets the suffix: the joined frame has
    a column [y_anomaly] and, for an answer with distinct labels and one cell
    per label, every joined row carries under it the value an answer row
    with the same key has under [y] (a missing value where the script keeps
    a series row that nothing matches), and no matching answer row is left
    out.  The promotion step of the script, on any frame in which [y] is
    missing and [y_anomaly] present, makes [y_anomaly] the column [y].
    Every step is a function of its inputs. *)
Theorem C5_join_keeps_value (daily_sales : list Row) (anomalies_df : DataFrame) :
  (forall merged_df,
     anomaly_detection.main_merged_df daily_sales anomalies_df = Ok merged_df ->
     keeps_series_value daily_sales merged_df
     /\ keeps_series_rows daily_sales merged_df
     /\ (has_column "y" anomalies_df = true ->
         has_column "y_anomaly" merged_df = true)
     /\ (has_column "y" anomalies_df = true ->
         List.NoDup (columns anomalies_df) -> rectangular anomalies_df ->
         keeps_answer_value how_left daily_sales anomalies_df merged_df))
  /\ (forall merged_df,
        app.main_merged_df daily_sales anomalies_df = Ok merged_df ->
        keeps_series_value daily_sales merged_df
        /\ (has_column "y" anomalies_df = true ->
            has_column "y_anomaly" merged_df = true)
        /\ (has_column "y" anomalies_df = true ->
            List.NoDup (columns anomalies_df) -> rectangular anomalies_df ->
            keeps_answer_value how_inner daily_sales anomalies_df merged_df))
  /\ (forall df,
        has_column "y" df = false -> has_column "y_anomaly" df = true ->
        has_column "y" (anomaly_detection.promote_y df) = true
        /\ data (anomaly_detection.promote_y df) = data df
        /\ forall row,
             row_get (columns (anomaly_detection.promote_y df)) row "y"
             = row_get (columns df) row "y_anomaly").
Proof.
  split; [|split].
  - intros merged_df. unfold anomaly_detection.main_merged_df.
    destruct (merge _ _ _ _ _) as [m|] eqn:E; [|discriminate].
    simpl. intros [= <-].
    destruct (merge_series_keeps _ _ _ _ E) as ([Hy Hv] & Hr & Hs).
    rewrite (promote_y_id m Hy).
    split; [now split|]. split; [now apply Hr|]. split; [exact Hs|].
    now apply merge_keeps_answer_value.
  - intros merged_df E.
    destruct (merge_series_keeps _ _ _ _ E) as (Hv & _ & Hs).
    split; [exact Hv|]. split; [exact Hs|].
    now apply merge_keeps_answer_value.
  - apply promote_y_promotes.
Qed.

Lemma C5_join_keeps_value_witness :
  (exists merged_df,
     anomaly_detection.main_merged_df regular_A answer_without_y = Ok merged_df
     /\ keeps_series_value regular_A merged_df
     /\ keeps_series_rows regular_A merged_df)
  /\ (exists merged_df,
        anomaly_detection.main_merged_df regular_A answer_with_y = Ok merged_df
        /\ has_column "y_anomaly" merged_df = true
        /\ keeps_answer_value how_left regular_A answer_with_y merged_df)
  /\ (exists merged_df,
        app.main_merged_df regular_A answer_with_y = Ok merged_df
        /\ keeps_answer_value how_inner regular_A answer_with_y merged_df)
  /\ row_get (columns (anomaly_detection.promote_y frame_without_y))
             [CTime (pd.to_datetime D1); CStr "A"; CNum 26] "y"
     = Some (CNum 26).
Proof.
  assert (Hnd : List.NoDup (columns answer_with_y)).
  { repeat (constructor; [simpl; intuition discriminate|]). constructor. }
  assert (Hrect : rectangular answer_with_y).
  { repeat constructor. }
  split; [|split; [|split]].
  - destruct (anomaly_detection.main_merged_df regular_A answer_without_y)
      as [merged_df|] eqn:E; [|vm_compute in E; discriminate].
    exists merged_df. split; [reflexivity|].
    destruct (proj1 (C5_join_keeps_value regular_A answer_without_y)
                merged_df E) as (Hv & Hr & _).
    split; assumption.
  - destruct (anomaly_detection.main_merged_df regular_A answer_with_y)
      as [merged_df|] eqn:E; [|vm_compute in E; discriminate].
    exists merged_df. split; [reflexivity|].
    destruct (proj1 (C5_join_keeps_value regular_A answer_with_y)
                merged_df E) as (_ & _ & Hs & Ha).
    split; [now apply Hs | now apply Ha].
  - destruct (app.main_merged_df regular_A answer_with_y)
      as [merged_df|] eqn:E; [|vm_compute in E; discriminate].
    exists merged_df. split; [reflexivity|].
    destruct (proj1 (proj2 (C5_join_keeps_value regular_A answer_with_y))
                merged_df E) as (_ & _ & Ha).
    now apply Ha.
  - destruct (proj2 (proj2 (C5_join_keeps_value regular_A answer_with_y))
                frame_without_y eq_refl eq_refl) as (_ & _ & H).
    rewrite H. reflexivity.
Defined.

(** X11.  What a join of the series with an answer whose column labels are
    all different comes to, in the script and in the dashboard alike: a
    [KeyError] when the answer lacks the entity id or the timestamp column
    (as the empty frame does); a [ValueError], for a series with rows, when
    a row of the answer has a text under [ds] or when the answer has rows
    and they all have a number under [unique_id]; and, for a series with
    rows and an answer all of whose rows have a text under [unique_id] and a
    timestamp under [ds], a [MergeError] when the answer has both a column
    [y] and a column [y_anomaly], and
    otherwise a frame whose labels are those of the series followed by the
    other labels of the answer in their order, [y] renamed to [y_anomaly],
    all different, and whose rows have one cell per label when those of the
    answer have. *)
Theorem X11_join_outcome (daily_sales : list Row) (anomalies_df : DataFrame)
    (how : How) :
  List.NoDup (columns anomalies_df) ->
  let joined :=
    merge (to_frame daily_sales) anomalies_df ["unique_id"; "ds"]%string how
          (EmptyString, "_anomaly"%string) in
  (has_column "unique_id" anomalies_df && has_column "ds" anomalies_df = false ->
   joined = Raise (KeyError "merge key"))
  /\ (has_column "unique_id" anomalies_df = true ->
      has_column "ds" anomalies_df = true ->
      daily_sales <> [] ->
      (exists row s,
         In row (data anomalies_df)
         /\ row_get (columns anomalies_df) row "ds" = Some (CStr s))
      \/ (data anomalies_df <> []
          /\ Forall (fun row => exists q,
                       row_get (columns anomalies_df) row "unique_id"
                       = Some (CNum q))
                    (data anomalies_df)) ->
      joined
      = Raise (ValueError
                 "You are trying to merge on columns of different dtypes"))
  /\ (has_column "unique_id" anomalies_df = true ->
      has_column "ds" anomalies_df = true ->
      daily_sales <> [] ->
      keys_typed anomalies_df ->
      has_column "y" anomalies_df = true ->
      has_column "y_anomaly" anomalies_df = true ->
      joined
      = Raise (MergeError "Passing 'suffixes' which cause duplicate columns"))
  /\ (has_column "unique_id" anomalies_df = true ->
      has_column "ds" anomalies_df = true ->
      daily_sales <> [] ->
      keys_typed anomalies_df ->
      has_column "y" anomalies_df && has_column "y_anomaly" anomalies_df
      = false ->
      exists merged_df,
        joined = Ok merged_df
        /\ columns merged_df
           = series_columns
             ++ map joined_label
                    (non_key ["unique_id"; "ds"]%string (columns anomalies_df))
        /\ List.NoDup (columns merged_df)
        /\ (rectangular anomalies_df -> rectangular merged_df)).
Proof.
  intros Hnd joined.
  set (rnk := non_key ["unique_id"; "ds"]%string (columns anomalies_df)).
  assert (Hrnk : List.NoDup rnk) by now apply List.NoDup_filter.
  assert (Hlen : length (map joined_label rnk) = length rnk)
    by apply length_map.
  unfold joined. rewrite merge_series_unfold. cbn zeta. fold rnk.
  split; [|split; [|split]].
  - intros H. now rewrite H.
  - intros Hu Hd Hne Hbad. rewrite Hu, Hd. cbn [andb negb].
    assert (E : merge_keys_compatible
                  (column_cells (to_frame daily_sales) "unique_id")
                  (column_cells anomalies_df "unique_id")
                && merge_keys_compatible
                     (column_cells (to_frame daily_sales) "ds")
                     (column_cells anomalies_df "ds") = false).
    { destruct Hbad as [(row & s & Hin & Hrow) | [Hrows Hall]].
      - rewrite (text_ds_incompatible _ _ _ _ Hne Hin Hrow).
        apply andb_false_r.
      - now rewrite (number_id_incompatible _ _ Hne Hrows Hall). }
    now rewrite E.
  - intros Hu Hd _ Hk Hy Hya. rewrite Hu, Hd. cbn [andb negb].
    rewrite (keys_typed_compatible daily_sales anomalies_df Hk). cbn [negb].
    destruct (new_duplicates rnk (map joined_label rnk)) eqn:E; [|reflexivity].
    exfalso. apply (new_duplicates_nil rnk _ Hrnk Hlen) in E.
    assert (Hin : forall c, In c ["y"; "y_anomaly"]%string -> In c rnk).
    { intros c Hc. apply In_non_key. split.
      - destruct Hc as [<-|[<-|[]]]; now apply mem_true.
      - destruct Hc as [<-|[<-|[]]]; intros [|[|[]]]; discriminate. }
    assert (Heq : "y"%string = "y_anomaly"%string).
    { apply (NoDup_map_eq joined_label rnk); [exact E| | |reflexivity];
        apply Hin; simpl; auto. }
    discriminate.
  - intros Hu Hd _ Hk Hy. rewrite Hu, Hd. cbn [andb negb].
    rewrite (keys_typed_compatible daily_sales anomalies_df Hk). cbn [negb].
    assert (Hboth : ~ (In "y"%string rnk /\ In "y_anomaly"%string rnk)).
    { intros [[H1 _]%In_non_key [H2 _]%In_non_key].
      apply mem_true in H1, H2. unfold has_column in Hy.
      rewrite H1, H2 in Hy. discriminate. }
    assert (Hlab : List.NoDup (map joined_label rnk)).
    { apply NoDup_map_NoDup_ForallPairs; [|exact Hrnk].
      intros a b Ha Hb. unfold joined_label.
      destruct (String.eqb_spec a "y") as [->|Hay],
               (String.eqb_spec b "y") as [->|Hby]; auto.
      - intros <-. exfalso. now apply Hboth.
      - intros ->. exfalso. now apply Hboth. }
    rewrite (proj2 (new_duplicates_nil rnk _ Hrnk Hlen) Hlab).
    eexists. split; [reflexivity|]. cbn [columns data].
    split; [reflexivity|]. split.
    + assert (Hout : forall c, In c (map joined_label rnk) ->
                               ~ In c series_columns).
      { intros c (x & <- & Hx)%in_map_iff.
        now apply (joined_label_fresh (columns anomalies_df)). }
      unfold series_columns. cbn [app].
      constructor; [|constructor; [|constructor; [|exact Hlab]]].
      * intros [|[|Hc]]; try discriminate. apply (Hout _ Hc). simpl. tauto.
      * intros [|Hc]; try discriminate. apply (Hout _ Hc). simpl. tauto.
      * intros Hc. apply (Hout _ Hc). simpl. tauto.
    + intros Hrect. unfold rectangular in *. cbn [columns data].
      rewrite List.Forall_forall in *. intros row.
      intros (lrow & (r & <- & _)%in_map_iff & Hrow)%in_flat_map.
      rewrite length_app, length_map. fold rnk.
      destruct (List.filter _ (data anomalies_df)) as [|a ms] eqn:Ef.
      * destruct how; [|destruct Hrow].
        destruct Hrow as [<-|[]]. now rewrite length_app, length_map.
      * apply in_map_iff in Hrow as (rrow & <- & Hin).
        rewrite length_app, length_non_key_cells; [reflexivity|].
        apply Hrect. rewrite <- Ef in Hin. now apply filter_In in Hin.
Qed.

Lemma X11_join_outcome_witness :
  merge (to_frame regular_A) empty_frame ["unique_id"; "ds"]%string how_inner
        (EmptyString, "_anomaly"%string)
  = Raise (KeyError "merge key")
  /\ merge (to_frame regular_A) answer_text_ds ["unique_id"; "ds"]%string
           how_left (EmptyString, "_anomaly"%string)
     = Raise (ValueError
                "You are trying to merge on columns of different dtypes")
  /\ merge (to_frame regular_A) answer_number_id ["unique_id"; "ds"]%string
           how_inner (EmptyString, "_anomaly"%string)
     = Raise (ValueError
                "You are trying to merge on columns of different dtypes")
  /\ merge (to_frame regular_A) answer_two_values ["unique_id"; "ds"]%string
           how_left (EmptyString, "_anomaly"%string)
     = Raise (MergeError "Passing 'suffixes' which cause duplicate columns")
  /\ exists merged_df,
       merge (to_frame regular_A) answer_with_y ["unique_id"; "ds"]%string
             how_inner (EmptyString, "_anomaly"%string) = Ok merged_df
       /\ columns merged_df
          = ["ds"; "unique_id"; "y"; "y_anomaly"; "anomaly"]%string.
Proof.
  split; [|split; [|split; [|split]]].
  - apply (X11_join_outcome regular_A empty_frame how_inner); [constructor|].
    reflexivity.
  - apply (X11_join_outcome regular_A answer_text_ds how_left);
      try reflexivity; try discriminate.
    + repeat (constructor; [simpl; intuition discriminate|]). constructor.
    + left. eexists _, _. split; [now left | reflexivity].
  - apply (X11_join_outcome regular_A answer_number_id how_inner);
      try reflexivity; try discriminate.
    + repeat (constructor; [simpl; intuition discriminate|]). constructor.
    + right. split; [discriminate|]. repeat constructor. eexists. reflexivity.
  - apply (X11_join_outcome regular_A answer_two_values how_left);
      try reflexivity; try discriminate.
    + repeat (constructor; [simpl; intuition discriminate|]). constructor.
    + repeat constructor; eexists; reflexivity.
  - destruct (proj2 (proj2 (proj2
                (X11_join_outcome regular_A answer_with_y how_inner
                   ltac:(repeat (constructor; [simpl; intuition discriminate|]);
                         constructor))))
                eq_refl eq_refl ltac:(discriminate)
                ltac:(repeat constructor; eexists; reflexivity)
                eq_refl) as (merged_df & E & Hc & _).
    exists merged_df. split; [exact E | exact Hc].
Defined.

(** X12.  The promotion step of the script never fires on the frame it is
    given: a join of the series that succeeds always has the column [y] of
    the series, so the script's joined frame is the join itself, and on an
    answer on which the join raises the script raises the same. *)
Theorem X12_promotion_never_fires (daily_sales : list Row)
    (anomalies_df : DataFrame) :
  anomaly_detection.main_merged_df daily_sales anomalies_df
  = merge (to_frame daily_sales) anomalies_df ["unique_id"; "ds"]%string
          how_left (EmptyString, "_anomaly"%string).
Proof.
  unfold anomaly_detection.main_merged_df.
  destruct (merge _ _ _ _ _) as [merged_df|e] eqn:E; [|reflexivity].
  apply merge_series_keeps in E as [[Hy _] _]. simpl.
  unfold anomaly_detection.promote_y. now rewrite Hy.
Qed.

(** ** The insight cards and the figures of the page *)

(** X13.  The classifier on floats, missing values included.  A row is a
    Spike exactly when its value and its upper bound are both numbers and the
    value is the larger; a row whose value is missing is a Dip of magnitude
    0, whatever the bounds.  A Spike over a positive upper bound has a
    magnitude above 1.  A Dip is anything else: with a positive value below
    the lower bound its magnitude is above 1, but a positive value that is
    not below the lower bound is a Dip all the same, of magnitude at most 1
    when the lower bound is a number. *)
Theorem X13_classifier_edges (actual upper_bound lower_bound : app.float) :
  (fst (app.classify actual upper_bound lower_bound) = app.Spike
   <-> exists a u, actual = Some a /\ upper_bound = Some u /\ (u < a)%Q)
  /\ (actual = None ->
      app.classify actual upper_bound lower_bound = (app.Dip, Some 0%Q))
  /\ (forall a u, actual = Some a -> upper_bound = Some u ->
        (u < a)%Q -> (0 < u)%Q ->
        exists m, snd (app.classify actual upper_bound lower_bound) = Some m
                  /\ (1 < m)%Q)
  /\ (forall a l, actual = Some a -> lower_bound = Some l ->
        fst (app.classify actual upper_bound lower_bound) = app.Dip ->
        (0 < a)%Q ->
        exists m, snd (app.classify actual upper_bound lower_bound) = Some m
                  /\ ((a < l)%Q -> (1 < m)%Q)
                  /\ ((l <= a)%Q -> (m <= 1)%Q)).
Proof.
  unfold app.classify. split; [|split; [|split]].
  - destruct actual as [a|], upper_bound as [u|]; simpl;
      try (split; [discriminate | intros (? & ? & ? & ? & ?); discriminate]).
    destruct (app.Qgtb a u) eqn:E; simpl.
    + split; [|reflexivity]. intros _. exists a, u.
      repeat split. now apply Qgtb_true.
    + split; [discriminate|]. intros (a' & u' & [= <-] & [= <-] & H).
      apply Qgtb_true in H. congruence.
  - intros ->. reflexivity.
  - intros a u -> -> Hua Hu. simpl.
    rewrite (proj2 (Qgtb_true _ _) Hua), (proj2 (Qgtb_true _ _) Hu). simpl.
    eexists. split; [reflexivity|].
    apply Qlt_shift_div_l; [exact Hu|]. now rewrite Qmult_1_l.
  - intros a l -> -> Hdip Ha.
    assert (E : app.fgt (Some a) upper_bound = false).
    { destruct (app.fgt (Some a) upper_bound); [discriminate|reflexivity]. }
    rewrite E. simpl. rewrite (proj2 (Qgtb_true _ _) Ha). simpl.
    eexists. split; [reflexivity|]. split; intros H.
    + apply Qlt_shift_div_l; [exact Ha|]. now rewrite Qmult_1_l.
    + apply Qle_shift_div_r; [exact Ha|]. now rewrite Qmult_1_l.
Qed.

Lemma X13_classifier_edges_witness :
  exists m, snd (app.classify (Some 150%Q) (Some 100%Q) None) = Some m
            /\ (1 < m)%Q.
Proof.
  destruct (X13_classifier_edges (Some 150%Q) (Some 100%Q) None)
    as (_ & _ & H & _).
  apply (H 150%Q 100%Q); reflexivity.
Defined.

Lemma somes_nones {A B : Type} (l : list B) :
  app.somes (map (fun _ => @None A) l) = [].
Proof. induction l; simpl; auto. Qed.

Lemma mapM_const {A B : Type} (f : A -> result B) (b : B) (l : list A) :
  (forall a, In a l -> f a = Ok b) -> mapM f l = Ok (map (fun _ => b) l).
Proof.
  induction l as [|a l IH]; intros H; [reflexivity|].
  simpl. rewrite (H a) by now left. simpl.
  rewrite IH by (intros; apply H; now right). reflexivity.
Qed.

(** X14.  On a joined frame in which no column label contains [hi], or none
    contains [lo] (upper and lower case alike), the loop over the flagged
    rows skips every row: whatever the rows hold it raises nothing of its
    own, and a section that runs to its end shows no card at all, under its
    heading when a row is flagged. *)
Theorem X14_no_bound_columns (merged_df : DataFrame) (panel : app.Panel) :
  List.filter (fun c => contains "hi" (lower c)) (columns merged_df) = []
  \/ List.filter (fun c => contains "lo" (lower c)) (columns merged_df) = [] ->
  (forall row, app.insight_card (columns merged_df) row = Ok None)
  /\ (app.insight_panel merged_df = Ok panel ->
      panel = app.no_anomalies \/ exists info, panel = app.insights [] info).
Proof.
  intros Hcols.
  assert (Hcard : forall row,
             app.insight_card (columns merged_df) row = Ok None).
  { intros row. unfold app.insight_card.
    destruct Hcols as [-> | ->]; [reflexivity|].
    now destruct (List.filter _ (columns merged_df)). }
  split; [exact Hcard|]. unfold app.insight_panel.
  destruct (app.column merged_df "anomaly" ≫= app.cells_sum) as [total|];
    [|discriminate].
  simpl. destruct (app.Qgtb total 0); [|intros [= <-]; now left].
  destruct (app.anomalous_data merged_df) as [rows|]; [|discriminate].
  simpl. rewrite (mapM_const _ None) by (intros; apply Hcard).
  simpl. rewrite somes_nones. intros [= <-]. right. eauto.
Qed.

Lemma X14_no_bound_columns_witness :
  app.insight_card series_columns (row_cells (mkRow (pd.to_datetime D1) "A" 25))
  = Ok None.
Proof.
  apply (X14_no_bound_columns (to_frame regular_A) app.no_anomalies).
  left. reflexivity.
Defined.

Lemma inject_succ (n : nat) :
  (inject_Z (Z.of_nat (S n)) == 1 + inject_Z (Z.of_nat n))%Q.
Proof.
  rewrite Nat2Z.inj_succ. unfold Z.succ. rewrite inject_Z_plus. ring.
Qed.

Lemma mapM_cons_Ok {A B : Type} (f : A -> result B) (a : A) (l : list A)
    (b : B) (bs : list B) :
  f a = Ok b -> mapM f l = Ok bs -> mapM f (a :: l) = Ok (b :: bs).
Proof.
  intros Ha Hl. change (mapM f (a :: l))
    with (f a ≫= fun y => mapM f l ≫= fun k => mret (y :: k)).
  rewrite Ha, Hl. reflexivity.
Qed.

Lemma flags_counted (cols : list string) (rows : list (list Cell)) :
  Forall (fun row => exists c, row_get cols row "anomaly" = Some c
                               /\ is_flag_or_missing c) rows ->
  exists flags fs,
    mapM (fun row => app.getitem cols row "anomaly") rows = Ok flags
    /\ mapM app.as_float flags = Ok fs
    /\ (fold_right Qplus 0 (map (fun f : app.float => fillna0 f) fs)
        == inject_Z (Z.of_nat (length (List.filter (row_flagged cols) rows))))%Q.
Proof.
  induction 1 as [|row rows (c & Hrow & Hc) _ (flags & fs & Hf & Hs & IH)].
  - exists [], []. repeat split; reflexivity.
  - assert (Hfl : exists f, app.as_float c = Ok f
                   /\ (fillna0 f == if app.is_one c then 1 else 0)%Q).
    { destruct c as [t|s|q|b|]; simpl in Hc; try contradiction.
      - exists (Some q). split; [reflexivity|]. simpl.
        destruct Hc as [H|H]; rewrite H; reflexivity.
      - exists (Some (if b then 1%Q else 0%Q)). split; [reflexivity|].
        simpl. destruct b; reflexivity.
      - exists None. split; reflexivity. }
    destruct Hfl as (f & Hf1 & Hf2).
    exists (c :: flags), (f :: fs). split; [|split].
    + apply mapM_cons_Ok; [|exact Hf]. unfold app.getitem. now rewrite Hrow.
    + now apply mapM_cons_Ok.
    + cbn [map fold_right List.filter]. unfold row_flagged at 1.
      rewrite Hrow, Hf2, IH.
      destruct (app.is_one c); cbn [length].
      * now rewrite inject_succ.
      * apply Qplus_0_l.
Qed.

(** X15.  The figure shown as detected anomalies, in the script's report and
    on the page: on a joined frame whose [anomaly] column holds flags
    (booleans, or the numbers 0 and 1) or missing values, as a join that
    keeps unanswered rows leaves them, the sum of the column is the number of
    flagged rows; missing values count for nothing and raise nothing. *)
Theorem X15_anomalies_counted (merged_df : DataFrame) :
  has_column "anomaly" merged_df = true ->
  Forall (fun row => exists c,
            row_get (columns merged_df) row "anomaly" = Some c
            /\ is_flag_or_missing c)
         (data merged_df) ->
  exists n,
    app.total_anomalies merged_df = Ok n
    /\ (n == inject_Z (Z.of_nat (length (flagged_rows merged_df))))%Q.
Proof.
  intros Hcol (flags & fs & Hf & Hs & Hsum)%flags_counted.
  unfold app.total_anomalies, app.column. rewrite Hcol, Hf. simpl.
  unfold app.cells_sum. rewrite Hs. simpl. eexists. split; [reflexivity|].
  rewrite series_sum_fold_right. exact Hsum.
Qed.

Lemma X15_anomalies_counted_witness :
  exists n, app.total_anomalies seven_flagged = Ok n /\ (n == 7)%Q.
Proof.
  apply (X15_anomalies_counted seven_flagged); [reflexivity|].
  repeat (constructor; [eexists; split; [reflexivity | exact I]|]).
  constructor.
Defined.

(** ** The sidebar: the columns proposed *)

(** X16.  The column proposed for a role.  The first known name is taken
    when the table has it, the second when the table has it and not the
    first, and the column at the fixed position otherwise.  What is proposed
    is always a column of the table, so looking up its index cannot fail and
    leads back to it; and there is nothing to propose, the index being out of
    range, exactly when the table has neither name and too few columns. *)
Theorem X16_default_column (first second : string) (position : nat)
    (cols : list string) :
  (In first cols ->
   app.default_column first second position cols = Some first)
  /\ (~ In first cols -> In second cols ->
      app.default_column first second position cols = Some second)
  /\ (~ In first cols -> ~ In second cols ->
      app.default_column first second position cols
      = nth_error cols position)
  /\ (forall c, app.default_column first second position cols = Some c ->
        exists i, index_of c cols = Some i /\ nth_error cols i = Some c)
  /\ (app.default_column first second position cols = None
      <-> ~ In first cols /\ ~ In second cols
          /\ (length cols <= position)%nat).
Proof.
  unfold app.default_column.
  destruct (mem first cols) eqn:E1; [|destruct (mem second cols) eqn:E2].
  - apply mem_true in E1. split; [|split; [|split; [|split]]]; try tauto.
    + intros c [= <-]. now apply index_of_In.
    + split; [discriminate | tauto].
  - apply mem_false in E1. apply mem_true in E2.
    split; [|split; [|split; [|split]]]; try tauto.
    + intros c [= <-]. now apply index_of_In.
    + split; [discriminate | tauto].
  - apply mem_false in E1, E2.
    split; [|split; [|split; [|split]]]; try tauto.
    + intros c Hc. apply index_of_In. eapply nth_error_In, Hc.
    + rewrite nth_error_None. tauto.
Qed.

(** ** The business tips *)

Lemma lower_char_idem (c : ascii) : lower_char (lower_char c) = lower_char c.
Proof. destruct c as [[] [] [] [] [] [] [] []]; reflexivity. Qed.

Lemma lower_idem (s : string) : lower (lower s) = lower s.
Proof.
  induction s as [|c s IH]; simpl; [reflexivity|].
  now rewrite lower_char_idem, IH.
Qed.

Lemma lower_app (a b : string) :
  lower (String.append a b) = String.append (lower a) (lower b).
Proof.
  induction a as [|c a IH]; simpl; [reflexivity | now rewrite IH].
Qed.

Lemma prefix_app (sub post : string) :
  String.prefix sub (String.append sub post) = true.
Proof.
  induction sub as [|c sub IH]; simpl; [now destruct post|].
  destruct (Ascii.ascii_dec c c); [exact IH | contradiction].
Qed.

Lemma contains_app (sub pre post : string) :
  contains sub (String.append pre (String.append sub post)) = true.
Proof.
  induction pre as [|c pre IH].
  - change (String.append EmptyString (String.append sub post))
      with (String.append sub post).
    pose proof (prefix_app sub post) as H.
    destruct (String.append sub post); cbn [contains]; now rewrite H.
  - change (String.append (String c pre) (String.append sub post))
      with (String c (String.append pre (String.append sub post))).
    cbn [contains]. rewrite IH. apply orb_true_r.
Qed.

Lemma prefix_inv (sub s : string) :
  String.prefix sub s = true -> exists post, s = String.append sub post.
Proof.
  revert s. induction sub as [|c sub IH]; intros s; [intros _; now exists s|].
  destruct s as [|d s]; [discriminate|]. cbn [String.prefix].
  destruct (Ascii.ascii_dec c d) as [->|]; [|discriminate].
  intros [post ->]%IH. now exists post.
Qed.

Lemma contains_inv (sub s : string) :
  contains sub s = true ->
  exists pre post, s = String.append pre (String.append sub post).
Proof.
  induction s as [|c s IH].
  - cbn [contains]. rewrite orb_false_r. intros [post E]%prefix_inv.
    exists EmptyString, post. exact E.
  - cbn [contains]. intros [H|H]%orb_true_iff.
    + apply prefix_inv in H as [post E]. exists EmptyString, post. exact E.
    + destruct (IH H) as (pre & post & ->). now exists (String c pre), post.
Qed.

Lemma lower_app_inv (s a b : string) :
  lower s = String.append a b ->
  exists a' b', s = String.append a' b' /\ lower a' = a /\ lower b' = b.
Proof.
  revert s. induction a as [|c a IH]; intros s E.
  - exists EmptyString, s. repeat split. exact E.
  - destruct s as [|d s]; [discriminate|].
    change (String (lower_char d) (lower s) = String c (String.append a b)) in E.
    injection E as Hc E. destruct (IH s E) as (a' & b' & -> & <- & <-).
    exists (String d a'), b'. repeat split. cbn [lower]. now rewrite Hc.
Qed.

(** [word in category.lower()] is the occurrence of the word, in any case. *)
Lemma contains_mentions (word category : string) :
  contains word (lower category) = true <-> mentions word category.
Proof.
  unfold mentions. split.
  - intros (pre & post & E)%contains_inv.
    apply lower_app_inv in E as (pre' & rest & -> & <- & E).
    apply lower_app_inv in E as (w & post' & -> & <- & <-).
    now exists pre', w, post'.
  - intros (pre & w & post & -> & <-). rewrite !lower_app. apply contains_app.
Qed.

(** X17.  The tip for a category, by the words that occur in it, in upper
    or lower case.  A category in which [beauty] or [cosmetic] occurs gets
    the first pair of tips whatever else it names; one in which neither
    occurs and [electronic] or [tech] does gets the second pair; one in which
    none of these occurs and [clothing] or [fashion] does gets the third
    pair; any other category gets the generic pair.  The tip is the same for
    a category and for its lower-case form.  Any direction other than the
    text [Spike] is read as a dip.  The magnitude shows in the generic tip
    for a spike and in no other. *)
Theorem X17_business_tip (category : string) (d : app.Direction)
    (magnitude : app.float) :
  let tip := app.get_business_tip category (app.direction_name d) magnitude in
  let first := mentions "beauty" category \/ mentions "cosmetic" category in
  let second := mentions "electronic" category \/ mentions "tech" category in
  let third := mentions "clothing" category \/ mentions "fashion" category in
  (first ->
   tip = match d with
         | app.Spike => app.viral_trend
         | app.Dip => app.stock_out
         end)
  /\ (~ first -> second ->
      tip = match d with
            | app.Spike => app.product_launch
            | app.Dip => app.supply_chain_delay
            end)
  /\ (~ first -> ~ second -> third ->
      tip = match d with
            | app.Spike => app.seasonal_shift
            | app.Dip => app.out_of_season
            end)
  /\ (~ first -> ~ second -> ~ third ->
      tip = match d with
            | app.Spike => app.unusual_growth magnitude
            | app.Dip => app.sales_dropped
            end)
  /\ app.get_business_tip (lower category) (app.direction_name d) magnitude
     = tip
  /\ (forall direction, direction <> "Spike"%string ->
        app.get_business_tip category direction magnitude
        = app.get_business_tip category "Dip" magnitude)
  /\ (forall other,
        app.get_business_tip category (app.direction_name d) other = tip
        \/ (tip = app.unusual_growth magnitude
            /\ app.get_business_tip category (app.direction_name d) other
               = app.unusual_growth other)).
Proof.
  cbn zeta. unfold app.get_business_tip.
  assert (H1 : contains "beauty" (lower category)
               || contains "cosmetic" (lower category) = true
               <-> mentions "beauty" category \/ mentions "cosmetic" category).
  { now rewrite orb_true_iff, !contains_mentions. }
  assert (H2 : contains "electronic" (lower category)
               || contains "tech" (lower category) = true
               <-> mentions "electronic" category \/ mentions "tech" category).
  { now rewrite orb_true_iff, !contains_mentions. }
  assert (H3 : contains "clothing" (lower category)
               || contains "fashion" (lower category) = true
               <-> mentions "clothing" category \/ mentions "fashion" category).
  { now rewrite orb_true_iff, !contains_mentions. }
  rewrite lower_idem.
  destruct (contains "beauty" (lower category)
            || contains "cosmetic" (lower category)) eqn:E1;
    [|destruct (contains "electronic" (lower category)
                || contains "tech" (lower category)) eqn:E2;
      [|destruct (contains "clothing" (lower category)
                  || contains "fashion" (lower category)) eqn:E3]].
  - assert (F : mentions "beauty" category \/ mentions "cosmetic" category)
      by now apply H1.
    split; [intros _; now destruct d|]. split; [tauto|]. split; [tauto|].
    split; [tauto|]. split; [reflexivity|]. split.
    + intros direction Hne.
      now destruct (String.eqb_spec direction "Spike").
    + intros other. now left.
  - assert (F1 : ~ (mentions "beauty" category \/ mentions "cosmetic" category))
      by (intros F%H1; discriminate).
    assert (F2 : mentions "electronic" category \/ mentions "tech" category)
      by now apply H2.
    split; [tauto|]. split; [intros _ _; now destruct d|]. split; [tauto|].
    split; [tauto|]. split; [reflexivity|]. split.
    + intros direction Hne.
      now destruct (String.eqb_spec direction "Spike").
    + intros other. now left.
  - assert (F1 : ~ (mentions "beauty" category \/ mentions "cosmetic" category))
      by (intros F%H1; discriminate).
    assert (F2 : ~ (mentions "electronic" category \/ mentions "tech" category))
      by (intros F%H2; discriminate).
    assert (F3 : mentions "clothing" category \/ mentions "fashion" category)
      by now apply H3.
    split; [tauto|]. split; [tauto|]. split; [intros _ _ _; now destruct d|].
    split; [tauto|]. split; [reflexivity|]. split.
    + intros direction Hne.
      now destruct (String.eqb_spec direction "Spike").
    + intros other. now left.
  - assert (F1 : ~ (mentions "beauty" category \/ mentions "cosmetic" category))
      by (intros F%H1; discriminate).
    assert (F2 : ~ (mentions "electronic" category \/ mentions "tech" category))
      by (intros F%H2; discriminate).
    assert (F3 : ~ (mentions "clothing" category \/ mentions "fashion" category))
      by (intros F%H3; discriminate).
    split; [tauto|]. split; [tauto|]. split; [tauto|].
    split; [intros _ _ _; now destruct d|]. split; [reflexivity|]. split.
    + intros direction Hne.
      now destruct (String.eqb_spec direction "Spike").
    + intros other. destruct d; [right; split; reflexivity | now left].
Qed.

Lemma X17_business_tip_witness :
  app.get_business_tip "Beauty Tech" "Spike" None = app.viral_trend
  /\ app.get_business_tip "High Tech" "Dip" None = app.supply_chain_delay.
Proof.
  split.
  - apply (proj1 (X17_business_tip "Beauty Tech" app.Spike None)).
    left. exists EmptyString, "Beauty"%string, " Tech"%string.
    split; reflexivity.
  - apply (proj1 (proj2 (X17_business_tip "High Tech" app.Dip None))).
    + intros [H|H]; apply contains_mentions in H; discriminate.
    + right. exists "High "%string, "Tech"%string, EmptyString.
      split; reflexivity.
Defined.

(** ** The summary report of the script *)

Lemma where_combine (cols : list string) (c : string) (p : Cell -> bool)
    (rows : list (list Cell)) (cells : list Cell) :
  Forall2 (fun row cell => row_get cols row c = Some cell) rows cells ->
  map fst (List.filter (fun q => p (snd q)) (combine rows cells))
  = List.filter (fun row => match row_get cols row c with
                            | Some x => p x
                            | None => false
                            end) rows.
Proof.
  induction 1 as [|row cell rows cells H _ IH]; simpl; [reflexivity|].
  rewrite H. destruct (p cell); simpl; now rewrite IH.
Qed.

Lemma filter_filter {A : Type} (f g : A -> bool) (l : list A) :
  List.filter g (List.filter f l) = List.filter (fun x => f x && g x) l.
Proof.
  induction l as [|a l IH]; simpl; [reflexivity|].
  destruct (f a); simpl; [destruct (g a)|]; now rewrite IH.
Qed.

Lemma StronglySorted_Forall {A : Type} (R : A -> A -> Prop) (P : A -> Prop)
    (l : list A) :
  StronglySorted R l -> Forall P l ->
  StronglySorted (fun a b => R a b /\ P a /\ P b) l.
Proof.
  induction 1 as [|a l Hs IH Hd]; [constructor|].
  intros [Ha Hl]%Forall_cons_iff. constructor; [now apply IH|].
  rewrite List.Forall_forall in *. intros b Hb. auto.
Qed.

Lemma float_ge_trans (a b c : app.float) :
  float_ge a b -> float_ge b c -> float_ge a c.
Proof.
  destruct a as [p|], b as [q|], c as [r|]; simpl; try tauto.
  intros H1 H2. now apply (Qle_trans _ q).
Qed.

Lemma y_descending_sorted (keyed : list (app.float * list Cell)) :
  StronglySorted keyed_ge (pd.sort_by report.y_descending keyed).
Proof.
  apply sort_by_sorted; unfold keyed_ge, report.y_descending.
  - intros [[p|] ?] [[q|] ?]; simpl; try tauto; try congruence;
      intros H; now apply Qle_alt.
  - intros [[p|] ?] [[q|] ?]; simpl; try tauto; try discriminate;
      intros H; apply Qlt_le_weak; now apply Qgt_alt.
  - intros a b c. apply float_ge_trans.
Qed.

(** X18.  The top anomalies of the report, whenever that part of the script
    runs to its end: they are rows of the target mall that are flagged, three
    of them or all there are when fewer, with the columns of the joined
    frame; and together with the flagged rows of the mall left out they make
    up all such rows, ordered so that each row has a value at least that of
    every row after it, a missing value counting as the smallest.  So no row
    left out has a larger value than a row reported. *)
Theorem X18_top_anomalies (merged_df top : DataFrame) (target_mall : string) :
  report.top_anomalies merged_df target_mall = Ok top ->
  let candidates :=
    List.filter (mall_flagged (columns merged_df) target_mall)
                (data merged_df) in
  columns top = columns merged_df
  /\ length (data top) = Nat.min 3 (length candidates)
  /\ exists rest,
       Permutation (data top ++ rest) candidates
       /\ StronglySorted (value_ge (columns merged_df)) (data top ++ rest).
Proof.
  unfold report.top_anomalies, report.where_text, report.where_one,
    report.sort_values_y_descending.
  destruct (app.column merged_df "unique_id") as [ids|] eqn:Hid;
    [|discriminate].
  cbn [mbind result_bind columns data].
  set (mall_rows := map fst (List.filter _ (combine (data merged_df) ids))).
  destruct (app.column (mkFrame (columns merged_df) mall_rows) "anomaly")
    as [flags|] eqn:Hfl; [|discriminate].
  cbn [mbind result_bind columns data].
  set (flagged := map fst (List.filter _ (combine mall_rows flags))).
  destruct (mapM _ flagged) as [keyed|] eqn:Hk; [|discriminate].
  cbn [mbind result_bind columns data]. intros [= <-]. cbn zeta.
  unfold report.head. cbn [columns data].
  assert (Hflagged : flagged
                     = List.filter (mall_flagged (columns merged_df) target_mall)
                                   (data merged_df)).
  { unfold flagged, mall_rows.
    rewrite (where_combine (columns merged_df) "anomaly" app.is_one)
      by exact (column_Ok _ _ _ Hfl).
    rewrite (where_combine (columns merged_df) "unique_id"
               (fun x => cell_eqb x (CStr target_mall)))
      by exact (column_Ok _ _ _ Hid).
    rewrite filter_filter. apply filter_ext. intros row.
    unfold mall_flagged, row_flagged, opt_cell_eqb.
    now destruct (row_get (columns merged_df) row "unique_id"). }
  apply mapM_Ok in Hk.
  set (ranked := pd.sort_by report.y_descending keyed).
  assert (Hperm : Permutation (map snd ranked) flagged).
  { transitivity (map snd keyed); [apply Permutation_map, sort_by_perm|].
    assert (E : map snd keyed = flagged).
    { clear -Hk. induction Hk as [|row k rows ks H _ IH]; [reflexivity|].
      simpl. rewrite IH. f_equal.
      destruct (report.y_of _ row); [|discriminate].
      simpl in H. now injection H as <-. }
    now rewrite E. }
  split; [reflexivity|]. split.
  - rewrite length_firstn, <- Hflagged, <- (Permutation_length Hperm).
    reflexivity.
  - exists (skipn 3 (map snd ranked)). rewrite firstn_skipn, <- Hflagged.
    split; [exact Hperm|].
    assert (Hval : Forall (fun kr => report.y_of (columns merged_df) (snd kr)
                                     = Ok (fst kr)) ranked).
    { apply List.Forall_forall. intros kr Hin.
      apply (Permutation_in _ (sort_by_perm _ _)) in Hin.
      clear -Hk Hin. induction Hk as [|row k rows ks H _ IH]; [destruct Hin|].
      destruct Hin as [<-|Hin]; [|now apply IH].
      destruct (report.y_of _ row) eqn:E; [|discriminate].
      simpl in H. injection H as <-. exact E. }
    apply (StronglySorted_map
             (fun a b => keyed_ge a b
                         /\ report.y_of (columns merged_df) (snd a) = Ok (fst a)
                         /\ report.y_of (columns merged_df) (snd b) = Ok (fst b))).
    + intros a b (Hge & Ha & Hb). exists (fst a), (fst b). auto.
    + apply (StronglySorted_Forall keyed_ge
               (fun kr => report.y_of (columns merged_df) (snd kr)
                          = Ok (fst kr)));
        [apply y_descending_sorted | exact Hval].
Qed.

Lemma X18_top_anomalies_witness :
  exists top,
    report.top_anomalies seven_flagged "A" = Ok top
    /\ length (data top) = 3%nat.
Proof.
  destruct (report.top_anomalies seven_flagged "A") as [top|] eqn:E;
    [|vm_compute in E; discriminate].
  exists top. split; [reflexivity|].
  exact (proj1 (proj2 (X18_top_anomalies seven_flagged top "A" E))).
Defined.

(** ** The credential file, on every file *)

(** The loop body in terms of the pair a line defines. *)
Lemma load_env_line_binding (line : string) (environ : gmap string string) :
  load_env_line line environ
  = match line_binding line with
    | Some (name, value) => environ_setitem name value environ
    | None => (Ok tt, environ)
    end.
Proof.
  unfold load_env_line, line_binding.
  destruct (split1 "=" line) as [name [value|]] eqn:E.
  - destruct (split1_Some _ _ _ _ E) as [Hline Hname].
    assert (Hc : contains_char "=" line = true).
    { rewrite Hline, contains_char_app. simpl. apply orb_true_r. }
    now rewrite Hc, (split1_strip _ _ _ E), strip_lstrip, strip_rstrip.
  - now rewrite (split1_None _ _ _ E).
Qed.

(** Writing a pair either succeeds, under a name that is not empty, or
    raises and leaves the environment as it is; which of the two depends on
    the pair alone. *)
Lemma environ_setitem_cases (name value : string) :
  (name <> EmptyString
   /\ forall environ,
        environ_setitem name value environ
        = (Ok tt, <[name := value]> environ))
  \/ (exists e, forall environ,
        environ_setitem name value environ = (Raise e, environ)).
Proof.
  unfold environ_setitem.
  destruct (contains_char "000" name || contains_char "000" value);
    [right; eauto|].
  destruct (contains_char "=" name); [right; eauto|].
  destruct (String.eqb_spec name EmptyString); [right; eauto|].
  left. split; [assumption | reflexivity].
Qed.

Lemma load_env_line_cases (line : string) :
  (forall environ, load_env_line line environ = (Ok tt, environ))
     /\ line_binding line = None
  \/ (exists name value,
        line_binding line = Some (name, value) /\ name <> EmptyString
        /\ forall environ,
             load_env_line line environ = (Ok tt, <[name := value]> environ))
  \/ (exists e, forall environ,
        load_env_line line environ = (Raise e, environ)).
Proof.
  destruct (line_binding line) as [[name value]|] eqn:E.
  - destruct (environ_setitem_cases name value) as [[Hne H] | [e H]].
    + right. left. exists name, value. repeat split; [exact Hne|].
      intros environ. rewrite load_env_line_binding, E. apply H.
    + right. right. exists e. intros environ.
      rewrite load_env_line_binding, E. apply H.
  - left. split; [|reflexivity]. intros environ.
    now rewrite load_env_line_binding, E.
Qed.

Lemma last_binding_None (name : string) (bindings : list (string * string)) :
  last_binding name bindings = None <-> ~ In name (map fst bindings).
Proof.
  induction bindings as [|[k v] rest IH]; simpl; [tauto|].
  destruct (last_binding name rest) as [v'|].
  - split; [discriminate|]. intros H. exfalso. apply H. right.
    destruct (in_dec string_dec name (map fst rest)) as [Hin|Hin];
      [exact Hin|]. apply IH in Hin. discriminate.
  - destruct (String.eqb_spec k name) as [->|Hne].
    + split; [discriminate | tauto].
    + split; [|reflexivity]. intros _ [E|Hin]; [contradiction|].
      now apply (proj1 IH).
Qed.

Lemma last_binding_In (name value : string)
    (bindings : list (string * string)) :
  last_binding name bindings = Some value -> In (name, value) bindings.
Proof.
  induction bindings as [|[k v] rest IH]; simpl; [discriminate|].
  destruct (last_binding name rest) as [v'|].
  - intros [= <-]. right. now apply IH.
  - destruct (String.eqb_spec k name) as [->|Hne]; [|discriminate].
    intros [= <-]. now left.
Qed.

Lemma file_bindings_cons (line : string) (lines : list string) :
  file_bindings (line :: lines)
  = match line_binding line with
    | Some p => p :: file_bindings lines
    | None => file_bindings lines
    end.
Proof. reflexivity. Qed.

(** What a run that succeeds leaves under each name. *)
Lemma load_env_lines_lookup (lines : list string)
    (environ environ' : gmap string string) :
  load_env_lines lines environ = (Ok tt, environ') ->
  forall name,
    environ' !! name
    = match last_binding name (file_bindings lines) with
      | Some value => Some value
      | None => environ !! name
      end.
Proof.
  revert environ. induction lines as [|line lines IH]; intros environ.
  - intros [= <-] name. reflexivity.
  - cbn [load_env_lines]. rewrite file_bindings_cons.
    destruct (load_env_line_cases line)
      as [[H Hb] | [(k & v & Hb & _ & H) | [e H]]]; rewrite H, ?Hb.
    + apply IH.
    + intros Hrun name. rewrite (IH _ Hrun name). cbn [last_binding].
      destruct (last_binding name (file_bindings lines)); [reflexivity|].
      destruct (String.eqb_spec k name) as [->|Hne].
      * apply lookup_insert_eq.
      * now apply lookup_insert_ne.
    + discriminate.
Qed.

(** Whether a run succeeds, and the exception it raises when it does not,
    depend on the file alone. *)
Lemma load_env_lines_outcome (lines : list string)
    (environ other : gmap string string) :
  fst (load_env_lines lines environ) = fst (load_env_lines lines other).
Proof.
  revert environ other.
  induction lines as [|line lines IH]; intros environ other; [reflexivity|].
  cbn [load_env_lines].
  destruct (load_env_line_cases line)
    as [[H _] | [(k & v & _ & _ & H) | [e H]]];
    rewrite (H environ), (H other); [apply IH | apply IH | reflexivity].
Qed.

(** What every run, failed or not, leaves in the environment. *)
Lemma load_env_lines_frame (lines : list string)
    (environ : gmap string string) :
  let environ' := snd (load_env_lines lines environ) in
  (forall name, ~ In name (map fst (file_bindings lines)) ->
                environ' !! name = environ !! name)
  /\ (forall name, is_Some (environ !! name) -> is_Some (environ' !! name))
  /\ (forall name value, environ' !! name = Some value ->
        environ !! name = Some value
        \/ In (name, value) (file_bindings lines))
  /\ environ' !! EmptyString = environ !! EmptyString.
Proof.
  revert environ. induction lines as [|line lines IH]; intros environ.
  - cbn. repeat split; auto.
  - cbn [load_env_lines]. rewrite file_bindings_cons.
    destruct (load_env_line_cases line)
      as [[H Hb] | [(k & v & Hb & Hk & H) | [e H]]]; rewrite H, ?Hb.
    + apply IH.
    + destruct (IH (<[k := v]> environ)) as (I1 & I2 & I3 & I4).
      cbn zeta in *. split; [|split; [|split]].
      * intros name Hn. cbn [map fst In] in Hn.
        rewrite I1 by tauto. apply lookup_insert_ne. tauto.
      * intros name Hs. apply I2. rewrite lookup_insert_is_Some. 
        destruct (decide (k = name)); auto.
      * intros name value [Hv|Hv]%I3; [|right; now right].
        apply lookup_insert_Some in Hv as [[<- <-]|[_ Hv]];
          [right; now left | now left].
      * rewrite I4. now apply lookup_insert_ne.
    + cbn. repeat split; auto.
Qed.

Lemma load_env_lines_app (before rest : list string)
    (environ environ1 : gmap string string) :
  load_env_lines before environ = (Ok tt, environ1) ->
  load_env_lines (before ++ rest) environ = load_env_lines rest environ1.
Proof.
  revert environ. induction before as [|line before IH]; intros environ.
  - now intros [= <-].
  - cbn [load_env_lines app].
    destruct (load_env_line line environ) as [[[]|e] env]; [apply IH|].
    discriminate.
Qed.

(** X19.  A run of the loader that succeeds, in either program: every name
    ends up with the value of the last line of the file that defines it, and
    a name the file does not define keeps what it had; so the key the page
    proposes is the one of the file when the file has one.  Loading the same
    file again changes nothing, and on any other environment the run succeeds
    as well and leaves the same values under the names of the file. *)
Theorem X19_last_definition_wins (text : string)
    (environ environ' : gmap string string) :
  app.load_env (Some text) environ = (Ok tt, environ') ->
  (forall name,
     environ' !! name
     = match last_binding name (file_bindings (readlines text)) with
       | Some value => Some value
       | None => environ !! name
       end)
  /\ anomaly_detection.load_env (Some text) environ = (Ok tt, environ')
  /\ app.load_env (Some text) environ' = (Ok tt, environ')
  /\ (forall other, exists other',
        app.load_env (Some text) other = (Ok tt, other')
        /\ forall name,
             In name (map fst (file_bindings (readlines text))) ->
             other' !! name = environ' !! name).
Proof.
  cbn [app.load_env anomaly_detection.load_env]. intros Hrun.
  pose proof (load_env_lines_lookup _ _ _ Hrun) as Hlook.
  assert (Hany : forall other, exists other',
             load_env_lines (readlines text) other = (Ok tt, other')).
  { intros other.
    pose proof (load_env_lines_outcome (readlines text) other environ) as H.
    rewrite Hrun in H.
    destruct (load_env_lines (readlines text) other) as [r other'].
    cbn in H. subst r. eauto. }
  split; [exact Hlook|]. split; [exact Hrun|]. split.
  - destruct (Hany environ') as [again Hagain]. rewrite Hagain. f_equal.
    apply map_eq. intros name.
    rewrite (load_env_lines_lookup _ _ _ Hagain name), (Hlook name).
    now destruct (last_binding name _).
  - intros other. destruct (Hany other) as [other' Hother].
    exists other'. split; [exact Hother|]. intros name Hin.
    rewrite (load_env_lines_lookup _ _ _ Hother name), (Hlook name).
    destruct (last_binding name _) eqn:E; [reflexivity|].
    apply last_binding_None in E. contradiction.
Qed.

Lemma X19_last_definition_wins_witness :
  exists environ',
    app.load_env (Some dotenv_ok) ∅ = (Ok tt, environ')
    /\ app.load_env (Some dotenv_ok) environ' = (Ok tt, environ').
Proof.
  destruct (app.load_env (Some dotenv_ok) ∅) as [r environ'] eqn:E.
  assert (Hr : r = Ok tt).
  { change r with (fst (r, environ')). rewrite <- E. vm_compute. reflexivity. }
  subst r. exists environ'. split; [reflexivity|].
  exact (proj1 (proj2 (proj2 (X19_last_definition_wins dotenv_ok ∅ environ' E)))).
Defined.

(** X20.  Every run of the loader, failed or not, in either program: a name
    the file does not define keeps what it had; no name is removed; every
    value found afterwards was there before or is a pair of the file; nothing
    is ever written under the empty name; and whether the run succeeds, and
    the exception it raises when it does not, depend on the file alone. *)
Theorem X20_load_env_frame (dotenv : option string)
    (environ : gmap string string) :
  let lines := match dotenv with
               | Some text => readlines text
               | None => []
               end in
  let environ' := snd (app.load_env dotenv environ) in
  (forall name, ~ In name (map fst (file_bindings lines)) ->
                environ' !! name = environ !! name)
  /\ (forall name, is_Some (environ !! name) -> is_Some (environ' !! name))
  /\ (forall name value, environ' !! name = Some value ->
        environ !! name = Some value
        \/ In (name, value) (file_bindings lines))
  /\ environ' !! EmptyString = environ !! EmptyString
  /\ (forall other,
        fst (app.load_env dotenv other) = fst (app.load_env dotenv environ))
  /\ anomaly_detection.load_env dotenv environ = app.load_env dotenv environ.
Proof.
  destruct dotenv as [text|]; cbn [app.load_env].
  - cbn zeta.
    destruct (load_env_lines_frame (readlines text) environ)
      as (H1 & H2 & H3 & H4).
    split; [exact H1|]. split; [exact H2|]. split; [exact H3|].
    split; [exact H4|]. split; [|reflexivity].
    intros other. apply load_env_lines_outcome.
  - cbn. split; [|split; [|split; [|split; [|split]]]]; auto.
Qed.

(** X21.  The loop of the loader stops at the first line it cannot load:
    when the lines before it load and that line raises, the run raises the
    same exception, the environment is the one the lines before it made, and
    the lines after it are not read, whatever they are. *)
Theorem X21_stops_at_first_failure (before after : list string)
    (line : string) (environ environ1 : gmap string string) (e : exn) :
  load_env_lines before environ = (Ok tt, environ1) ->
  fst (load_env_line line environ1) = Raise e ->
  load_env_lines (before ++ line :: after) environ = (Raise e, environ1).
Proof.
  intros Hbefore Hline. rewrite (load_env_lines_app _ _ _ _ Hbefore).
  cbn [load_env_lines].
  destruct (load_env_line_cases line)
    as [[H _] | [(k & v & _ & _ & H) | [e' H]]];
    rewrite H in *; try discriminate.
  cbn in Hline. now injection Hline as ->.
Qed.

Lemma X21_stops_at_first_failure_witness :
  load_env_lines
    ([("KEY=1" +:+ nl)%string]
     ++ ("=secret" +:+ nl)%string :: [("LATER=2" +:+ nl)%string]) ∅
  = (Raise (OSError 22 "Invalid argument"), <["KEY"%string := "1"%string]> ∅).
Proof.
  apply (X21_stops_at_first_failure
           [("KEY=1" +:+ nl)%string] [("LATER=2" +:+ nl)%string]
           ("=secret" +:+ nl)%string ∅
           (<["KEY"%string := "1"%string]> ∅)
           (OSError 22 "Invalid argument")); reflexivity.
Defined.

(** ** The analysis of the dashboard *)

Lemma filter_isin_nil (df : list Row) : List.filter (app.isin []) df = [].
Proof. induction df as [|r df IH]; [reflexivity | exact IH]. Qed.

(** X22.  The calls the analysis of the page issues.  Without a key, without
    a selection, or when no row of the table belongs to a selected entity, it
    issues none; in the last case the join with the empty answer raises a
    [KeyError].  Otherwise it issues the call for the anomalies first, on the
    rows of the selected entities, and the call for the forecast, on the same
    rows and over 7 days, second and only when the forecast is asked for, the
    first call was answered and the join succeeded; it issues nothing else.
    A first call that raises ends the analysis with that exception.  When
    the first call is answered, the analysis ends after that one call with
    the exception of the join when the join raises and with the joined frame
    when the forecast is not asked for, and otherwise it issues the second
    call and ends with the joined frame and the forecast, or with the
    exception of the second call. *)
Theorem X22_analysis_calls
    (service : app.NixtlaClient -> app.Request -> result DataFrame)
    (daily_sales : list Row) (nixtla_api_key : string)
    (selected_items : list string) (sensitivity : Q) (show_forecast : bool)
    (calls : list app.Request) :
  let subset_df := List.filter (app.isin selected_items) daily_sales in
  let client := app.mkNixtlaClient nixtla_api_key in
  let detect := app.detect_anomalies_request subset_df "D" sensitivity in
  let forecast := app.forecast_request subset_df 7 "D" [80; 90]%Z in
  let run := app.main_analysis service daily_sales nixtla_api_key
                               selected_items sensitivity show_forecast calls in
  (nixtla_api_key = EmptyString \/ selected_items = [] -> run = (Ok None, calls))
  /\ (nixtla_api_key <> EmptyString -> selected_items <> [] ->
      subset_df = [] -> run = (Raise (KeyError "merge key"), calls))
  /\ (snd run = calls \/ snd run = calls ++ [detect]
      \/ snd run = calls ++ [detect; forecast])
  /\ (snd run = calls ++ [detect; forecast] ->
      show_forecast = true
      /\ exists anomalies_df merged_df,
           service client detect = Ok anomalies_df
           /\ app.main_merged_df daily_sales anomalies_df = Ok merged_df)
  /\ (forall e, nixtla_api_key <> EmptyString -> subset_df <> [] ->
        service client detect = Raise e ->
        run = (Raise e, calls ++ [detect]))
  /\ (forall anomalies_df,
        nixtla_api_key <> EmptyString -> subset_df <> [] ->
        service client detect = Ok anomalies_df ->
        (forall e, app.main_merged_df daily_sales anomalies_df = Raise e ->
                   run = (Raise e, calls ++ [detect]))
        /\ (forall merged_df,
              app.main_merged_df daily_sales anomalies_df = Ok merged_df ->
              show_forecast = false ->
              run = (Ok (Some (merged_df, None)), calls ++ [detect]))
        /\ (forall merged_df,
              app.main_merged_df daily_sales anomalies_df = Ok merged_df ->
              show_forecast = true ->
              run = (match service client forecast with
                     | Ok forecast_df => Ok (Some (merged_df, Some forecast_df))
                     | Raise e => Raise e
                     end,
                     calls ++ [detect; forecast]))).
Proof.
  cbn zeta. unfold app.main_analysis.
  assert (Hno1 : forall a : app.Request, calls <> calls ++ [a]).
  { intros a H. apply (f_equal (@length _)) in H.
    rewrite length_app in H. simpl in H. lia. }
  assert (Hno2 : forall a b : app.Request, calls <> calls ++ [a; b]).
  { intros a b H. apply (f_equal (@length _)) in H.
    rewrite length_app in H. simpl in H. lia. }
  assert (Hno3 : forall a b : app.Request, calls ++ [a] <> calls ++ [a; b]).
  { intros a b H%app_inv_head. discriminate. }
  destruct (String.eqb_spec nixtla_api_key EmptyString) as [Hkey|Hkey].
  { split; [reflexivity|]. split; [contradiction|]. split; [now left|].
    split; [intros H; now apply Hno2 in H|].
    split; [contradiction|]. intros a H. contradiction. }
  destruct selected_items as [|item items].
  { rewrite filter_isin_nil.
    split; [reflexivity|]. split; [contradiction|]. split; [now left|].
    split; [intros H; now apply Hno2 in H|].
    split; [intros e _ H; contradiction | intros a _ H; contradiction]. }
  set (selected_items := item :: items).
  unfold app.detect_anomalies, app.generate_forecast.
  destruct (List.filter (app.isin selected_items) daily_sales)
    as [|r subset] eqn:Hsub.
  { cbn. split; [intros [|]; [contradiction|discriminate]|].
    split; [reflexivity|]. split; [now left|].
    split; [intros H; now apply Hno2 in H|].
    split; [intros e _ H; contradiction | intros a _ H; contradiction]. }
  unfold app.net_call.
  set (detect := app.detect_anomalies_request (r :: subset) "D" sensitivity).
  set (forecast := app.forecast_request (r :: subset) 7 "D" [80; 90]%Z).
  split; [intros [|]; [contradiction|discriminate]|].
  split; [discriminate|].
  destruct (service (app.mkNixtlaClient nixtla_api_key) detect)
    as [anomalies_df|e0] eqn:Hd.
  - destruct (app.main_merged_df daily_sales anomalies_df)
      as [merged_df|e1] eqn:Hm.
    + destruct show_forecast.
      * rewrite <- app_assoc. cbn [app].
        assert (Hs : snd (match service (app.mkNixtlaClient nixtla_api_key)
                                        forecast with
                          | Ok forecast_df =>
                              (Ok (Some (merged_df, Some forecast_df)),
                               calls ++ [detect; forecast])
                          | Raise e => (Raise e, calls ++ [detect; forecast])
                          end) = calls ++ [detect; forecast]).
        { now destruct (service _ forecast). }
        rewrite Hs. split; [now right; right|].
        split; [intros _; split; [reflexivity|]; eauto|].
        split; [discriminate|].
        intros a _ _ [= <-]. rewrite Hm.
        split; [discriminate|]. split; [discriminate|].
        intros m [= <-] _. now destruct (service _ forecast).
      * cbn [snd]. split; [now right; left|].
        split; [intros H; now apply Hno3 in H|]. split; [discriminate|].
        intros a _ _ [= <-]. rewrite Hm.
        split; [discriminate|].
        split; [now intros m [= <-] _ | discriminate].
    + cbn [snd]. split; [now right; left|].
      split; [intros H; now apply Hno3 in H|]. split; [discriminate|].
      intros a _ _ [= <-]. rewrite Hm.
      split; [now intros e [= <-]|]. split; discriminate.
  - cbn [snd]. split; [now right; left|].
    split; [intros H; now apply Hno3 in H|].
    split; [now intros e _ _ [= <-] | discriminate].
Qed.

Lemma X22_analysis_calls_witness :
  snd (app.main_analysis service_up regular_A "key" ["A"%string] 99 true [])
  = [app.detect_anomalies_request regular_A "D" 99;
     app.forecast_request regular_A 7 "D" [80; 90]%Z]
  /\ snd (app.main_analysis service_up regular_A "key" ["A"%string] 99 false [])
     = [app.detect_anomalies_request regular_A "D" 99].
Proof.
  destruct (app.main_merged_df regular_A answer_with_y) as [merged_df|] eqn:E;
    [|vm_compute in E; discriminate].
  split.
  - destruct (X22_analysis_calls service_up regular_A "key" ["A"%string]
                99 true []) as (_ & _ & _ & _ & _ & H).
    destruct (H answer_with_y) as (_ & _ & Hrun);
      [discriminate | discriminate | reflexivity |].
    rewrite (Hrun merged_df E eq_refl). reflexivity.
  - destruct (X22_analysis_calls service_up regular_A "key" ["A"%string]
                99 false []) as (_ & _ & _ & _ & _ & H).
    destruct (H answer_with_y) as (_ & Hrun & _);
      [discriminate | discriminate | reflexivity |].
    rewrite (Hrun merged_df E eq_refl). reflexivity.
Defined.

(** ** The sales figure of the page *)

Lemma column_map {A : Type} (cols : list string) (c : string)
    (f : A -> list Cell) (g : A -> Cell) (l : list A) :
  mem c cols = true ->
  (forall a, row_get cols (f a) c = Some (g a)) ->
  app.column (mkFrame cols (map f l)) c = Ok (map g l).
Proof.
  intros Hc Hget. unfold app.column, has_column. cbn [columns data].
  rewrite Hc. induction l as [|a l IH]; [reflexivity|].
  cbn [map]. apply mapM_cons_Ok; [|exact IH].
  unfold app.getitem. now rewrite Hget.
Qed.

Lemma filter_map_comm {A B : Type} (f : A -> B) (p : B -> bool) (l : list A) :
  List.filter p (map f l) = map f (List.filter (fun a => p (f a)) l).
Proof.
  induction l as [|a l IH]; simpl; [reflexivity|].
  destruct (p (f a)); simpl; now rewrite IH.
Qed.

Lemma cells_sum_numbers {A : Type} (v : A -> Q) (l : list A) :
  app.cells_sum (map (fun a => CNum (v a)) l) = Ok (pd.series_sum (map v l)).
Proof.
  unfold app.cells_sum.
  assert (E : mapM app.as_float (map (fun a => CNum (v a)) l)
              = Ok (map (fun a => Some (v a)) l)).
  { induction l as [|a l IH]; [reflexivity|].
    cbn [map]. now apply mapM_cons_Ok. }
  rewrite E. cbn [mbind result_bind]. now rewrite map_map.
Qed.

Lemma sum_app (l1 l2 : list Q) :
  (fold_right Qplus 0 (l1 ++ l2)
   == fold_right Qplus 0 l1 + fold_right Qplus 0 l2)%Q.
Proof.
  induction l1 as [|a l1 IH]; cbn [app fold_right]; [ring|].
  rewrite IH. ring.
Qed.

(** X23.  The sales figure of the page, on any answer with which the join
    succeeds: it is the sum, over the rows of the table that belong to a
    selected entity, of the value of the row times the number of rows of the
    answer that carry its key.  A day the service did not answer counts for
    nothing, and a day it answered twice counts twice; when every row of the
    selected entities is answered once, the figure is the total of these
    rows. *)
Theorem X23_total_sales (daily_sales : list Row)
    (anomalies_df merged_df : DataFrame) (selected_items : list string) :
  app.main_merged_df daily_sales anomalies_df = Ok merged_df ->
  exists n,
    app.total_sales merged_df selected_items = Ok n
    /\ (n == fold_right Qplus 0
               (map (fun r => inject_Z (Z.of_nat
                                          (copies how_inner anomalies_df r))
                              * y r)
                    (List.filter (app.isin selected_items) daily_sales)))%Q
    /\ ((forall r, In r daily_sales ->
                   app.isin selected_items r = true ->
                   length (answers anomalies_df r) = 1%nat) ->
        (n == total (List.filter (app.isin selected_items) daily_sales))%Q).
Proof.
  unfold app.main_merged_df. intros Hm.
  destruct (merge_series _ _ _ _ Hm) as (rlabels & _ & Hcols & _).
  destruct (merge_series_data _ _ _ _ Hm) as [Hdata _].
  set (extra := non_key_cells ["unique_id"; "ds"]%string
                              (columns anomalies_df)) in Hdata.
  set (pairs := flat_map (fun r => map (fun a => (r, extra a))
                                       (answers anomalies_df r))
                         daily_sales).
  set (cells := fun p : Row * list Cell => row_cells (fst p) ++ snd p).
  assert (Hrows : data merged_df = map cells pairs).
  { rewrite Hdata. unfold pairs. clear.
    induction daily_sales as [|r l IH]; [reflexivity|].
    cbn [flat_map]. rewrite map_app, <- IH. f_equal.
    rewrite map_map. now destruct (answers anomalies_df r). }
  assert (Hframe : merged_df = mkFrame (series_columns ++ rlabels)
                                       (map cells pairs)).
  { destruct merged_df as [c d]. cbn in Hcols, Hrows. now subst. }
  set (chosen := List.filter (fun p => app.isin selected_items (fst p)) pairs).
  assert (Hsum : app.total_sales merged_df selected_items
                 = Ok (pd.series_sum (map (fun p => y (fst p)) chosen))).
  { rewrite Hframe. unfold app.total_sales.
    rewrite (column_map _ "unique_id" cells
               (fun p => CStr (unique_id (fst p))))
      by (reflexivity || (intros; reflexivity)).
    cbn [mbind result_bind columns data].
    rewrite (where_combine (series_columns ++ rlabels) "unique_id"
               (app.cell_isin selected_items) (map cells pairs)
               (map (fun p => CStr (unique_id (fst p))) pairs)).
    - rewrite filter_map_comm.
      rewrite (column_map _ "y" cells (fun p => CNum (y (fst p))))
        by (reflexivity || (intros; reflexivity)).
      cbn [mbind result_bind]. rewrite cells_sum_numbers. reflexivity.
    - clear. induction pairs as [|p l IH]; constructor; [reflexivity|exact IH]. }
  assert (Hlaw : (fold_right Qplus 0 (map (fun p => y (fst p)) chosen)
                  == fold_right Qplus 0
                       (map (fun r => inject_Z (Z.of_nat
                                        (copies how_inner anomalies_df r))
                                      * y r)
                            (List.filter (app.isin selected_items)
                                         daily_sales)))%Q).
  { unfold chosen, pairs, copies. clear.
    induction daily_sales as [|r l IH]; [reflexivity|].
    cbn [flat_map List.filter]. rewrite List.filter_app, map_app.
    assert (Hr : forall ms : list (list Cell),
               List.filter (fun p => app.isin selected_items (fst p))
                           (map (fun a => (r, extra a)) ms)
               = if app.isin selected_items r
                 then map (fun a => (r, extra a)) ms else []).
    { induction ms as [|a ms IHm]; cbn [map List.filter fst];
        [now destruct (app.isin selected_items r)|].
      rewrite IHm. now destruct (app.isin selected_items r). }
    rewrite Hr. rewrite sum_app.
    destruct (app.isin selected_items r).
    - cbn [map fold_right]. rewrite IH. apply Qplus_comp; [|reflexivity].
      rewrite map_map. cbn [fst].
      induction (answers anomalies_df r) as [|a ms IHm];
        [cbn; ring|].
      cbn [map fold_right length]. rewrite IHm, inject_succ. ring.
    - rewrite IH. cbn. ring. }
  eexists. split; [exact Hsum|]. split.
  - rewrite series_sum_fold_right. exact Hlaw.
  - intros Hone. rewrite series_sum_fold_right, Hlaw. unfold total.
    rewrite series_sum_fold_right. unfold copies.
    assert (Hin : forall r, In r (List.filter (app.isin selected_items)
                                              daily_sales) ->
                            length (answers anomalies_df r) = 1%nat).
    { intros r [Hr Hs]%filter_In. now apply Hone. }
    clear -Hin.
    induction (List.filter (app.isin selected_items) daily_sales)
      as [|r l IH]; [reflexivity|].
    cbn [map fold_right]. rewrite IH by (intros; apply Hin; now right).
    rewrite (Hin r (or_introl eq_refl)). cbn. ring.
Qed.

Lemma X23_total_sales_witness :
  exists merged_df n,
    app.main_merged_df regular_A answer_without_y = Ok merged_df
    /\ app.total_sales merged_df ["A"%string] = Ok n.
Proof.
  destruct (app.main_merged_df regular_A answer_without_y)
    as [merged_df|] eqn:E; [|vm_compute in E; discriminate].
  destruct (X23_total_sales regular_A answer_without_y merged_df
              ["A"%string] E) as (n & Hn & _).
  exists merged_df, n. split; [reflexivity | exact Hn].
Defined.
